(** * Rivion: the search-and-aggregation backend

    A shallow embedding of the FastAPI backend of the repository
    (backend/app/config.py, routes/search.py and services/*.py) and
    the properties of its search orchestration, emotion aggregation and session
    clean-up; and of the handlers of the React client that calls it
    (frontend/src/utils/api.js, App.jsx and its components).

    Conventions of the embedding:
    - Python [dict]s keep their insertion order, so they are association lists
      whose keys are pairwise distinct;
    - a Python [float] that the code obtains as the quotient of two integers, or
      writes as a decimal literal, is the rational number it denotes;
    - a [datetime] is a number of microseconds since the epoch;
    - a Python function that can raise returns in [Exc];
    - the bodies of the functions are modelled, not the loading of their
      modules. *)

From Stdlib Require Import List String Ascii ZArith QArith Bool Arith Lia.
From Stdlib.Strings Require Import Byte.
From Stdlib Require Import DecimalString DecimalNat Permutation.
Import ListNotations.
Close Scope Q_scope.
Open Scope string_scope.
Open Scope nat_scope.

(** ** Exceptions *)

(** The exception classes that the modelled code can meet.  [HTTPException] is
    the one that the route raises itself; the others come out of the libraries
    the code calls. *)
Inductive PyError : Type :=
  | IntegrityError      (* a primary key or unique constraint is violated *)
  | OperationalError    (* the database cannot be reached *)
  | ClientError         (* the object store refuses the request *)
  | BinasciiError       (* base64.b64decode on a malformed string *)
  | OverflowError       (* datetime arithmetic out of range *)
  | AttributeError      (* attribute access on None *)
  | ValueError          (* max() of an empty sequence *)
  | KeyError            (* missing dict key *)
  | ZeroDivisionError
  | OSError             (* a file cannot be opened *)
  | CvError             (* cv2.error *)
  | RuntimeError.       (* any other failure inside a model library *)

Inductive exn : Type :=
  | HTTPException (status_code : Z) (detail : string)
  | PyExc (e : PyError).

Inductive Exc (A : Type) : Type :=
  | Return (a : A)
  | Raise (e : exn).
Arguments Return {A} a.
Arguments Raise {A} e.

Definition exc_bind {A B} (m : Exc A) (f : A -> Exc B) : Exc B :=
  match m with
  | Return a => f a
  | Raise e => Raise e
  end.

Declare Scope exc_scope.
Delimit Scope exc_scope with exc.
Notation "x <- m ;; k" := (exc_bind m (fun x => k))
  (at level 61, m at next level, right associativity) : exc_scope.

(** ** Python built-ins used by the services *)

Module Py.

(** A [dict] with string keys, in insertion order. *)
Definition dict (V : Type) : Type := list (string * V).

Definition keys {V} (d : dict V) : list string := map fst d.

(** [d.get(k)] *)
Fixpoint get {V} (d : dict V) (k : string) : option V :=
  match d with
  | [] => None
  | (k', v) :: d' => if String.eqb k' k then Some v else get d' k
  end.

(** [d.get(k, default)] *)
Definition get_default {V} (d : dict V) (k : string) (default : V) : V :=
  match get d k with
  | Some v => v
  | None => default
  end.

(** [d[k]] *)
Definition index {V} (d : dict V) (k : string) : Exc V :=
  match get d k with
  | Some v => Return v
  | None => Raise (PyExc KeyError)
  end.

(** [d[k] = v]: an existing key keeps its place, a new one goes last. *)
Fixpoint set {V} (d : dict V) (k : string) (v : V) : dict V :=
  match d with
  | [] => [(k, v)]
  | (k', v') :: d' =>
      if String.eqb k' k then (k', v) :: d' else (k', v') :: set d' k v
  end.

(** The loop of [max(iterable, key=...)]: the running maximum is replaced
    only by a strictly greater item, so the first maximal item wins. *)
Fixpoint max_from {A} (gt : A -> A -> bool) (best : A) (l : list A) : A :=
  match l with
  | [] => best
  | x :: l' => max_from gt (if gt x best then x else best) l'
  end.

Definition max_by {A} (gt : A -> A -> bool) (l : list A) : Exc A :=
  match l with
  | [] => Raise (PyExc ValueError)
  | x :: l' => Return (max_from gt x l')
  end.

(** [max(d, key=d.get)]: the keys of [d] are compared by their values.
    Every key that is compared is a key of [d], so [d.get] never yields
    [None] there. *)
Definition max_key {V} (gt : V -> V -> bool) (d : dict V) : Exc string :=
  max_by (fun a b => match get d a, get d b with
                     | Some x, Some y => gt x y
                     | _, _ => false
                     end)
         (keys d).

(** [a / b] on two ints. *)
Definition truediv (a b : nat) : Exc Q :=
  match b with
  | O => Raise (PyExc ZeroDivisionError)
  | S _ => Return (Qmake (Z.of_nat a) (Pos.of_nat b))
  end.

(** [{k: f(v) for k, v in d.items()}] for an [f] that can raise: the items
    are visited in order and each one is stored into the dict being built. *)
Fixpoint comprehension_from {V W} (f : V -> Exc W) (acc : dict W) (d : dict V)
  : Exc (dict W) :=
  match d with
  | [] => Return acc
  | (k, v) :: d' => (w <- f v ;; comprehension_from f (set acc k w) d')%exc
  end.

Definition comprehension {V W} (f : V -> Exc W) (d : dict V) : Exc (dict W) :=
  comprehension_from f [] d.

(** [l[:n]] *)
Definition slice_to {A} (n : Z) (l : list A) : list A :=
  if (0 <=? n)%Z then firstn (Z.to_nat n) l
  else firstn (List.length l - Z.to_nat (- n)) l.

End Py.

(** ** services/emotion.py *)

Definition EMOTION_LABELS : list string :=
  ["angry"; "disgust"; "fear"; "happy"; "neutral"; "sad"; "surprise"].

(** One entry of [emotion_results], the dict that the route builds for every
    classified image. *)
Module EmotionResult.
Record t : Type := {
  image_id : string;
  image_url : string;
  emotion : string;
  emotion_distribution : Py.dict Q;
  emotion_confidence : Q;
  similarity_score : Q
}.
End EmotionResult.

Definition bytes : Type := list byte.

(** ** The libraries and the environment

    What the services import and do not define: the codecs, the model
    libraries, the clock, the UUID generator and the faults of the database
    and of the object store.  The clock, the UUIDs and the faults are indexed
    by the number of interactions with the environment so far. *)
Record Env : Type := {
  Image : Type;       (* the array of a decoded bitmap *)
  Face : Type;        (* a 112x112 face crop *)
  Embedding : Type;   (* a 512-dimensional vector *)
  b64decode : string -> Exc bytes;
  imdecode : bytes -> Exc (option Image);
  detect_faces : Image -> Exc (list (Z * Z * Z * Z));
  crop : Image -> Z * Z * Z * Z -> Image;
  resize : Image -> Exc Face;
  analyzer_get : Face -> Exc (list Embedding);
  normalize : Embedding -> Embedding;
  open_rgb : string -> Exc unit;
  str : exn -> string;
  format_1f : Q -> string;
  utcnow : nat -> Z;
  uuid4 : nat -> string;
  commit_fault : nat -> option PyError;
  put_object_fault : nat -> option PyError
}.

Section Emotion.

Variable env : Env.

Definition Qgtb (a b : Q) : bool := negb (Qle_bool a b).

(** The body of the [try] of [analyze_emotion]. *)
Definition analyze_emotion_try (image_path : string)
  : Exc (string * Py.dict Q * Q) :=
  (_ <- open_rgb env image_path ;;
   let emotion_dist : Py.dict Q :=
     [("happy", 0.45); ("sad", 0.15); ("angry", 0.10); ("neutral", 0.20);
      ("fear", 0.05); ("surprise", 0.03); ("disgust", 0.02)]%Q in
   dominant_emotion <- Py.max_key Qgtb emotion_dist ;;
   confidence <- Py.index emotion_dist dominant_emotion ;;
   Return (dominant_emotion, emotion_dist, confidence))%exc.

Definition analyze_emotion (image_path : string)
  : Exc (string * Py.dict Q * Q) :=
  match analyze_emotion_try image_path with
  | Return r => Return r
  | Raise _ => Return ("neutral", [], 0%Q)
  end.

(** The counting loop of [aggregate_emotions]. *)
Definition count_step (emotion_counts : Py.dict nat) (result : EmotionResult.t)
  : Py.dict nat :=
  Py.set emotion_counts (EmotionResult.emotion result)
         (Py.get_default emotion_counts (EmotionResult.emotion result) 0 + 1).

Definition count_emotions (emotion_results : list EmotionResult.t) : Py.dict nat :=
  fold_left count_step emotion_results [].

Definition aggregate_emotions (emotion_results : list EmotionResult.t)
  : Exc (string * Q * Py.dict Q) :=
  match emotion_results with
  | [] => Return ("neutral", 0%Q, [])
  | _ :: _ =>
      let emotion_counts := count_emotions emotion_results in
      (dominant_emotion <- Py.max_key (fun x y => y <? x) emotion_counts ;;
       let total_images := List.length emotion_results in
       dominant_count <- Py.index emotion_counts dominant_emotion ;;
       emotion_confidence <- Py.truediv dominant_count total_images ;;
       emotion_distribution <-
         Py.comprehension (fun count => Py.truediv count total_images)
                          emotion_counts ;;
       Return (dominant_emotion, emotion_confidence, emotion_distribution))%exc
  end.

End Emotion.

(** ** config.py *)

Record Settings : Type := {
  AWS_S3_BUCKET : string;
  MAX_IMAGES_TO_PROCESS : Z;
  FACE_SIMILARITY_THRESHOLD : Q;
  EMOTION_CONFIDENCE_THRESHOLD : Q;
  SESSION_EXPIRY_HOURS : Z;
  SESSION_CLEANUP_INTERVAL_HOURS : Z
}.

(** The defaults of the class; the environment file can override each. *)
Definition settings : Settings := {|
  AWS_S3_BUCKET := "face-emotion-bucket";
  MAX_IMAGES_TO_PROCESS := 50;
  FACE_SIMILARITY_THRESHOLD := 0.6%Q;
  EMOTION_CONFIDENCE_THRESHOLD := 0.3%Q;
  SESSION_EXPIRY_HOURS := 24;
  SESSION_CLEANUP_INTERVAL_HOURS := 1
|}.

(** ** datetime *)

Module Datetime.
Open Scope Z_scope.

Definition usec_per_hour : Z := 3600 * 1000000.
Definition usec_per_day : Z := 24 * usec_per_hour.

(** [datetime.min] and [datetime.max], in microseconds since 1970-01-01. *)
Definition min : Z := - 62135596800 * 1000000.
Definition max : Z := 253402300799 * 1000000 + 999999.

(** [timedelta(hours=h)]; a timedelta holds at most 999999999 days. *)
Definition timedelta_hours (h : Z) : Exc Z :=
  let d := h * usec_per_hour in
  if (- 999999999 * usec_per_day <=? d) && (d <? 1000000000 * usec_per_day)
  then Return d else Raise (PyExc OverflowError).

(** [t + d] *)
Definition add (t d : Z) : Exc Z :=
  if (min <=? t + d) && (t + d <=? max)
  then Return (t + d) else Raise (PyExc OverflowError).
End Datetime.

(** ** The tables of services/database.py *)

Module SessionUser.
Record t : Type := {
  session_id : string;                 (* primary key *)
  user_name : string;
  captured_image_base64 : string;
  captured_image_path : option string;
  embedding : option bytes;
  status : string;
  privacy_policy_agreed : string;
  timestamp : Z;
  created_at : Z;
  expires_at : Z
}.
End SessionUser.

Module EmotionLog.
Record t : Type := {
  emotion_id : string;                 (* primary key *)
  image_id : string;
  session_id : string;
  emotion_label : string;
  confidence : Q;
  emotion_distribution : Py.dict Q;
  analyzed_at : Z
}.
End EmotionLog.

Module SessionAggregatedEmotion.
Record t : Type := {
  aggregation_id : string;             (* primary key *)
  session_id : string;                 (* unique *)
  dominant_emotion : string;
  emotion_confidence : Q;
  emotion_distribution : Py.dict Q;
  statement : string;
  created_at : Z
}.
End SessionAggregatedEmotion.

(** ** The state outside the request *)

(** The calls that the route makes to the services, kept as a trace. *)
Inductive Call : Type :=
  | CallInsertSessionUser
  | CallUploadImageToS3
  | CallDetectAndAlignFace
  | CallExtractEmbedding
  | CallGetMatchedImages
  | CallAnalyzeEmotion (image_path : string)
  | CallInsertEmotionLog (image_id : string)
  | CallAggregateEmotions
  | CallInsertAggregatedEmotion.

Record World : Type := {
  session_user : list SessionUser.t;
  emotion_log : list EmotionLog.t;
  session_aggregated_emotion : list SessionAggregatedEmotion.t;
  s3 : Py.dict bytes;             (* the objects of the bucket, by key *)
  background_tasks : list string; (* sessions with a scheduled clean-up *)
  calls : list Call;              (* service calls so far, oldest first *)
  ticks : nat                     (* interactions with the environment so far *)
}.

Definition empty_world : World := {|
  session_user := []; emotion_log := []; session_aggregated_emotion := [];
  s3 := []; background_tasks := []; calls := []; ticks := 0
|}.

Definition with_session_user (f : list SessionUser.t -> list SessionUser.t)
  (w : World) : World :=
  {| session_user := f (session_user w); emotion_log := emotion_log w;
     session_aggregated_emotion := session_aggregated_emotion w;
     s3 := s3 w; background_tasks := background_tasks w;
     calls := calls w; ticks := ticks w |}.

Definition with_emotion_log (f : list EmotionLog.t -> list EmotionLog.t)
  (w : World) : World :=
  {| session_user := session_user w; emotion_log := f (emotion_log w);
     session_aggregated_emotion := session_aggregated_emotion w;
     s3 := s3 w; background_tasks := background_tasks w;
     calls := calls w; ticks := ticks w |}.

Definition with_aggregated
  (f : list SessionAggregatedEmotion.t -> list SessionAggregatedEmotion.t)
  (w : World) : World :=
  {| session_user := session_user w; emotion_log := emotion_log w;
     session_aggregated_emotion := f (session_aggregated_emotion w);
     s3 := s3 w; background_tasks := background_tasks w;
     calls := calls w; ticks := ticks w |}.

Definition with_s3 (f : Py.dict bytes -> Py.dict bytes) (w : World) : World :=
  {| session_user := session_user w; emotion_log := emotion_log w;
     session_aggregated_emotion := session_aggregated_emotion w;
     s3 := f (s3 w); background_tasks := background_tasks w;
     calls := calls w; ticks := ticks w |}.

Definition with_background_tasks (f : list string -> list string) (w : World)
  : World :=
  {| session_user := session_user w; emotion_log := emotion_log w;
     session_aggregated_emotion := session_aggregated_emotion w;
     s3 := s3 w; background_tasks := f (background_tasks w);
     calls := calls w; ticks := ticks w |}.

Definition with_calls (f : list Call -> list Call) (w : World) : World :=
  {| session_user := session_user w; emotion_log := emotion_log w;
     session_aggregated_emotion := session_aggregated_emotion w;
     s3 := s3 w; background_tasks := background_tasks w;
     calls := f (calls w); ticks := ticks w |}.

Definition with_ticks (f : nat -> nat) (w : World) : World :=
  {| session_user := session_user w; emotion_log := emotion_log w;
     session_aggregated_emotion := session_aggregated_emotion w;
     s3 := s3 w; background_tasks := background_tasks w;
     calls := calls w; ticks := f (ticks w) |}.

(** ** The monad of the services: state that survives an exception *)

Definition M (A : Type) : Type := World -> World * Exc A.

Definition ret {A} (a : A) : M A := fun w => (w, Return a).

Definition raise {A} (e : exn) : M A := fun w => (w, Raise e).

Definition bind {A B} (m : M A) (f : A -> M B) : M B :=
  fun w => match m w with
           | (w', Return a) => f a w'
           | (w', Raise e) => (w', Raise e)
           end.

(** [try: m  except Exception as e: h e] *)
Definition try_except {A} (m : M A) (h : exn -> M A) : M A :=
  fun w => match m w with
           | (w', Return a) => (w', Return a)
           | (w', Raise e) => h e w'
           end.

Definition lift {A} (x : Exc A) : M A := fun w => (w, x).

Definition modify (f : World -> World) : M unit := fun w => (f w, Return tt).

Definition read {A} (f : World -> A) : M A := fun w => (w, Return (f w)).

Declare Scope m_scope.
Delimit Scope m_scope with m.
Notation "x <- m ;; k" := (bind m (fun x => k))
  (at level 61, m at next level, right associativity) : m_scope.
Notation "m ;; k" := (bind m (fun _ => k))
  (at level 61, right associativity) : m_scope.

(** ** Strings *)

(** [',' in s] and [s.split(',')[1]]: the text between the first comma and
    the second one (or the end). *)
Fixpoint after_comma (s : string) : option string :=
  match s with
  | EmptyString => None
  | String c s' => if Ascii.eqb c "," then Some s' else after_comma s'
  end.

Fixpoint until_comma (s : string) : string :=
  match s with
  | EmptyString => EmptyString
  | String c s' => if Ascii.eqb c "," then EmptyString else String c (until_comma s')
  end.

Definition strip_data_url (base64_string : string) : string :=
  match after_comma base64_string with
  | Some rest => until_comma rest
  | None => base64_string
  end.

(** [s.upper()] on the ASCII letters, which is all that the label vocabulary
    holds. *)
Definition upper_ascii (c : ascii) : ascii :=
  let n := nat_of_ascii c in
  if (97 <=? n) && (n <=? 122) then ascii_of_nat (n - 32) else c.

Fixpoint upper (s : string) : string :=
  match s with
  | EmptyString => EmptyString
  | String c s' => String (upper_ascii c) (upper s')
  end.

(** [str(b)] on a bool. *)
Definition str_bool (b : bool) : string := if b then "True" else "False".

Module MatchedImage.
Record t : Type := {
  image_id : string;
  image_url : string;
  image_path : string;
  similarity_score : Q
}.
End MatchedImage.

Module SearchRequest.
Record t : Type := {
  session_id : string;
  user_name : string;
  captured_image : string;
  privacy_policy_agreed : bool;
  timestamp : string
}.
End SearchRequest.

Module SearchResponse.
Record t : Type := {
  matched_count : nat;
  matched_images : list EmotionResult.t;
  aggregated_state : string * Q * Py.dict Q;
    (* dominant_emotion, emotion_confidence, distribution *)
  statement : string;
  session_id : string
}.
End SearchResponse.

Section Services.

Variable env : Env.
Variable cfg : Settings.

Open Scope m_scope.

(** *** The environment *)

Definition tick : M nat :=
  fun w => (with_ticks S w, Return (ticks w)).

Definition datetime_utcnow : M Z := n <- tick ;; ret (utcnow env n).

Definition uuid_uuid4 : M string := n <- tick ;; ret (uuid4 env n).

(** The database executes the pending statements, or is out of reach. *)
Definition db_execute : M unit :=
  n <- tick ;;
  match commit_fault env n with
  | Some e => raise (PyExc e)
  | None => ret tt
  end.

(** *** services/database.py *)

Definition has_session_user (session_id : string) (w : World) : bool :=
  existsb (fun u => String.eqb (SessionUser.session_id u) session_id)
          (session_user w).

Definition has_emotion_log (emotion_id : string) (w : World) : bool :=
  existsb (fun l => String.eqb (EmotionLog.emotion_id l) emotion_id)
          (emotion_log w).

Definition has_aggregated (aggregation_id session_id : string) (w : World)
  : bool :=
  existsb (fun a =>
             String.eqb (SessionAggregatedEmotion.aggregation_id a) aggregation_id
             || String.eqb (SessionAggregatedEmotion.session_id a) session_id)
          (session_aggregated_emotion w).

Definition insert_session_user (session_id user_name captured_image_base64 : string)
  (privacy_policy_agreed : bool) : M unit :=
  try_except
    (now <- datetime_utcnow ;;
     delta <- lift (Datetime.timedelta_hours (SESSION_EXPIRY_HOURS cfg)) ;;
     expires_at <- lift (Datetime.add now delta) ;;
     (* session.add(user); session.commit(): the column defaults are filled
        in when the row is flushed *)
     timestamp <- datetime_utcnow ;;
     created_at <- datetime_utcnow ;;
     let user := {|
       SessionUser.session_id := session_id;
       SessionUser.user_name := user_name;
       SessionUser.captured_image_base64 := captured_image_base64;
       SessionUser.captured_image_path := None;
       SessionUser.embedding := None;
       SessionUser.status := "searching";
       SessionUser.privacy_policy_agreed := str_bool privacy_policy_agreed;
       SessionUser.timestamp := timestamp;
       SessionUser.created_at := created_at;
       SessionUser.expires_at := expires_at |} in
     db_execute ;;
     taken <- read (has_session_user session_id) ;;
     if taken : bool then raise (PyExc IntegrityError)
     else modify (with_session_user (fun t => (t ++ [user])%list)))
    (fun e => raise e).

Definition insert_emotion_log (image_id session_id emotion_label : string)
  (confidence : Q) (emotion_distribution : Py.dict Q) : M unit :=
  try_except
    (emotion_id <- uuid_uuid4 ;;
     analyzed_at <- datetime_utcnow ;;
     let log := {|
       EmotionLog.emotion_id := emotion_id;
       EmotionLog.image_id := image_id;
       EmotionLog.session_id := session_id;
       EmotionLog.emotion_label := emotion_label;
       EmotionLog.confidence := confidence;
       EmotionLog.emotion_distribution := emotion_distribution;
       EmotionLog.analyzed_at := analyzed_at |} in
     db_execute ;;
     taken <- read (has_emotion_log emotion_id) ;;
     if taken : bool then raise (PyExc IntegrityError)
     else modify (with_emotion_log (fun t => (t ++ [log])%list)))
    (fun e => ret tt).

Definition insert_aggregated_emotion (session_id dominant_emotion : string)
  (emotion_confidence : Q) (emotion_distribution : Py.dict Q)
  (statement : string) : M unit :=
  try_except
    (aggregation_id <- uuid_uuid4 ;;
     created_at <- datetime_utcnow ;;
     let agg := {|
       SessionAggregatedEmotion.aggregation_id := aggregation_id;
       SessionAggregatedEmotion.session_id := session_id;
       SessionAggregatedEmotion.dominant_emotion := dominant_emotion;
       SessionAggregatedEmotion.emotion_confidence := emotion_confidence;
       SessionAggregatedEmotion.emotion_distribution := emotion_distribution;
       SessionAggregatedEmotion.statement := statement;
       SessionAggregatedEmotion.created_at := created_at |} in
     db_execute ;;
     taken <- read (has_aggregated aggregation_id session_id) ;;
     if taken : bool then raise (PyExc IntegrityError)
     else modify (with_aggregated (fun t => (t ++ [agg])%list)))
    (fun e => ret tt).

(** The placeholder of the repository: one fixed match, whatever the query. *)
Definition get_matched_images (embedding : Embedding env) (limit : Z)
  (threshold : Q) : Exc (list MatchedImage.t) :=
  Return [ {| MatchedImage.image_id := "1";
              MatchedImage.image_url := "https://example.com/image1.jpg";
              MatchedImage.image_path := "/path/to/image1.jpg";
              MatchedImage.similarity_score := 0.95%Q |} ].

Definition purge (session_id : string) (w : World) : World :=
  with_aggregated
    (filter (fun a => negb (String.eqb (SessionAggregatedEmotion.session_id a)
                                       session_id)))
    (with_emotion_log
       (filter (fun l => negb (String.eqb (EmotionLog.session_id l) session_id)))
       (with_session_user
          (filter (fun u => negb (String.eqb (SessionUser.session_id u)
                                             session_id)))
          w)).

(** The three deletes are one transaction: committed together or not at
    all. *)
Definition delete_session (session_id : string) : M unit :=
  try_except
    (db_execute ;;
     modify (purge session_id))
    (fun e => ret tt).

(** *** services/s3_storage.py *)

Definition put_object (key : string) (body : bytes) : M unit :=
  n <- tick ;;
  match put_object_fault env n with
  | Some e => raise (PyExc e)
  | None => modify (with_s3 (fun objects => Py.set objects key body))
  end.

Definition upload_image_to_s3 (base64_image session_id : string) : M string :=
  try_except
    (image_data <- lift (b64decode env (strip_data_url base64_image)) ;;
     let key := "sessions/" ++ session_id ++ "/captured.jpg" in
     put_object key image_data ;;
     ret ("s3://" ++ AWS_S3_BUCKET cfg ++ "/" ++ key))
    (fun e => raise e).

(** *** services/face_detection.py *)

Definition facial_area_size (a : Z * Z * Z * Z) : Z :=
  let '(x1, y1, x2, y2) := a in ((x2 - x1) * (y2 - y1))%Z.

Definition detect_and_align_face_try (image_bytes : bytes)
  : Exc (option (Face env)) :=
  (image <- imdecode env image_bytes ;;
   match image with
   | None => Return None
   | Some image =>
       faces <- detect_faces env image ;;
       match faces with
       | [] => Return None
       | _ :: _ =>
           largest_face <-
             Py.max_by (fun a b => (facial_area_size b <? facial_area_size a)%Z)
                       faces ;;
           let face_image := crop env image largest_face in
           aligned_face <- resize env face_image ;;
           Return (Some aligned_face)
       end
   end)%exc.

Definition detect_and_align_face (image_bytes : bytes) : option (Face env) :=
  match detect_and_align_face_try image_bytes with
  | Return r => r
  | Raise _ => None
  end.

(** *** services/embedding.py *)

Definition extract_embedding (face_image : Face env) : option (Embedding env) :=
  match analyzer_get env face_image with
  | Return [] => None
  | Return (embedding :: _) => Some (normalize env embedding)
  | Raise _ => None
  end.

End Services.

(** ** routes/search.py *)

Definition NO_FACE_DETECTED : exn :=
  HTTPException 400
    "No face detected in the image. Please try again with a clearer image.".

Definition NO_MATCHES_FOUND : exn :=
  HTTPException 404 "No matching faces found in the database.".

Section Route.

Variable env : Env.
Variable cfg : Settings.

(** The two services that the repository leaves as placeholders are taken as
    parameters of the route: the similarity index and the emotion
    classifier.  [search_photos] below binds them to the repository's own
    definitions. *)
Variable matched_images_of : Embedding env -> Z -> Q -> Exc (list MatchedImage.t).
Variable emotion_of : string -> Exc (string * Py.dict Q * Q).

Open Scope m_scope.

Definition __decode_base64 (base64_string : string) : Exc bytes :=
  b64decode env (strip_data_url base64_string).

Definition call (c : Call) : M unit :=
  modify (with_calls (fun cs => (cs ++ [c])%list)).

(** One turn of the loop of step 6.  The record is appended to
    [emotion_results] before it is written to [emotion_log]; an exception
    anywhere in the turn is logged and the loop goes on. *)
Definition analyze_one (session_id : string)
  (emotion_results : list EmotionResult.t) (img : MatchedImage.t)
  : M (list EmotionResult.t) :=
  r <- try_except
         (call (CallAnalyzeEmotion (MatchedImage.image_path img)) ;;
          x <- lift (emotion_of (MatchedImage.image_path img)) ;;
          ret (Some x))
         (fun e => ret None) ;;
  match r with
  | None => ret emotion_results
  | Some (emotion_label, emotion_dist, confidence) =>
      let emotion_results' :=
        (emotion_results ++
           [ {| EmotionResult.image_id := MatchedImage.image_id img;
                EmotionResult.image_url := MatchedImage.image_url img;
                EmotionResult.emotion := emotion_label;
                EmotionResult.emotion_distribution := emotion_dist;
                EmotionResult.emotion_confidence := confidence;
                EmotionResult.similarity_score :=
                  MatchedImage.similarity_score img |} ])%list in
      try_except
        (call (CallInsertEmotionLog (MatchedImage.image_id img)) ;;
         insert_emotion_log env (MatchedImage.image_id img) session_id
           emotion_label confidence emotion_dist)
        (fun e => ret tt) ;;
      ret emotion_results'
  end.

Fixpoint analyze_all (session_id : string) (imgs : list MatchedImage.t)
  (emotion_results : list EmotionResult.t) : M (list EmotionResult.t) :=
  match imgs with
  | [] => ret emotion_results
  | img :: imgs' =>
      emotion_results' <- analyze_one session_id emotion_results img ;;
      analyze_all session_id imgs' emotion_results'
  end.

Definition make_statement (dominant_emotion : string) (emotion_confidence : Q)
  : string :=
  "The person's emotion state is " ++ upper dominant_emotion ++ " ("
    ++ format_1f env (emotion_confidence * 100)%Q ++ "% confidence)".

(** Steps 6 to 9 and the response. *)
Definition search_matches (session_id : string)
  (matched_images : list MatchedImage.t) : M SearchResponse.t :=
  emotion_results <-
    analyze_all session_id
      (Py.slice_to (MAX_IMAGES_TO_PROCESS cfg) matched_images) [] ;;
  call CallAggregateEmotions ;;
  agg <- lift (aggregate_emotions emotion_results) ;;
  let '(dominant_emotion, emotion_confidence, emotion_distribution) := agg in
  let statement := make_statement dominant_emotion emotion_confidence in
  call CallInsertAggregatedEmotion ;;
  insert_aggregated_emotion env session_id dominant_emotion emotion_confidence
    emotion_distribution statement ;;
  modify (with_background_tasks (fun ts => (ts ++ [session_id])%list)) ;;
  ret {| SearchResponse.matched_count := List.length emotion_results;
         SearchResponse.matched_images := emotion_results;
         SearchResponse.aggregated_state :=
           (dominant_emotion, emotion_confidence, emotion_distribution);
         SearchResponse.statement := statement;
         SearchResponse.session_id := session_id |}.

(** Steps 3 to 5: from the captured image to the matches. *)
Definition find_matches (request : SearchRequest.t) : M (list MatchedImage.t) :=
  image_bytes <- lift (__decode_base64 (SearchRequest.captured_image request)) ;;
  call CallDetectAndAlignFace ;;
  match detect_and_align_face env image_bytes with
  | None => raise NO_FACE_DETECTED
  | Some aligned_face =>
      call CallExtractEmbedding ;;
      match extract_embedding env aligned_face with
      | None => raise (PyExc AttributeError)   (* [embedding.shape] on None *)
      | Some embedding =>
          call CallGetMatchedImages ;;
          matched_images <-
            lift (matched_images_of embedding (MAX_IMAGES_TO_PROCESS cfg)
                    (FACE_SIMILARITY_THRESHOLD cfg)) ;;
          match matched_images with
          | [] => raise NO_MATCHES_FOUND
          | _ :: _ => ret matched_images
          end
      end
  end.

(** The body of the [try] of the route. *)
Definition search_photos_try (request : SearchRequest.t) : M SearchResponse.t :=
  call CallInsertSessionUser ;;
  insert_session_user env cfg
    (SearchRequest.session_id request) (SearchRequest.user_name request)
    (SearchRequest.captured_image request)
    (SearchRequest.privacy_policy_agreed request) ;;
  call CallUploadImageToS3 ;;
  image_path <-
    upload_image_to_s3 env cfg (SearchRequest.captured_image request)
      (SearchRequest.session_id request) ;;
  matched_images <- find_matches request ;;
  search_matches (SearchRequest.session_id request) matched_images.

(** [except HTTPException: raise] and [except Exception as e: raise
    HTTPException(500, ...)]. *)
Definition search_photos_except (e : exn) : M SearchResponse.t :=
  match e with
  | HTTPException _ _ => raise e
  | PyExc _ => raise (HTTPException 500 ("Search failed: " ++ str env e))
  end.

Definition search_photos_with (request : SearchRequest.t) : M SearchResponse.t :=
  try_except (search_photos_try request) search_photos_except.

End Route.

Definition search_photos (env : Env) (cfg : Settings) (request : SearchRequest.t)
  : M SearchResponse.t :=
  search_photos_with env cfg (get_matched_images env) (analyze_emotion env) request.

(** [cleanup_session], once its sleep of [SESSION_EXPIRY_HOURS] is over. *)
Definition cleanup_session (env : Env) (session_id : string) : M unit :=
  try_except (delete_session env session_id) (fun e => ret tt).

(** ** The client: frontend/src

    [utils/api.js], [App.jsx] and the handlers of the two components that
    drive it.  The state of a component is a record and a handler a function
    on it; a callback prop is a function argument.  What the browser and axios
    supply comes with the event: the canvas and the detector's verdict, the
    fresh uuid and the clock, and whether the request and its answer get
    through. *)

Module Client.

(** [stage]: ['capture'], ['form'], ['results']. *)
Inductive Stage : Type := Capture | Form | Results.

Record App : Type := {
  stage : Stage;
  capturedImage : option string;          (* [null] until a capture *)
  results : option SearchResponse.t;      (* [null] until a search succeeds *)
  isLoading : bool;
  error : option string;                  (* [null]: no banner *)
  backendOnline : bool
}.

(** The six [useState] initial values. *)
Definition initial : App := {|
  stage := Capture; capturedImage := None; results := None;
  isLoading := false; error := None; backendOnline := false
|}.

Definition setStage (v : Stage) (a : App) : App :=
  {| stage := v; capturedImage := capturedImage a; results := results a;
     isLoading := isLoading a; error := error a;
     backendOnline := backendOnline a |}.

Definition setCapturedImage (v : option string) (a : App) : App :=
  {| stage := stage a; capturedImage := v; results := results a;
     isLoading := isLoading a; error := error a;
     backendOnline := backendOnline a |}.

Definition setResults (v : option SearchResponse.t) (a : App) : App :=
  {| stage := stage a; capturedImage := capturedImage a; results := v;
     isLoading := isLoading a; error := error a;
     backendOnline := backendOnline a |}.

Definition setIsLoading (v : bool) (a : App) : App :=
  {| stage := stage a; capturedImage := capturedImage a; results := results a;
     isLoading := v; error := error a; backendOnline := backendOnline a |}.

Definition setError (v : option string) (a : App) : App :=
  {| stage := stage a; capturedImage := capturedImage a; results := results a;
     isLoading := isLoading a; error := v; backendOnline := backendOnline a |}.

Definition setBackendOnline (v : bool) (a : App) : App :=
  {| stage := stage a; capturedImage := capturedImage a; results := results a;
     isLoading := isLoading a; error := error a; backendOnline := v |}.

(** *** utils/api.js *)

(** What [error.response?.data?.detail] can be when it is defined: a string,
    or another value, which is truthy and of which only its conversion to a
    string is used. *)
Inductive Detail : Type :=
| Text (s : string)
| Other (to_string : string).

(** What an axios call settles to: the data of the response, or an error with
    its [response?.data?.detail] ([None]: undefined, as when no response came). *)
Inductive Settled (A : Type) : Type :=
| Resolved (data : A)
| Rejected (detail : option Detail).
Arguments Resolved {A} data.
Arguments Rejected {A} detail.

(** What an [async] function of the client settles to. *)
Inductive Promise (A : Type) : Type :=
| Fulfilled (value : A)
| Thrown (message : string).
Arguments Fulfilled {A} value.
Arguments Thrown {A} message.

(** [s || default] on strings: the empty string is falsy. *)
Definition or_else (s default : string) : string :=
  match s with
  | EmptyString => default
  | _ => s
  end.

(** The message of [new Error(detail || default)]. *)
Definition error_message (detail : option Detail) (default : string) : string :=
  match detail with
  | None => default
  | Some (Text s) => or_else s default
  | Some (Other to_string) => to_string
  end.

Definition searchFaces (response : Settled SearchResponse.t)
  : Promise SearchResponse.t :=
  match response with
  | Resolved data => Fulfilled data
  | Rejected detail => Thrown (error_message detail "Search failed")
  end.

Definition healthCheck {A : Type} (response : Settled A) : Promise A :=
  match response with
  | Resolved data => Fulfilled data
  | Rejected _ => Thrown "Backend unreachable"
  end.

(** *** App.jsx *)

Definition checkBackend {A : Type} (response : Settled A) (a : App) : App :=
  match healthCheck response with
  | Fulfilled _ => setBackendOnline true a
  | Thrown _ => setBackendOnline false a
  end.

Definition handleCapture (base64Image : string) (a : App) : App :=
  setStage Form (setCapturedImage (Some base64Image) a).

(** [handleSearch] once [searchFaces(payload)] has settled. *)
Definition handleSearch (searched : Promise SearchResponse.t) (a : App) : App :=
  let a := setError None (setIsLoading true a) in
  let a :=
    match searched with
    | Fulfilled response => setStage Results (setResults (Some response) a)
    | Thrown message =>
        setError (Some (or_else message "Search failed. Please try again.")) a
    end in
  setIsLoading false a.

(** *** components/FaceCaptureComponent.jsx *)

(** [handleCapture] of the component: [canvas] is what
    [canvasRef.current.toDataURL('image/jpeg', 0.9)] gives, [None] when the ref
    is not set. *)
Definition FaceCapture_handleCapture {S : Type} (alert : string -> S -> S)
  (onCapture : string -> S -> S) (canvas : option string) (faceDetected : bool)
  : S -> S :=
  match canvas with
  | None => alert "Please ensure your face is visible in the camera"
  | Some base64Image =>
      if negb faceDetected
      then alert "Please ensure your face is visible in the camera"
      else onCapture base64Image
  end.

(** *** components/MetadataFormComponent.jsx *)

(** The body of the POST: [captured_image] is the prop, which can be [null]. *)
Record Payload : Type := {
  session_id : string;
  user_name : string;
  captured_image : option string;
  privacy_policy_agreed : bool;
  timestamp : string
}.

Definition onSubmit {S : Type} (alert : string -> S -> S)
  (onSearch : Payload -> S -> S) (privacyAgreed : bool)
  (capturedImage : option string) (userName uuidv4 toISOString : string)
  : S -> S :=
  if negb privacyAgreed
  then alert "Please agree to the privacy policy"
  else
    let payload := {|
      session_id := uuidv4;
      user_name := userName;
      captured_image := capturedImage;
      privacy_policy_agreed := true;
      timestamp := toISOString
    |} in
    onSearch payload.

(** The rules registered for [userName]: [required], and [minLength] 2.  A
    string is taken as the sequence of its code units. *)
Definition userName_valid (userName : string) : bool :=
  negb (String.eqb userName "") && negb (String.length userName <? 2).

(** [handleSubmit(onSubmit)]: the handler runs when the rules hold; otherwise
    the form only shows the message of the rule. *)
Definition handleSubmit {S : Type} (onSubmit : string -> S -> S)
  (userName : string) : S -> S :=
  if userName_valid userName then onSubmit userName else fun s => s.

(** *** The client against the server *)

(** What becomes of a request. *)
Inductive Network : Type :=
| Lost                         (* the request does not reach the server *)
| Delivered (answered : bool). (* it does; the answer comes back, or not *)

(** The body as the route's model takes it: a [null] image does not validate
    as [captured_image: str]. *)
Definition to_request (p : Payload) : option SearchRequest.t :=
  match captured_image p with
  | None => None
  | Some image =>
      Some {| SearchRequest.session_id := session_id p;
              SearchRequest.user_name := user_name p;
              SearchRequest.captured_image := image;
              SearchRequest.privacy_policy_agreed := privacy_policy_agreed p;
              SearchRequest.timestamp := timestamp p |}
  end.

(** The answer of the framework to an exception of the route: the [detail] of
    an [HTTPException] is the [detail] of the body. *)
Definition answer (r : Exc SearchResponse.t) : Settled SearchResponse.t :=
  match r with
  | Return response => Resolved response
  | Raise (HTTPException _ detail) => Rejected (Some (Text detail))
  | Raise (PyExc _) => Rejected None
  end.

(** [api.post('/api/v1/search', payload)] against [search_photos].  A body
    that does not validate is answered 422 with a list of errors as detail, of
    which the string conversion is ["[object Object]"]. *)
Definition post_search (env : Env) (cfg : Settings) (net : Network)
  (p : Payload) (w : World) : World * Settled SearchResponse.t :=
  match net with
  | Lost => (w, Rejected None)
  | Delivered answered =>
      let '(w', settled) :=
        match to_request p with
        | None => (w, Rejected (Some (Other "[object Object]")))
        | Some request =>
            let '(w', r) := search_photos env cfg request w in (w', answer r)
        end in
      (w', if answered then settled else Rejected None)
  end.

(** The page and the server it talks to; [alerts] are the dialogs shown. *)
Record System : Type := {
  app : App;
  server : World;
  alerts : list string
}.

Definition on_app (f : App -> App) (s : System) : System :=
  {| app := f (app s); server := server s; alerts := alerts s |}.

Definition alert (message : string) (s : System) : System :=
  {| app := app s; server := server s;
     alerts := (alerts s ++ [message])%list |}.

(** The [onSearch] prop: [handleSearch], with the request sent. *)
Definition onSearch (env : Env) (cfg : Settings) (net : Network) (p : Payload)
  (s : System) : System :=
  let '(w', settled) := post_search env cfg net p (server s) in
  {| app := handleSearch (searchFaces settled) (app s);
     server := w'; alerts := alerts s |}.

Inductive Event : Type :=
| HealthSettled (response : Settled unit)
| ClickCapture (canvas : option string) (faceDetected : bool)
| Submit (privacyAgreed : bool) (userName uuidv4 toISOString : string)
    (net : Network).

(** One event.  A component handles events only while [App] renders it: the
    capture at stage ['capture'], the form at stage ['form'].  The capture
    button is [disabled={!faceDetected}]: a click on it reaches the handler
    only while a face is detected. *)
Definition step (env : Env) (cfg : Settings) (e : Event) (s : System) : System :=
  match e, stage (app s) with
  | HealthSettled response, _ => on_app (checkBackend response) s
  | ClickCapture canvas faceDetected, Capture =>
      if faceDetected
      then FaceCapture_handleCapture alert
             (fun base64Image => on_app (handleCapture base64Image))
             canvas faceDetected s
      else s
  | Submit privacyAgreed userName uuidv4 toISOString net, Form =>
      handleSubmit
        (fun userName =>
           onSubmit alert (onSearch env cfg net) privacyAgreed
             (capturedImage (app s)) userName uuidv4 toISOString)
        userName s
  | _, _ => s
  end.

Definition run (env : Env) (cfg : Settings) (events : list Event) (s : System)
  : System :=
  fold_left (fun s e => step env cfg e s) events s.

(** The page as loaded, against a server in state [w]. *)
Definition loaded (w : World) : System :=
  {| app := initial; server := w; alerts := [] |}.

(** The order of the steps of the wizard. *)
Definition stage_index (v : Stage) : nat :=
  match v with
  | Capture => 0
  | Form => 1
  | Results => 2
  end.

(** Whether handling the event can send a request that reaches the server. *)
Definition reaches_server (e : Event) : bool :=
  match e with
  | Submit privacyAgreed userName _ _ (Delivered _) =>
      privacyAgreed && userName_valid userName
  | _ => false
  end.

(** The states the page can be in: nothing is loading between two events,
    and each stage has what its component reads. *)
Definition consistent (a : App) : Prop :=
  isLoading a = false /\
  match stage a with
  | Capture => capturedImage a = None /\ results a = None /\ error a = None
  | Form => (exists image, capturedImage a = Some image) /\ results a = None
  | Results =>
      (exists image, capturedImage a = Some image) /\
      (exists response, results a = Some response) /\ error a = None
  end.

(** A row of [session_users] as the form makes the route write it: with the
    consent, a name that passed the rules of the form, and an image captured
    while a face was detected. *)
Definition from_the_form (events : list Event) (row : SessionUser.t) : Prop :=
  SessionUser.privacy_policy_agreed row = "True" /\
  userName_valid (SessionUser.user_name row) = true /\
  In (ClickCapture (Some (SessionUser.captured_image_base64 row)) true) events.

(** The request the form sends for a captured image. *)
Definition form_request (image userName uuidv4 toISOString : string)
  : SearchRequest.t :=
  {| SearchRequest.session_id := uuidv4;
     SearchRequest.user_name := userName;
     SearchRequest.captured_image := image;
     SearchRequest.privacy_policy_agreed := true;
     SearchRequest.timestamp := toISOString |}.

(** What the page shows once a search has settled. *)
Definition shows (before after : App) (r : Exc SearchResponse.t) : Prop :=
  match r with
  | Return response =>
      stage after = Results /\ results after = Some response /\
      error after = None
  | Raise e =>
      stage after = stage before /\ results after = results before /\
      exists status detail,
        e = HTTPException status detail /\
        error after = Some (or_else detail "Search failed")
  end.

(** What it shows when no answer came. *)
Definition shows_no_answer (before after : App) : Prop :=
  stage after = stage before /\ results after = results before /\
  error after = Some "Search failed".

End Client.

(** ** The vocabulary of the specification *)

(** The per-image top labels of a list of records, in processing order. *)
Definition labels_of (emotion_results : list EmotionResult.t) : list string :=
  map EmotionResult.emotion emotion_results.

(** The number of records whose top label is [label]. *)
Definition tally (emotion_results : list EmotionResult.t) (label : string) : nat :=
  count_occ string_dec (labels_of emotion_results) label.

(** The fraction [count / n], for [n] at least one. *)
Definition fraction (count n : nat) : Q := Qmake (Z.of_nat count) (Pos.of_nat n).

(** The records that the loop of step 6 collects from a list of matches: one
    for every match whose classification returns, in order. *)
Definition classified (emotion_of : string -> Exc (string * Py.dict Q * Q))
  (imgs : list MatchedImage.t) : list EmotionResult.t :=
  flat_map
    (fun img =>
       match emotion_of (MatchedImage.image_path img) with
       | Return (emotion_label, emotion_dist, confidence) =>
           [ {| EmotionResult.image_id := MatchedImage.image_id img;
                EmotionResult.image_url := MatchedImage.image_url img;
                EmotionResult.emotion := emotion_label;
                EmotionResult.emotion_distribution := emotion_dist;
                EmotionResult.emotion_confidence := confidence;
                EmotionResult.similarity_score :=
                  MatchedImage.similarity_score img |} ]
       | Raise _ => []
       end)
    imgs.

(** The number of matches whose classification raises. *)
Definition raising (emotion_of : string -> Exc (string * Py.dict Q * Q))
  (imgs : list MatchedImage.t) : nat :=
  List.length
    (filter (fun img => match emotion_of (MatchedImage.image_path img) with
                        | Return _ => false
                        | Raise _ => true
                        end)
            imgs).

(** The persistent store: the three tables and the bucket. *)
Definition store (w : World)
  : list SessionUser.t * list EmotionLog.t * list SessionAggregatedEmotion.t
    * Py.dict bytes :=
  (session_user w, emotion_log w, session_aggregated_emotion w, s3 w).

(** No row of any table belongs to the session. *)
Definition purged (session_id : string) (w : World) : Prop :=
  (forall u, In u (session_user w) -> SessionUser.session_id u <> session_id) /\
  (forall l, In l (emotion_log w) -> EmotionLog.session_id l <> session_id) /\
  (forall a, In a (session_aggregated_emotion w) ->
             SessionAggregatedEmotion.session_id a <> session_id).

(** Steps 1 to 5 of the route: from the request to the matches. *)
Definition search_upto_matches (env : Env) (cfg : Settings)
  (matched_images_of : Embedding env -> Z -> Q -> Exc (list MatchedImage.t))
  (request : SearchRequest.t) : M (list MatchedImage.t) :=
  (call CallInsertSessionUser ;;
   insert_session_user env cfg
     (SearchRequest.session_id request) (SearchRequest.user_name request)
     (SearchRequest.captured_image request)
     (SearchRequest.privacy_policy_agreed request) ;;
   call CallUploadImageToS3 ;;
   image_path <-
     upload_image_to_s3 env cfg (SearchRequest.captured_image request)
       (SearchRequest.session_id request) ;;
   find_matches env cfg matched_images_of request)%m.

(** The service calls of the loop of step 6 over a list of matches. *)
Definition loop_calls (emotion_of : string -> Exc (string * Py.dict Q * Q))
  (imgs : list MatchedImage.t) : list Call :=
  flat_map
    (fun img =>
       CallAnalyzeEmotion (MatchedImage.image_path img) ::
       match emotion_of (MatchedImage.image_path img) with
       | Return _ => [CallInsertEmotionLog (MatchedImage.image_id img)]
       | Raise _ => []
       end)
    imgs.

(** The row that [insert_emotion_log] writes from the world [w]. *)
Definition emotion_log_row (env : Env) (image_id session_id emotion_label : string)
  (confidence : Q) (emotion_distribution : Py.dict Q) (w : World) : EmotionLog.t :=
  {| EmotionLog.emotion_id := uuid4 env (ticks w);
     EmotionLog.image_id := image_id;
     EmotionLog.session_id := session_id;
     EmotionLog.emotion_label := emotion_label;
     EmotionLog.confidence := confidence;
     EmotionLog.emotion_distribution := emotion_distribution;
     EmotionLog.analyzed_at := utcnow env (S (ticks w)) |}.

(** Whether the insert of an emotion log from the world [w] goes through. *)
Definition emotion_log_persists (env : Env) (w : World) : bool :=
  match commit_fault env (S (S (ticks w))) with
  | Some _ => false
  | None => negb (has_emotion_log (uuid4 env (ticks w)) w)
  end.

(** The row that [insert_aggregated_emotion] writes from the world [w]. *)
Definition aggregated_row (env : Env) (session_id dominant_emotion : string)
  (emotion_confidence : Q) (emotion_distribution : Py.dict Q) (statement : string)
  (w : World) : SessionAggregatedEmotion.t :=
  {| SessionAggregatedEmotion.aggregation_id := uuid4 env (ticks w);
     SessionAggregatedEmotion.session_id := session_id;
     SessionAggregatedEmotion.dominant_emotion := dominant_emotion;
     SessionAggregatedEmotion.emotion_confidence := emotion_confidence;
     SessionAggregatedEmotion.emotion_distribution := emotion_distribution;
     SessionAggregatedEmotion.statement := statement;
     SessionAggregatedEmotion.created_at := utcnow env (S (ticks w)) |}.

Definition aggregated_persists (env : Env) (session_id : string) (w : World)
  : bool :=
  match commit_fault env (S (S (ticks w))) with
  | Some _ => false
  | None => negb (has_aggregated (uuid4 env (ticks w)) session_id w)
  end.

(** The emotion log [log] is the row of the record [r] in the session. *)
Definition log_of (session_id : string) (r : EmotionResult.t) (log : EmotionLog.t)
  : Prop :=
  EmotionLog.image_id log = EmotionResult.image_id r /\
  EmotionLog.session_id log = session_id /\
  EmotionLog.emotion_label log = EmotionResult.emotion r /\
  EmotionLog.confidence log = EmotionResult.emotion_confidence r /\
  EmotionLog.emotion_distribution log = EmotionResult.emotion_distribution r.

(** An insert interacts three times with the environment: the UUID, the clock
    and the database. *)
Definition three_ticks : World -> World := with_ticks (fun n => S (S (S n))).

(** The response of a search in which no record was classified. *)
Definition empty_response (env : Env) (session_id : string) : SearchResponse.t := {|
  SearchResponse.matched_count := 0;
  SearchResponse.matched_images := [];
  SearchResponse.aggregated_state := ("neutral", 0%Q, []);
  SearchResponse.statement := make_statement env "neutral" 0%Q;
  SearchResponse.session_id := session_id
|}.

(** [insert_session_user] interacts four times with the environment: three
    readings of the clock and the database. *)
Definition four_ticks : World -> World := with_ticks (fun n => S (S (S (S n)))).

(** The expiry that [insert_session_user] computes from the world [w]: the
    reading of the clock at that moment plus the retention window. *)
Definition session_expiry (env : Env) (cfg : Settings) (w : World) : Exc Z :=
  (delta <- Datetime.timedelta_hours (SESSION_EXPIRY_HOURS cfg) ;;
   Datetime.add (utcnow env (ticks w)) delta)%exc.

(** The row that [insert_session_user] writes from the world [w]. *)
Definition session_user_row (env : Env) (session_id user_name image : string)
  (agreed : bool) (expires_at : Z) (w : World) : SessionUser.t :=
  {| SessionUser.session_id := session_id;
     SessionUser.user_name := user_name;
     SessionUser.captured_image_base64 := image;
     SessionUser.captured_image_path := None;
     SessionUser.embedding := None;
     SessionUser.status := "searching";
     SessionUser.privacy_policy_agreed := str_bool agreed;
     SessionUser.timestamp := utcnow env (S (ticks w));
     SessionUser.created_at := utcnow env (S (S (ticks w)));
     SessionUser.expires_at := expires_at |}.

(** The rest of the [try] of the route once the session is inserted. *)
Definition after_insert (env : Env) (cfg : Settings)
  (matched_images_of : Embedding env -> Z -> Q -> Exc (list MatchedImage.t))
  (emotion_of : string -> Exc (string * Py.dict Q * Q))
  (request : SearchRequest.t) : M SearchResponse.t :=
  (call CallUploadImageToS3 ;;
   image_path <-
     upload_image_to_s3 env cfg (SearchRequest.captured_image request)
       (SearchRequest.session_id request) ;;
   matched_images <- find_matches env cfg matched_images_of request ;;
   search_matches env cfg emotion_of (SearchRequest.session_id request)
     matched_images)%m.

(** The request with another answer to the privacy policy. *)
Definition with_consent (agreed : bool) (request : SearchRequest.t)
  : SearchRequest.t :=
  {| SearchRequest.session_id := SearchRequest.session_id request;
     SearchRequest.user_name := SearchRequest.user_name request;
     SearchRequest.captured_image := SearchRequest.captured_image request;
     SearchRequest.privacy_policy_agreed := agreed;
     SearchRequest.timestamp := SearchRequest.timestamp request |}.

(** The route after the session insert, with its exception handlers. *)
Definition guarded_after_insert (env : Env) (cfg : Settings)
  (matched_images_of : Embedding env -> Z -> Q -> Exc (list MatchedImage.t))
  (emotion_of : string -> Exc (string * Py.dict Q * Q))
  (request : SearchRequest.t) : M SearchResponse.t :=
  try_except (after_insert env cfg matched_images_of emotion_of request)
             (search_photos_except env).

(** Steps 1 and 2 of the route: the session row and the upload. *)
Definition store_request (env : Env) (cfg : Settings) (request : SearchRequest.t)
  : M string :=
  (call CallInsertSessionUser ;;
   insert_session_user env cfg
     (SearchRequest.session_id request) (SearchRequest.user_name request)
     (SearchRequest.captured_image request)
     (SearchRequest.privacy_policy_agreed request) ;;
   call CallUploadImageToS3 ;;
   upload_image_to_s3 env cfg (SearchRequest.captured_image request)
     (SearchRequest.session_id request))%m.

(** [m] goes through a change [u] of the world untouched: it neither reads
    nor overwrites what [u] changes. *)
Definition Commutes {A} (u : World -> World) (m : M A) : Prop :=
  forall w, m (u w) = (u (fst (m w)), snd (m w)).

(** The changes of the world that the proofs move across the services. *)
Definition set_session_user (t : list SessionUser.t) : World -> World :=
  with_session_user (fun _ => t).



(** The three tables of the database. *)
Definition tables (w : World)
  : list SessionUser.t * list EmotionLog.t * list SessionAggregatedEmotion.t :=
  (session_user w, emotion_log w, session_aggregated_emotion w).

(** The key of the captured image of a session in the bucket. *)
Definition captured_key (session_id : string) : string :=
  "sessions/" ++ session_id ++ "/captured.jpg".
Arguments captured_key : simpl never.

(** More changes of the world that the proofs move across the services. *)
Definition set_emotion_log (t : list EmotionLog.t) : World -> World :=
  with_emotion_log (fun _ => t).

Definition set_aggregated (t : list SessionAggregatedEmotion.t) : World -> World :=
  with_aggregated (fun _ => t).

Definition set_background_tasks (t : list string) : World -> World :=
  with_background_tasks (fun _ => t).

Definition set_s3 (t : Py.dict bytes) : World -> World :=
  with_s3 (fun _ => t).

(** The key constraints of the three tables: the primary keys and the unique
    session id of the aggregated results. *)
Definition keys_ok (w : World) : Prop :=
  NoDup (map SessionUser.session_id (session_user w)) /\
  NoDup (map EmotionLog.emotion_id (emotion_log w)) /\
  NoDup (map SessionAggregatedEmotion.aggregation_id (session_aggregated_emotion w)) /\
  NoDup (map SessionAggregatedEmotion.session_id (session_aggregated_emotion w)).

(** The rows of one session in the three tables. *)
Definition session_rows (session_id : string) (w : World)
  : list SessionUser.t * list EmotionLog.t * list SessionAggregatedEmotion.t :=
  (filter (fun u => String.eqb (SessionUser.session_id u) session_id) (session_user w),
   filter (fun l => String.eqb (EmotionLog.session_id l) session_id) (emotion_log w),
   filter (fun a => String.eqb (SessionAggregatedEmotion.session_id a) session_id)
          (session_aggregated_emotion w)).

(** From the world [w] on the database can be reached, and the UUIDs are
    new and pairwise distinct. *)
Definition healthy_from (env : Env) (w : World) : Prop :=
  (forall n, ticks w <= n -> commit_fault env n = None) /\
  (forall n, ticks w <= n -> has_emotion_log (uuid4 env n) w = false) /\
  (forall n m, ticks w <= n -> ticks w <= m -> uuid4 env n = uuid4 env m -> n = m).

(** The matches that the loop of step 6 goes through:
    [matched_images[:settings.MAX_IMAGES_TO_PROCESS]]. *)
Definition processed (cfg : Settings) (found : list MatchedImage.t)
  : list MatchedImage.t :=
  Py.slice_to (MAX_IMAGES_TO_PROCESS cfg) found.

(** The classification of a match fails: the body of the [try] of
    [analyze_emotion] raises. *)
Definition classification_fails (env : Env) (img : MatchedImage.t) : bool :=
  match analyze_emotion_try env (MatchedImage.image_path img) with
  | Return _ => false
  | Raise _ => true
  end.

(** The record of a match with the fallback [('neutral', {}, 0.0)]. *)
Definition neutral_record (img : MatchedImage.t) : EmotionResult.t :=
  {| EmotionResult.image_id := MatchedImage.image_id img;
     EmotionResult.image_url := MatchedImage.image_url img;
     EmotionResult.emotion := "neutral";
     EmotionResult.emotion_distribution := [];
     EmotionResult.emotion_confidence := 0%Q;
     EmotionResult.similarity_score := MatchedImage.similarity_score img |}.

(** The record of a match with the classification of its image, or with the
    fallback when the classification fails. *)
Definition record_of (env : Env) (img : MatchedImage.t) : EmotionResult.t :=
  match analyze_emotion_try env (MatchedImage.image_path img) with
  | Return (emotion_label, emotion_dist, confidence) =>
      {| EmotionResult.image_id := MatchedImage.image_id img;
         EmotionResult.image_url := MatchedImage.image_url img;
         EmotionResult.emotion := emotion_label;
         EmotionResult.emotion_distribution := emotion_dist;
         EmotionResult.emotion_confidence := confidence;
         EmotionResult.similarity_score := MatchedImage.similarity_score img |}
  | Raise _ => neutral_record img
  end.

(** The aggregated result [row] holds the aggregate and the statement of the
    response, for the session. *)
Definition aggregated_row_of (session_id : string) (resp : SearchResponse.t)
  (row : SessionAggregatedEmotion.t) : Prop :=
  SessionAggregatedEmotion.session_id row = session_id /\
  (SessionAggregatedEmotion.dominant_emotion row,
   SessionAggregatedEmotion.emotion_confidence row,
   SessionAggregatedEmotion.emotion_distribution row) =
    SearchResponse.aggregated_state resp /\
  SessionAggregatedEmotion.statement row = SearchResponse.statement resp.

(** The service calls of steps 1 to 5. *)
Definition calls_upto_matches : list Call :=
  [CallInsertSessionUser; CallUploadImageToS3; CallDetectAndAlignFace;
   CallExtractEmbedding; CallGetMatchedImages].

(** The retention window, in microseconds. *)
Definition retention_window (cfg : Settings) : Z :=
  (SESSION_EXPIRY_HOURS cfg * Datetime.usec_per_hour)%Z.

(** ** Test environments

    Stand-ins for the libraries, for running the services on concrete
    requests.  [PHOTO] stands for the base64 text of a photograph that shows one
    face and [LANDSCAPE] for that of a photograph that shows none;
    [NOT_AN_IMAGE] is the base64 text of the three characters [ABC]. *)

Definition PHOTO : string := "data:image/jpeg;base64,/9j/4AAQ".
Definition LANDSCAPE : string := "data:image/jpeg;base64,/9gA".
Definition NOT_AN_IMAGE : string := "QUJD".

Definition photo_bytes : bytes := [xff; xd8; xff; xe0; x00; x10].
Definition landscape_bytes : bytes := [xff; xd8; x00].
Definition not_an_image_bytes : bytes := [x41; x42; x43].

Definition string_of_nat (n : nat) : string :=
  NilZero.string_of_uint (Nat.to_uint n).

(** A stand-in for [f"{q:.1f}"] on a non-negative [q]: one decimal, ties
    rounded up.  (Python rounds the binary value of the float, so that the
    two can differ where [10 * q] is half an integer.) *)
Definition test_format_1f (q : Q) : string :=
  let tenths := ((20 * Qnum q + Zpos (Qden q)) / (2 * Zpos (Qden q)))%Z in
  string_of_nat (Z.to_nat (tenths / 10)) ++ "." ++
  string_of_nat (Z.to_nat (tenths mod 10)).

(** [readable] tells which image files [Image.open] can read; [db_fault] and
    [s3_fault] tell which interactions with the database and with the bucket
    fail. *)
Definition test_env (readable : string -> bool)
  (db_fault s3_fault : nat -> option PyError) : Env := {|
  Image := bytes;
  Face := bytes;
  Embedding := list Q;
  b64decode := fun s =>
    if String.eqb s "/9j/4AAQ" then Return photo_bytes
    else if String.eqb s "/9gA" then Return landscape_bytes
    else if String.eqb s "QUJD" then Return not_an_image_bytes
    else Raise (PyExc BinasciiError);
  imdecode := fun b =>
    match b with
    | xff :: xd8 :: _ => Return (Some b)
    | _ => Return None
    end;
  detect_faces := fun image =>
    match image with
    | _ :: _ :: xff :: _ => Return [(10, 10, 60, 80)%Z]
    | _ => Return []
    end;
  crop := fun image _ => image;
  resize := fun image => Return image;
  analyzer_get := fun _ => Return [[1%Q]];
  normalize := fun e => e;
  open_rgb := fun p => if readable p then Return tt else Raise (PyExc OSError);
  str := fun e => match e with
                  | HTTPException _ detail => detail
                  | PyExc _ => "error"
                  end;
  format_1f := test_format_1f;
  utcnow := fun n => (1762041600000000 + Z.of_nat n)%Z;
  uuid4 := fun n => "uuid-" ++ string_of_nat n;
  commit_fault := db_fault;
  put_object_fault := s3_fault
|}.

Definition no_fault : nat -> option PyError := fun _ => None.

(** Every library call succeeds. *)
Definition env_ok : Env := test_env (fun _ => true) no_fault no_fault.

(** No matched image can be opened. *)
Definition env_unreadable : Env := test_env (fun _ => false) no_fault no_fault.

Definition test_request (captured_image : string) (agreed : bool)
  : SearchRequest.t := {|
  SearchRequest.session_id := "session-1";
  SearchRequest.user_name := "Ada";
  SearchRequest.captured_image := captured_image;
  SearchRequest.privacy_policy_agreed := agreed;
  SearchRequest.timestamp := "2025-11-02T00:00:00Z"
|}.

(** The matches of the repository's placeholder index. *)
Definition placeholder_matches : list MatchedImage.t :=
  [ {| MatchedImage.image_id := "1";
       MatchedImage.image_url := "https://example.com/image1.jpg";
       MatchedImage.image_path := "/path/to/image1.jpg";
       MatchedImage.similarity_score := 0.95%Q |} ].

(** A similarity index that finds a given list of matches. *)
Definition fixed_index (env : Env) (found : list MatchedImage.t)
  : Embedding env -> Z -> Q -> Exc (list MatchedImage.t) :=
  fun _ _ _ => Return found.

Definition test_match (n : string) : MatchedImage.t := {|
  MatchedImage.image_id := n;
  MatchedImage.image_url := "https://example.com/image" ++ n ++ ".jpg";
  MatchedImage.image_path := "/photos/" ++ n ++ ".jpg";
  MatchedImage.similarity_score := 0.9%Q
|}.

Definition three_matches : list MatchedImage.t :=
  [test_match "1"; test_match "2"; test_match "3"].

(** The database fails at one interaction only. *)
Definition fault_at (k : nat) : nat -> option PyError :=
  fun n => if n =? k then Some OperationalError else None.

(** A record with a given top label, as the route would build it. *)
Definition labelled (image_id label : string) : EmotionResult.t :=
  {| EmotionResult.image_id := image_id;
     EmotionResult.image_url := "https://example.com/image" ++ image_id ++ ".jpg";
     EmotionResult.emotion := label;
     EmotionResult.emotion_distribution := [(label, 1%Q)];
     EmotionResult.emotion_confidence := 1%Q;
     EmotionResult.similarity_score := 0.95%Q |}.

(** An aggregated result of the session of the test requests. *)
Definition test_aggregate : SessionAggregatedEmotion.t := {|
  SessionAggregatedEmotion.aggregation_id := "uuid-0";
  SessionAggregatedEmotion.session_id := "session-1";
  SessionAggregatedEmotion.dominant_emotion := "happy";
  SessionAggregatedEmotion.emotion_confidence := 1%Q;
  SessionAggregatedEmotion.emotion_distribution := [("happy", 1%Q)];
  SessionAggregatedEmotion.statement :=
    "The person's emotion state is HAPPY (100.0% confidence)";
  SessionAggregatedEmotion.created_at := 1762041600000000%Z
|}.

(** The world after the search of the test request with the photograph. *)
Definition world_after_search : World :=
  fst (search_photos env_ok settings (test_request PHOTO true) empty_world).

(** An environment with another face analyzer. *)
Definition with_analyzer (env : Env)
  (get : Face env -> Exc (list (Embedding env))) : Env := {|
  Image := Image env;
  Face := Face env;
  Embedding := Embedding env;
  b64decode := b64decode env;
  imdecode := imdecode env;
  detect_faces := detect_faces env;
  crop := crop env;
  resize := resize env;
  analyzer_get := get;
  normalize := normalize env;
  open_rgb := open_rgb env;
  str := str env;
  format_1f := format_1f env;
  utcnow := utcnow env;
  uuid4 := uuid4 env;
  commit_fault := commit_fault env;
  put_object_fault := put_object_fault env
|}.

(** The face analyzer finds no face in the crop. *)
Definition env_no_embedding : Env := with_analyzer env_ok (fun _ => Return []).

(** The settings of the repository with a limit of two images. *)
Definition settings_limit_2 : Settings := {|
  AWS_S3_BUCKET := "face-emotion-bucket";
  MAX_IMAGES_TO_PROCESS := 2;
  FACE_SIMILARITY_THRESHOLD := 0.6%Q;
  EMOTION_CONFIDENCE_THRESHOLD := 0.3%Q;
  SESSION_EXPIRY_HOURS := 24;
  SESSION_CLEANUP_INTERVAL_HOURS := 1
|}.


(** Of the images of [three_matches] the second one cannot be opened. *)
Definition env_second_unreadable : Env :=
  test_env (fun p => negb (String.eqb p "/photos/2.jpg")) no_fault no_fault.

(** A page on which PHOTO was captured, and the same for NOT_AN_IMAGE. *)
Definition captured (image : string) : Client.System :=
  Client.step env_ok settings (Client.ClickCapture (Some image) true)
    (Client.loaded empty_world).

Definition test_submit (net : Client.Network) : Client.Event :=
  Client.Submit true "Ada" "session-1" "2025-11-02T00:00:00.000Z" net.

(** * Properties *)

(** ** The services on concrete inputs *)

Example strip_data_url_photo : strip_data_url PHOTO = "/9j/4AAQ".
Proof. reflexivity. Qed.

Example strip_data_url_plain : strip_data_url NOT_AN_IMAGE = "QUJD".
Proof. reflexivity. Qed.

Example upper_happy : upper "happy" = "HAPPY".
Proof. reflexivity. Qed.

Example slice_to_limit : Py.slice_to 2 ["a"; "b"; "c"] = ["a"; "b"].
Proof. reflexivity. Qed.

Example slice_to_negative : Py.slice_to (-1) ["a"; "b"; "c"] = ["a"; "b"].
Proof. reflexivity. Qed.

Example make_statement_two_thirds :
  make_statement env_ok "happy" (2 # 3)%Q =
  "The person's emotion state is HAPPY (66.7% confidence)".
Proof. reflexivity. Qed.

Example analyze_emotion_mock :
  analyze_emotion env_ok "/path/to/image1.jpg" =
  Return ("happy",
          [("happy", 0.45); ("sad", 0.15); ("angry", 0.10); ("neutral", 0.20);
           ("fear", 0.05); ("surprise", 0.03); ("disgust", 0.02)]%Q,
          0.45%Q).
Proof. reflexivity. Qed.

Example timedelta_24_hours :
  Datetime.timedelta_hours 24 = Return 86400000000%Z.
Proof. reflexivity. Qed.

(** A whole search: the calls it makes and what it answers. *)
Example search_photos_run :
  let '(w, r) := search_photos env_ok settings (test_request PHOTO true) empty_world in
  calls w = [CallInsertSessionUser; CallUploadImageToS3; CallDetectAndAlignFace;
             CallExtractEmbedding; CallGetMatchedImages;
             CallAnalyzeEmotion "/path/to/image1.jpg"; CallInsertEmotionLog "1";
             CallAggregateEmotions; CallInsertAggregatedEmotion] /\
  background_tasks w = ["session-1"] /\
  match r with
  | Return resp =>
      SearchResponse.matched_count resp = 1 /\
      SearchResponse.aggregated_state resp = ("happy", 1%Q, [("happy", 1%Q)]) /\
      SearchResponse.statement resp =
        "The person's emotion state is HAPPY (100.0% confidence)"
  | Raise _ => False
  end.
Proof. vm_compute. repeat split. Qed.

(** A session id that is taken: the insert fails and the search answers 500. *)
Example search_photos_taken_session :
  snd (search_photos env_ok settings (test_request PHOTO true)
         (fst (search_photos env_ok settings (test_request PHOTO true) empty_world))) =
  Raise (HTTPException 500 "Search failed: error").
Proof. vm_compute. reflexivity. Qed.

(** ** Dicts *)

Module PyFacts.
Import Py.

Lemma get_set {V} (d : dict V) (k k' : string) (v : V) :
  get (set d k v) k' = if String.eqb k k' then Some v else get d k'.
Proof.
  induction d as [|[k0 v0] d IH]; simpl.
  - reflexivity.
  - destruct (String.eqb k0 k) eqn:E0; simpl.
    + apply String.eqb_eq in E0; subst k0.
      destruct (String.eqb k k'); reflexivity.
    + rewrite IH. destruct (String.eqb k0 k') eqn:E1; [|reflexivity].
      apply String.eqb_eq in E1; subst k0.
      rewrite String.eqb_sym, E0. reflexivity.
Qed.

Lemma get_None_keys {V} (d : dict V) (k : string) :
  get d k = None <-> ~ In k (keys d).
Proof.
  induction d as [|[k0 v0] d IH]; simpl.
  - tauto.
  - destruct (String.eqb k0 k) eqn:E.
    + apply String.eqb_eq in E. split; [discriminate | tauto].
    + apply String.eqb_neq in E. rewrite IH. tauto.
Qed.

Lemma keys_set {V} (d : dict V) (k : string) (v : V) :
  keys (set d k v) =
  match get d k with Some _ => keys d | None => (keys d ++ [k])%list end.
Proof.
  induction d as [|[k0 v0] d IH]; simpl.
  - reflexivity.
  - destruct (String.eqb k0 k) eqn:E; simpl.
    + reflexivity.
    + rewrite IH. destruct (get d k); reflexivity.
Qed.

Lemma set_fresh {V} (d : dict V) (k : string) (v : V) :
  get d k = None -> set d k v = (d ++ [(k, v)])%list.
Proof.
  induction d as [|[k0 v0] d IH]; simpl; intros H.
  - reflexivity.
  - destruct (String.eqb k0 k); [discriminate|]. rewrite IH by assumption.
    reflexivity.
Qed.

Lemma get_map {V W} (g : V -> W) (d : dict V) (k : string) :
  get (map (fun kv => (fst kv, g (snd kv))) d) k = option_map g (get d k).
Proof.
  induction d as [|[k0 v0] d IH]; simpl.
  - reflexivity.
  - destruct (String.eqb k0 k); [reflexivity | exact IH].
Qed.


(** A comprehension over a dict whose function does not raise maps the
    values and keeps the keys in place. *)
Lemma comprehension_from_total {V W} (f : V -> Exc W) (g : V -> W) :
  (forall v, f v = Return (g v)) ->
  forall (d : dict V) (acc : dict W),
    NoDup (keys acc ++ keys d) ->
    comprehension_from f acc d =
    Return (acc ++ map (fun kv => (fst kv, g (snd kv))) d)%list.
Proof.
  intros Hf. induction d as [|[k v] d IH]; simpl; intros acc Hnd.
  - rewrite app_nil_r. reflexivity.
  - rewrite Hf. simpl.
    assert (Hk : get acc k = None).
    { apply get_None_keys. apply NoDup_remove_2 in Hnd.
      intros Hin. apply Hnd. apply in_or_app. left. exact Hin. }
    rewrite (set_fresh _ _ _ Hk). rewrite IH.
    + rewrite <- app_assoc. reflexivity.
    + unfold keys in *. rewrite map_app. simpl. rewrite <- app_assoc. exact Hnd.
Qed.

Lemma comprehension_total {V W} (f : V -> Exc W) (g : V -> W) (d : dict V) :
  (forall v, f v = Return (g v)) ->
  NoDup (keys d) ->
  comprehension f d = Return (map (fun kv => (fst kv, g (snd kv))) d).
Proof.
  intros Hf Hnd. unfold comprehension.
  rewrite (comprehension_from_total f g Hf); [reflexivity | exact Hnd].
Qed.

(** *** [max] *)

Lemma max_from_ext {A} (gt gt' : A -> A -> bool) (l : list A) :
  forall best,
    (forall a b, In a (best :: l) -> In b (best :: l) -> gt a b = gt' a b) ->
    max_from gt best l = max_from gt' best l.
Proof.
  induction l as [|x l IH]; simpl; intros best H.
  - reflexivity.
  - rewrite (H x best) by tauto.
    apply IH. intros a b Ha Hb. apply H.
    + destruct (gt' x best); simpl in Ha; tauto.
    + destruct (gt' x best); simpl in Hb; tauto.
Qed.

(** The result of the loop of [max] splits the items into those before it,
    all strictly smaller, and those after it, none greater. *)
Lemma max_from_split {A} (key : A -> nat) (l : list A) :
  forall (pre mid : list A) (best : A),
    (forall y, In y pre -> key y < key best) ->
    (forall y, In y mid -> key y <= key best) ->
    exists pre' post',
      (pre ++ best :: mid ++ l)%list =
      (pre' ++ max_from (fun a b => key b <? key a) best l :: post')%list /\
      (forall y, In y pre' ->
                 key y < key (max_from (fun a b => key b <? key a) best l)) /\
      (forall y, In y post' ->
                 key y <= key (max_from (fun a b => key b <? key a) best l)).
Proof.
  induction l as [|x l IH]; simpl; intros pre mid best Hpre Hmid.
  - exists pre, mid. rewrite app_nil_r. auto.
  - destruct (key best <? key x) eqn:E.
    + apply Nat.ltb_lt in E.
      destruct (IH (pre ++ best :: mid)%list [] x) as (pre' & post' & Heq & H1 & H2).
      * intros y Hy. apply in_app_or in Hy. destruct Hy as [Hy|[Hy|Hy]].
        -- specialize (Hpre y Hy). lia.
        -- subst y. exact E.
        -- specialize (Hmid y Hy). lia.
      * intros y [].
      * exists pre', post'. split; [|auto].
        rewrite <- Heq. simpl. rewrite <- app_assoc. reflexivity.
    + apply Nat.ltb_ge in E.
      destruct (IH pre (mid ++ [x])%list best) as (pre' & post' & Heq & H1 & H2).
      * exact Hpre.
      * intros y Hy. apply in_app_or in Hy. destruct Hy as [Hy|[Hy|[]]].
        -- auto.
        -- subst y. exact E.
      * exists pre', post'. split; [|auto].
        rewrite <- Heq. rewrite <- app_assoc. reflexivity.
Qed.

Lemma max_by_split {A} (key : A -> nat) (l : list A) (m : A) :
  max_by (fun a b => key b <? key a) l = Return m ->
  exists pre post,
    l = (pre ++ m :: post)%list /\
    (forall y, In y pre -> key y < key m) /\
    (forall y, In y post -> key y <= key m).
Proof.
  destruct l as [|x l]; simpl; intros H; [discriminate|].
  injection H as <-.
  destruct (max_from_split key l [] [] x) as (pre & post & Heq & H1 & H2);
    try (intros y []).
  exists pre, post. auto.
Qed.

(** [max(d, key=d.get)] compares the values stored in [d]. *)
Lemma max_key_nat (d : dict nat) :
  max_key (fun x y => y <? x) d =
  max_by (fun a b => get_default d b 0 <? get_default d a 0) (keys d).
Proof.
  unfold max_key, max_by. destruct (keys d) as [|k ks] eqn:Ek; [reflexivity|].
  f_equal. apply max_from_ext. intros a b Ha Hb.
  rewrite <- Ek in Ha, Hb. unfold get_default.
  destruct (get d a) eqn:Ga; [|apply get_None_keys in Ga; contradiction].
  destruct (get d b) eqn:Gb; [|apply get_None_keys in Gb; contradiction].
  reflexivity.
Qed.

End PyFacts.

(** ** Aggregation *)

Section AggregationFacts.
Import Py PyFacts.

Lemma count_emotions_snoc (rs : list EmotionResult.t) (r : EmotionResult.t) :
  count_emotions (rs ++ [r])%list = count_step (count_emotions rs) r.
Proof.
  unfold count_emotions. rewrite fold_left_app. reflexivity.
Qed.

Lemma tally_snoc (rs : list EmotionResult.t) (r : EmotionResult.t) (l : string) :
  tally (rs ++ [r])%list l =
  tally rs l + (if String.eqb (EmotionResult.emotion r) l then 1 else 0).
Proof.
  unfold tally, labels_of. rewrite map_app, count_occ_app. simpl.
  destruct (string_dec (EmotionResult.emotion r) l) as [E|E].
  - rewrite (proj2 (String.eqb_eq _ _) E). reflexivity.
  - rewrite (proj2 (String.eqb_neq _ _) E). reflexivity.
Qed.

Lemma get_count_emotions (rs : list EmotionResult.t) (l : string) :
  get (count_emotions rs) l =
  if tally rs l =? 0 then None else Some (tally rs l).
Proof.
  induction rs as [|r rs IH] using rev_ind.
  - reflexivity.
  - rewrite count_emotions_snoc, tally_snoc. unfold count_step.
    rewrite get_set. destruct (String.eqb (EmotionResult.emotion r) l) eqn:E.
    + apply String.eqb_eq in E. rewrite E. unfold get_default. rewrite IH.
      destruct (tally rs l) as [|n]; simpl; [reflexivity|].
      rewrite Nat.add_1_r. reflexivity.
    + rewrite IH, Nat.add_0_r. reflexivity.
Qed.

Lemma get_default_count_emotions (rs : list EmotionResult.t) (l : string) :
  get_default (count_emotions rs) l 0 = tally rs l.
Proof.
  unfold get_default. rewrite get_count_emotions.
  destruct (tally rs l); reflexivity.
Qed.

Lemma keys_count_emotions_In (rs : list EmotionResult.t) (l : string) :
  In l (keys (count_emotions rs)) <-> In l (labels_of rs).
Proof.
  rewrite (count_occ_In string_dec (labels_of rs)). fold (tally rs l).
  destruct (in_dec string_dec l (keys (count_emotions rs))) as [Hin|Hout].
  - split; [intros _|auto].
    destruct (tally rs l) eqn:E; [|lia].
    exfalso. revert Hin. apply get_None_keys.
    rewrite get_count_emotions, E. reflexivity.
  - split; [contradiction|]. intros Hpos. exfalso.
    apply get_None_keys in Hout. rewrite get_count_emotions in Hout.
    destruct (tally rs l); [lia | discriminate].
Qed.

Lemma keys_count_emotions_snoc (rs : list EmotionResult.t) (r : EmotionResult.t) :
  keys (count_emotions (rs ++ [r])%list) =
  if in_dec string_dec (EmotionResult.emotion r) (keys (count_emotions rs))
  then keys (count_emotions rs)
  else (keys (count_emotions rs) ++ [EmotionResult.emotion r])%list.
Proof.
  rewrite count_emotions_snoc. unfold count_step. rewrite keys_set.
  destruct (in_dec string_dec _ _) as [Hin|Hout].
  - destruct (get (count_emotions rs) (EmotionResult.emotion r)) eqn:G;
      [reflexivity|]. apply get_None_keys in G. contradiction.
  - apply get_None_keys in Hout. rewrite Hout. reflexivity.
Qed.

Lemma keys_count_emotions_NoDup (rs : list EmotionResult.t) :
  NoDup (keys (count_emotions rs)).
Proof.
  induction rs as [|r rs IH] using rev_ind.
  - constructor.
  - rewrite keys_count_emotions_snoc.
    destruct (in_dec string_dec _ _) as [Hin|Hout]; [exact IH|].
    apply NoDup_app; [exact IH | repeat constructor; intros [] |].
    intros x Hx [Hx'|[]]. subst x. contradiction.
Qed.

Lemma snoc_eq_split {A} (l : list A) (x : A) (pre post : list A) (d : A) :
  (l ++ [x])%list = (pre ++ d :: post)%list ->
  (post = [] /\ l = pre /\ x = d) \/
  (exists post', post = (post' ++ [x])%list /\ l = (pre ++ d :: post')%list).
Proof.
  destruct post as [|y post _] using rev_ind; intros H.
  - left. change (pre ++ [d])%list with (pre ++ [d])%list in H.
    apply app_inj_tail in H. tauto.
  - right. exists post.
    change (pre ++ d :: post ++ [y])%list
      with (pre ++ (d :: post) ++ [y])%list in H.
    rewrite app_assoc in H. apply app_inj_tail in H.
    destruct H as [H1 H2]. subst. auto.
Qed.

(** The keys of the tally are in the order of their first occurrence:
    whatever label comes before the first occurrence of [d] in the records
    is a key before [d]. *)
Lemma keys_count_emotions_order (rs : list EmotionResult.t) :
  forall kpre d kpost,
    keys (count_emotions rs) = (kpre ++ d :: kpost)%list ->
    exists pre post,
      labels_of rs = (pre ++ d :: post)%list /\
      forall l, In l pre -> In l kpre.
Proof.
  induction rs as [|r rs IH] using rev_ind; intros kpre d kpost Hk.
  - destruct kpre; discriminate.
  - rewrite keys_count_emotions_snoc in Hk.
    assert (Hlab : labels_of (rs ++ [r])%list =
                   (labels_of rs ++ [EmotionResult.emotion r])%list).
    { unfold labels_of. rewrite map_app. reflexivity. }
    destruct (in_dec string_dec _ _) as [Hin|Hout].
    + destruct (IH _ _ _ Hk) as (pre & post & Hl & Hpre).
      exists pre, (post ++ [EmotionResult.emotion r])%list. split; [|exact Hpre].
      rewrite Hlab, Hl, <- app_assoc. reflexivity.
    + apply snoc_eq_split in Hk.
      destruct Hk as [(-> & Hk & <-)|(post' & -> & Hk)].
      * exists (labels_of rs), []. split; [exact Hlab|].
        intros l Hl. rewrite <- Hk. apply keys_count_emotions_In. exact Hl.
      * destruct (IH _ _ _ Hk) as (pre & post & Hl & Hpre).
        exists pre, (post ++ [EmotionResult.emotion r])%list. split; [|exact Hpre].
        rewrite Hlab, Hl, <- app_assoc. reflexivity.
Qed.

End AggregationFacts.

Section AggregationTheorems.
Import Py PyFacts.

(** What [aggregate_emotions] returns on a non-empty list, in closed form. *)
Lemma aggregate_emotions_nonempty (rs : list EmotionResult.t) :
  rs <> [] ->
  exists dominant kpre kpost,
    keys (count_emotions rs) = (kpre ++ dominant :: kpost)%list /\
    (forall l, In l kpre -> tally rs l < tally rs dominant) /\
    (forall l, In l kpost -> tally rs l <= tally rs dominant) /\
    aggregate_emotions rs =
    Return (dominant,
            fraction (tally rs dominant) (List.length rs),
            map (fun kv => (fst kv, fraction (snd kv) (List.length rs)))
                (count_emotions rs)).
Proof.
  intros Hne. destruct rs as [|r0 rs0]; [congruence|].
  unfold aggregate_emotions.
  remember (r0 :: rs0) as rs eqn:Ers.
  assert (Hn : List.length rs = S (List.length rs0)) by (subst rs; reflexivity).
  rewrite max_key_nat.
  destruct (max_by _ (keys (count_emotions rs))) as [d|e] eqn:Hmax.
  - destruct (max_by_split (fun k => get_default (count_emotions rs) k 0) _ _ Hmax)
      as (kpre & kpost & Hk & Hlt & Hle).
    exists d, kpre, kpost.
    split; [exact Hk|].
    split; [intros l Hl; specialize (Hlt l Hl);
            rewrite !get_default_count_emotions in Hlt; exact Hlt|].
    split; [intros l Hl; specialize (Hle l Hl);
            rewrite !get_default_count_emotions in Hle; exact Hle|].
    cbn [exc_bind]. unfold index. rewrite get_count_emotions.
    assert (Hd : In d (keys (count_emotions rs)))
      by (rewrite Hk; apply in_or_app; right; left; reflexivity).
    apply keys_count_emotions_In in Hd.
    apply (count_occ_In string_dec) in Hd. fold (tally rs d) in Hd.
    destruct (tally rs d =? 0) eqn:E0; [apply Nat.eqb_eq in E0; lia|].
    cbn [exc_bind]. rewrite Hn. unfold truediv at 1. cbn [exc_bind].
    rewrite (comprehension_total _ (fun c => fraction c (S (List.length rs0)))).
    + reflexivity.
    + intros v. reflexivity.
    + apply keys_count_emotions_NoDup.
  - exfalso. unfold max_by in Hmax.
    destruct (keys (count_emotions rs)) eqn:Ek; [|discriminate].
    assert (Hin : In (EmotionResult.emotion r0) (keys (count_emotions rs))).
    { apply keys_count_emotions_In. subst rs. left. reflexivity. }
    rewrite Ek in Hin. destruct Hin.
Qed.

(** C3. On every non-empty list of [N] classified records the aggregation
    returns the label with the highest tally of per-record top labels, the
    first-encountered one among those that tie; its confidence is
    [tally(dominant) / N]; and its distribution maps each observed label,
    and no other, to [tally(label) / N]. *)
Theorem aggregate_emotions_majority_vote (rs : list EmotionResult.t) :
  rs <> [] ->
  exists dominant distribution,
    aggregate_emotions rs =
      Return (dominant, fraction (tally rs dominant) (List.length rs), distribution) /\
    (forall l, tally rs l <= tally rs dominant) /\
    (exists before after,
        labels_of rs = (before ++ dominant :: after)%list /\
        forall l, In l before -> tally rs l < tally rs dominant) /\
    (forall l,
        get distribution l =
        if in_dec string_dec l (labels_of rs)
        then Some (fraction (tally rs l) (List.length rs))
        else None).
Proof.
  intros Hne.
  destruct (aggregate_emotions_nonempty rs Hne)
    as (d & kpre & kpost & Hk & Hlt & Hle & Hagg).
  exists d, (map (fun kv => (fst kv, fraction (snd kv) (List.length rs)))
                 (count_emotions rs)).
  split; [exact Hagg|].
  split; [|split].
  - intros l.
    destruct (in_dec string_dec l (labels_of rs)) as [Hin|Hout].
    + apply keys_count_emotions_In in Hin. rewrite Hk in Hin.
      apply in_app_or in Hin. destruct Hin as [Hin|[<-|Hin]].
      * specialize (Hlt l Hin). lia.
      * lia.
      * exact (Hle l Hin).
    + apply (count_occ_not_In string_dec) in Hout.
      unfold tally at 1. rewrite Hout. lia.
  - destruct (keys_count_emotions_order rs _ _ _ Hk) as (pre & post & Hl & Hpre).
    exists pre, post. split; [exact Hl|].
    intros l Hin. apply Hlt. apply Hpre. exact Hin.
  - intros l.
    rewrite (get_map (fun c => fraction c (List.length rs))), get_count_emotions.
    destruct (in_dec string_dec l (labels_of rs)) as [Hin|Hout].
    + apply (count_occ_In string_dec) in Hin. fold (tally rs l) in Hin.
      destruct (tally rs l =? 0) eqn:E0; [apply Nat.eqb_eq in E0; lia|].
      reflexivity.
    + apply (count_occ_not_In string_dec) in Hout. fold (tally rs l) in Hout.
      rewrite Hout. reflexivity.
Qed.

(** The example of the specification: [happy, happy, sad]. *)
Example aggregate_happy_happy_sad :
  aggregate_emotions
    [labelled "1" "happy"; labelled "2" "happy"; labelled "3" "sad"] =
  Return ("happy", (2 # 3)%Q, [("happy", (2 # 3)%Q); ("sad", (1 # 3)%Q)]).
Proof. reflexivity. Qed.

(** A tie goes to the label met first. *)
Example aggregate_tie_first_met :
  aggregate_emotions
    [labelled "1" "sad"; labelled "2" "happy"; labelled "3" "happy";
     labelled "4" "sad"] =
  Return ("sad", (2 # 4)%Q, [("sad", (2 # 4)%Q); ("happy", (2 # 4)%Q)]).
Proof. reflexivity. Qed.

Lemma aggregate_emotions_majority_vote_witness :
  exists dominant distribution,
    aggregate_emotions
      [labelled "1" "happy"; labelled "2" "happy"; labelled "3" "sad"] =
      Return (dominant,
              fraction (tally [labelled "1" "happy"; labelled "2" "happy";
                               labelled "3" "sad"] dominant) 3,
              distribution).
Proof.
  destruct (aggregate_emotions_majority_vote
              [labelled "1" "happy"; labelled "2" "happy"; labelled "3" "sad"])
    as (d & dist & H & _).
  - discriminate.
  - exists d, dist. exact H.
Defined.

End AggregationTheorems.

(** ** The monad *)

Lemma bind_assoc {A B C} (m : M A) (f : A -> M B) (g : B -> M C) (w : World) :
  bind (bind m f) g w = bind m (fun a => bind (f a) g) w.
Proof.
  unfold bind. destruct (m w) as [w1 [a|e]]; reflexivity.
Qed.

Lemma bind_returns {A B} (m : M A) (f : A -> M B) (w w1 : World) (a : A) :
  m w = (w1, Return a) -> bind m f w = f a w1.
Proof.
  intros H. unfold bind. rewrite H. reflexivity.
Qed.

Lemma bind_raises {A B} (m : M A) (f : A -> M B) (w w1 : World) (e : exn) :
  m w = (w1, Raise e) -> bind m f w = (w1, Raise e).
Proof.
  intros H. unfold bind. rewrite H. reflexivity.
Qed.


Section CommutesFacts.
Context {A B : Type} (u : World -> World).

Lemma commutes_ret (a : A) : Commutes u (ret a).
Proof. intros w. reflexivity. Qed.

Lemma commutes_raise (e : exn) : Commutes u (@raise A e).
Proof. intros w. reflexivity. Qed.

Lemma commutes_lift (x : Exc A) : Commutes u (lift x).
Proof. intros w. reflexivity. Qed.

Lemma commutes_bind (m : M A) (f : A -> M B) :
  Commutes u m -> (forall a, Commutes u (f a)) -> Commutes u (bind m f).
Proof.
  intros Hm Hf w. unfold bind. rewrite Hm.
  destruct (m w) as [w1 [a|e]]; simpl.
  - apply Hf.
  - reflexivity.
Qed.

Lemma commutes_try_except (m : M A) (h : exn -> M A) :
  Commutes u m -> (forall e, Commutes u (h e)) -> Commutes u (try_except m h).
Proof.
  intros Hm Hh w. unfold try_except. rewrite Hm.
  destruct (m w) as [w1 [a|e]]; simpl.
  - reflexivity.
  - apply Hh.
Qed.

End CommutesFacts.


Lemma set_session_user_id (w : World) : set_session_user (session_user w) w = w.
Proof. destruct w; reflexivity. Qed.


(** Unfolds the monadic structure of a service and closes the leaves, which
    commute with the change by computation. *)
Ltac commutes_step :=
  first
    [ apply commutes_ret
    | apply commutes_raise
    | apply commutes_lift
    | apply commutes_bind; [|intros ?]
    | apply commutes_try_except; [|intros ?]
    | match goal with
      | |- Commutes _ (match ?x with _ => _ end) => destruct x
      end
    | (intros ?; reflexivity) ].

Ltac commutes := repeat commutes_step.

Section ServicesCommute.
Variable env : Env.
Variable cfg : Settings.



Lemma upload_image_to_s3_commutes_session_user t img sid :
  Commutes (set_session_user t) (upload_image_to_s3 env cfg img sid).
Proof.
  unfold upload_image_to_s3, put_object. commutes.
Qed.

Lemma insert_emotion_log_commutes_session_user t image_id sid label conf dist :
  Commutes (set_session_user t)
           (insert_emotion_log env image_id sid label conf dist).
Proof.
  unfold insert_emotion_log, uuid_uuid4, datetime_utcnow, db_execute. commutes.
Qed.

Lemma insert_aggregated_emotion_commutes_session_user t sid dom conf dist st :
  Commutes (set_session_user t)
           (insert_aggregated_emotion env sid dom conf dist st).
Proof.
  unfold insert_aggregated_emotion, uuid_uuid4, datetime_utcnow, db_execute.
  commutes.
Qed.

End ServicesCommute.

(** ** The services never raise where they swallow their exceptions *)

Section ServicesReturn.
Variable env : Env.

Lemma insert_emotion_log_returns image_id sid label conf dist (w : World) :
  snd (insert_emotion_log env image_id sid label conf dist w) = Return tt.
Proof.
  unfold insert_emotion_log, try_except.
  destruct (bind _ _ w) as [w1 [[]|e]]; reflexivity.
Qed.

Lemma insert_aggregated_emotion_returns sid dom conf dist st (w : World) :
  snd (insert_aggregated_emotion env sid dom conf dist st w) = Return tt.
Proof.
  unfold insert_aggregated_emotion, try_except.
  destruct (bind _ _ w) as [w1 [[]|e]]; reflexivity.
Qed.

Lemma delete_session_returns sid (w : World) :
  snd (delete_session env sid w) = Return tt.
Proof.
  unfold delete_session, try_except.
  destruct (bind _ _ w) as [w1 [[]|e]]; reflexivity.
Qed.

Lemma aggregate_emotions_returns (rs : list EmotionResult.t) :
  exists agg, aggregate_emotions rs = Return agg.
Proof.
  destruct rs as [|r rs].
  - eexists. reflexivity.
  - destruct (aggregate_emotions_nonempty (r :: rs)) as (d & _ & _ & _ & _ & _ & H);
      [discriminate|].
    eexists. exact H.
Qed.

End ServicesReturn.

(** ** The loop of step 6 *)

Section LoopFacts.
Variable env : Env.
Variable cfg : Settings.
Variable matched_images_of : Embedding env -> Z -> Q -> Exc (list MatchedImage.t).
Variable emotion_of : string -> Exc (string * Py.dict Q * Q).

Lemma classified_cons img imgs :
  classified emotion_of (img :: imgs) =
  (classified emotion_of [img] ++ classified emotion_of imgs)%list.
Proof.
  unfold classified. simpl. rewrite app_nil_r. reflexivity.
Qed.

Lemma analyze_one_result sid rs img (w : World) :
  snd (analyze_one env emotion_of sid rs img w) =
  Return (rs ++ classified emotion_of [img])%list.
Proof.
  unfold analyze_one, classified. simpl flat_map.
  unfold bind at 1. unfold try_except at 1. unfold bind at 1. unfold call, modify.
  unfold bind at 1. unfold lift.
  destruct (emotion_of (MatchedImage.image_path img)) as [[[label dist] conf]|e];
    simpl.
  - unfold bind, try_except.
    match goal with
    | |- context [insert_emotion_log ?a ?b ?c ?d ?e ?f ?v] =>
        pose proof (insert_emotion_log_returns a b c d e f v) as H;
        destruct (insert_emotion_log a b c d e f v) as [w1 r]
    end.
    simpl in H. subst r. reflexivity.
  - rewrite app_nil_r. reflexivity.
Qed.

Lemma analyze_all_result sid imgs :
  forall rs (w : World),
    snd (analyze_all env emotion_of sid imgs rs w) =
    Return (rs ++ classified emotion_of imgs)%list.
Proof.
  induction imgs as [|img imgs IH]; intros rs w.
  - simpl. rewrite app_nil_r. reflexivity.
  - cbn [analyze_all]. unfold bind.
    pose proof (analyze_one_result sid rs img w) as H1.
    destruct (analyze_one env emotion_of sid rs img w) as [w1 r1].
    cbn [snd] in H1. subst r1.
    rewrite IH, (classified_cons img imgs), app_assoc. reflexivity.
Qed.

Lemma classified_length imgs :
  List.length (classified emotion_of imgs) + raising emotion_of imgs =
  List.length imgs.
Proof.
  unfold classified, raising. induction imgs as [|img imgs IH]; simpl.
  - reflexivity.
  - destruct (emotion_of (MatchedImage.image_path img)) as [[[label dist] conf]|e];
      simpl; lia.
Qed.

End LoopFacts.

(** ** What the inserts do to the world *)

Section InsertRuns.
Variable env : Env.

Lemma insert_emotion_log_run image_id sid label conf dist (w : World) :
  insert_emotion_log env image_id sid label conf dist w =
  (if emotion_log_persists env w
   then with_emotion_log
          (fun t => (t ++ [emotion_log_row env image_id sid label conf dist w])%list)
          (three_ticks w)
   else three_ticks w,
   Return tt).
Proof.
  unfold insert_emotion_log, emotion_log_persists, emotion_log_row, try_except,
    bind, uuid_uuid4, datetime_utcnow, db_execute, tick, ret, raise, read, modify,
    three_ticks.
  cbn. destruct (commit_fault env (S (S (ticks w)))); cbn; [reflexivity|].
  unfold has_emotion_log. cbn.
  destruct (existsb _ (emotion_log w)); reflexivity.
Qed.

Lemma insert_aggregated_emotion_run sid dom conf dist st (w : World) :
  insert_aggregated_emotion env sid dom conf dist st w =
  (if aggregated_persists env sid w
   then with_aggregated
          (fun t => (t ++ [aggregated_row env sid dom conf dist st w])%list)
          (three_ticks w)
   else three_ticks w,
   Return tt).
Proof.
  unfold insert_aggregated_emotion, aggregated_persists, aggregated_row,
    try_except, bind, uuid_uuid4, datetime_utcnow, db_execute, tick, ret, raise,
    read, modify, three_ticks.
  cbn. destruct (commit_fault env (S (S (ticks w)))); cbn; [reflexivity|].
  unfold has_aggregated. cbn.
  destruct (existsb _ (session_aggregated_emotion w)); reflexivity.
Qed.

End InsertRuns.

(** ** What the loop of step 6 does to the world *)

Section LoopRuns.
Variable env : Env.
Variable emotion_of : string -> Exc (string * Py.dict Q * Q).

Lemma analyze_one_run sid rs img (w : World) :
  analyze_one env emotion_of sid rs img w =
  match emotion_of (MatchedImage.image_path img) with
  | Return (label, dist, conf) =>
      (fst (insert_emotion_log env (MatchedImage.image_id img) sid label conf dist
              (with_calls
                 (fun cs => ((cs ++ [CallAnalyzeEmotion (MatchedImage.image_path img)])
                               ++ [CallInsertEmotionLog (MatchedImage.image_id img)])%list)
                 w)),
       Return (rs ++ classified emotion_of [img])%list)
  | Raise _ =>
      (with_calls
         (fun cs => (cs ++ [CallAnalyzeEmotion (MatchedImage.image_path img)])%list) w,
       Return rs)
  end.
Proof.
  unfold analyze_one, classified. simpl flat_map.
  unfold bind at 1. unfold try_except at 1. unfold bind at 1. unfold call, modify.
  unfold bind at 1. unfold lift.
  destruct (emotion_of (MatchedImage.image_path img)) as [[[label dist] conf]|e];
    cbn -[insert_emotion_log].
  - unfold bind, try_except. rewrite !insert_emotion_log_run. reflexivity.
  - reflexivity.
Qed.

Lemma loop_calls_cons img imgs :
  loop_calls emotion_of (img :: imgs) =
  (loop_calls emotion_of [img] ++ loop_calls emotion_of imgs)%list.
Proof.
  unfold loop_calls. simpl flat_map. rewrite app_nil_r. reflexivity.
Qed.

Lemma classified_one_return img label dist conf :
  emotion_of (MatchedImage.image_path img) = Return (label, dist, conf) ->
  classified emotion_of [img] =
  [ {| EmotionResult.image_id := MatchedImage.image_id img;
       EmotionResult.image_url := MatchedImage.image_url img;
       EmotionResult.emotion := label;
       EmotionResult.emotion_distribution := dist;
       EmotionResult.emotion_confidence := conf;
       EmotionResult.similarity_score := MatchedImage.similarity_score img |} ].
Proof.
  intros H. unfold classified. simpl. rewrite H. reflexivity.
Qed.

Lemma classified_one_raise img e :
  emotion_of (MatchedImage.image_path img) = Raise e ->
  classified emotion_of [img] = [].
Proof.
  intros H. unfold classified. simpl. rewrite H. reflexivity.
Qed.

Lemma loop_calls_one_return img r :
  emotion_of (MatchedImage.image_path img) = Return r ->
  loop_calls emotion_of [img] =
  [CallAnalyzeEmotion (MatchedImage.image_path img);
   CallInsertEmotionLog (MatchedImage.image_id img)].
Proof.
  intros H. unfold loop_calls. simpl. rewrite H. reflexivity.
Qed.

Lemma loop_calls_one_raise img e :
  emotion_of (MatchedImage.image_path img) = Raise e ->
  loop_calls emotion_of [img] = [CallAnalyzeEmotion (MatchedImage.image_path img)].
Proof.
  intros H. unfold loop_calls. simpl. rewrite H. reflexivity.
Qed.

(** The effect of the loop: the calls it makes, the rows it writes, and what
    it leaves alone. *)
Lemma analyze_all_effect sid imgs :
  forall rs (w : World),
    exists logs,
      calls (fst (analyze_all env emotion_of sid imgs rs w)) =
        (calls w ++ loop_calls emotion_of imgs)%list /\
      emotion_log (fst (analyze_all env emotion_of sid imgs rs w)) =
        (emotion_log w ++ logs)%list /\
      Forall (fun log => exists r, In r (classified emotion_of imgs) /\
                                   log_of sid r log) logs /\
      ((forall n, ticks w <= n -> commit_fault env n <> None) -> logs = []) /\
      ticks (fst (analyze_all env emotion_of sid imgs rs w)) =
        ticks w + 3 * List.length (classified emotion_of imgs) /\
      session_user (fst (analyze_all env emotion_of sid imgs rs w)) =
        session_user w /\
      session_aggregated_emotion (fst (analyze_all env emotion_of sid imgs rs w)) =
        session_aggregated_emotion w /\
      s3 (fst (analyze_all env emotion_of sid imgs rs w)) = s3 w /\
      background_tasks (fst (analyze_all env emotion_of sid imgs rs w)) =
        background_tasks w.
Proof.
  induction imgs as [|img imgs IH]; intros rs w.
  - exists []. cbn. rewrite !app_nil_r, Nat.add_0_r. repeat split; auto.
  - cbn [analyze_all]. unfold bind. rewrite analyze_one_run.
    rewrite (classified_cons emotion_of img imgs), (loop_calls_cons img imgs).
    destruct (emotion_of (MatchedImage.image_path img))
      as [[[label dist] conf]|e] eqn:Hc.
    + rewrite (classified_one_return _ _ _ _ Hc), (loop_calls_one_return _ _ Hc).
      rewrite insert_emotion_log_run. cbn [fst].
      destruct (emotion_log_persists env _) eqn:Hp;
        match goal with
        | |- context [analyze_all env emotion_of sid imgs ?r ?v] =>
            destruct (IH r v) as (logs & Hcalls & Hlog & Hall & Hfault & Hticks
                                  & Hsu & Hagg & Hs3 & Hbg)
        end;
        cbn in Hcalls, Hlog, Hticks, Hsu, Hagg, Hs3, Hbg, Hfault.
      * exists (emotion_log_row env (MatchedImage.image_id img) sid label conf dist
                  (with_calls
                     (fun cs => ((cs ++ [CallAnalyzeEmotion (MatchedImage.image_path img)])
                                   ++ [CallInsertEmotionLog (MatchedImage.image_id img)])%list)
                     w) :: logs).
        rewrite Hcalls, Hlog, Hticks, Hsu, Hagg, Hs3, Hbg.
        rewrite <- !app_assoc. cbn [app List.length].
        repeat split; auto; try lia.
        -- constructor.
           ++ eexists. split; [left; reflexivity|].
              unfold log_of. cbn. auto.
           ++ eapply Forall_impl; [|exact Hall].
              intros log (r & Hr & Hlr). exists r. split; [right; exact Hr|exact Hlr].
        -- intros Hf. exfalso.
           unfold emotion_log_persists in Hp. cbn in Hp.
           destruct (commit_fault env (S (S (ticks w)))) eqn:Hcf; [discriminate|].
           apply (Hf (S (S (ticks w)))); [lia | exact Hcf].
      * exists logs.
        rewrite Hcalls, Hlog, Hticks, Hsu, Hagg, Hs3, Hbg.
        rewrite <- !app_assoc. cbn [app List.length].
        repeat split; auto; try lia.
        -- eapply Forall_impl; [|exact Hall].
           intros log (r & Hr & Hlr). exists r. split; [right; exact Hr|exact Hlr].
        -- intros Hf. apply Hfault. intros n Hn. apply Hf. lia.
    + rewrite (classified_one_raise _ _ Hc), (loop_calls_one_raise _ _ Hc).
      cbn [fst app].
      match goal with
      | |- context [analyze_all env emotion_of sid imgs ?r ?v] =>
          destruct (IH r v) as (logs & Hcalls & Hlog & Hall & Hfault & Hticks
                                & Hsu & Hagg & Hs3 & Hbg)
      end.
      cbn in Hcalls, Hlog, Hticks, Hsu, Hagg, Hs3, Hbg, Hfault.
      exists logs.
      rewrite Hcalls, Hlog, Hticks, Hsu, Hagg, Hs3, Hbg.
      rewrite <- !app_assoc. cbn [app List.length].
      repeat split; auto.
Qed.

End LoopRuns.

(** ** The route, step by step *)

Section RouteRuns.
Variable env : Env.
Variable cfg : Settings.
Variable matched_images_of : Embedding env -> Z -> Q -> Exc (list MatchedImage.t).
Variable emotion_of : string -> Exc (string * Py.dict Q * Q).

Lemma search_photos_try_split request (w : World) :
  search_photos_try env cfg matched_images_of emotion_of request w =
  bind (search_upto_matches env cfg matched_images_of request)
       (search_matches env cfg emotion_of (SearchRequest.session_id request)) w.
Proof.
  unfold search_photos_try, search_upto_matches, bind, call, modify.
  destruct (insert_session_user _ _ _ _ _ _ _) as [w1 [[]|e]]; [|reflexivity].
  destruct (upload_image_to_s3 _ _ _ _ _) as [w2 [path|e]]; [|reflexivity].
  destruct (find_matches _ _ _ _ _) as [w3 [found|e]]; reflexivity.
Qed.

(** After the loop the route cannot fail any more. *)
Lemma search_matches_run sid imgs (w : World) :
  exists dom conf dist,
    aggregate_emotions
      (classified emotion_of (Py.slice_to (MAX_IMAGES_TO_PROCESS cfg) imgs)) =
      Return (dom, conf, dist) /\
    search_matches env cfg emotion_of sid imgs w =
    (with_background_tasks (fun ts => (ts ++ [sid])%list)
       (fst (insert_aggregated_emotion env sid dom conf dist
               (make_statement env dom conf)
               (with_calls
                  (fun cs => ((cs ++ [CallAggregateEmotions])
                                ++ [CallInsertAggregatedEmotion])%list)
                  (fst (analyze_all env emotion_of sid
                          (Py.slice_to (MAX_IMAGES_TO_PROCESS cfg) imgs) [] w))))),
     Return
       {| SearchResponse.matched_count :=
            List.length
              (classified emotion_of (Py.slice_to (MAX_IMAGES_TO_PROCESS cfg) imgs));
          SearchResponse.matched_images :=
            classified emotion_of (Py.slice_to (MAX_IMAGES_TO_PROCESS cfg) imgs);
          SearchResponse.aggregated_state := (dom, conf, dist);
          SearchResponse.statement := make_statement env dom conf;
          SearchResponse.session_id := sid |}).
Proof.
  destruct (aggregate_emotions_returns
              (classified emotion_of (Py.slice_to (MAX_IMAGES_TO_PROCESS cfg) imgs)))
    as [[[dom conf] dist] Hagg].
  exists dom, conf, dist. split; [exact Hagg|].
  unfold search_matches. unfold bind at 1.
  pose proof (analyze_all_result env emotion_of sid
                (Py.slice_to (MAX_IMAGES_TO_PROCESS cfg) imgs) [] w) as Hres.
  destruct (analyze_all env emotion_of sid _ [] w) as [w1 r1].
  cbn [snd app] in Hres. subst r1. cbn [fst].
  unfold bind at 1. unfold call at 1. unfold modify at 1.
  unfold bind at 1. unfold lift. rewrite Hagg.
  unfold bind at 1. unfold call at 1. unfold modify at 1.
  unfold bind at 1. rewrite !insert_aggregated_emotion_run.
  reflexivity.
Qed.

Lemma search_photos_with_found request (w w1 : World) found :
  search_upto_matches env cfg matched_images_of request w = (w1, Return found) ->
  search_photos_with env cfg matched_images_of emotion_of request w =
  search_matches env cfg emotion_of (SearchRequest.session_id request) found w1.
Proof.
  intros H. unfold search_photos_with, try_except.
  rewrite search_photos_try_split. rewrite (bind_returns _ _ _ _ _ H).
  destruct (search_matches_run (SearchRequest.session_id request) found w1)
    as (dom & conf & dist & _ & ->).
  reflexivity.
Qed.

Lemma search_photos_with_failed request (w w1 : World) e :
  search_upto_matches env cfg matched_images_of request w = (w1, Raise e) ->
  search_photos_with env cfg matched_images_of emotion_of request w =
  search_photos_except env e w1.
Proof.
  intros H. unfold search_photos_with, try_except.
  rewrite search_photos_try_split. rewrite (bind_raises _ _ _ _ _ H).
  reflexivity.
Qed.

(** A response comes only after the matches were found. *)
Lemma search_photos_with_response request (w w' : World) resp :
  search_photos_with env cfg matched_images_of emotion_of request w =
    (w', Return resp) ->
  exists w1 found,
    search_upto_matches env cfg matched_images_of request w = (w1, Return found).
Proof.
  intros H.
  destruct (search_upto_matches env cfg matched_images_of request w)
    as [w1 [found|e]] eqn:Hup.
  - exists w1, found. reflexivity.
  - rewrite (search_photos_with_failed _ _ _ _ Hup) in H.
    destruct e; discriminate.
Qed.

End RouteRuns.

Section RouteEffects.
Variable env : Env.
Variable cfg : Settings.
Variable emotion_of : string -> Exc (string * Py.dict Q * Q).

Lemma slice_to_all {A} (n : Z) (l : list A) :
  (Z.of_nat (List.length l) <= n)%Z -> Py.slice_to n l = l.
Proof.
  intros H. unfold Py.slice_to.
  destruct (0 <=? n)%Z eqn:E.
  - apply firstn_all2. lia.
  - apply Z.leb_gt in E. lia.
Qed.

Lemma insert_aggregated_emotion_frame sid dom conf dist st (v : World) :
  calls (fst (insert_aggregated_emotion env sid dom conf dist st v)) = calls v /\
  emotion_log (fst (insert_aggregated_emotion env sid dom conf dist st v)) =
    emotion_log v /\
  session_user (fst (insert_aggregated_emotion env sid dom conf dist st v)) =
    session_user v /\
  s3 (fst (insert_aggregated_emotion env sid dom conf dist st v)) = s3 v.
Proof.
  rewrite insert_aggregated_emotion_run.
  destruct (aggregated_persists env sid v); cbn; auto.
Qed.

(** The world after steps 6 to 9. *)
Lemma search_matches_effect sid imgs (w : World) :
  exists logs,
    calls (fst (search_matches env cfg emotion_of sid imgs w)) =
      (calls w
       ++ loop_calls emotion_of (Py.slice_to (MAX_IMAGES_TO_PROCESS cfg) imgs)
       ++ [CallAggregateEmotions; CallInsertAggregatedEmotion])%list /\
    emotion_log (fst (search_matches env cfg emotion_of sid imgs w)) =
      (emotion_log w ++ logs)%list /\
    Forall (fun log =>
              exists r,
                In r (classified emotion_of
                        (Py.slice_to (MAX_IMAGES_TO_PROCESS cfg) imgs)) /\
                log_of sid r log) logs /\
    ((forall n, ticks w <= n -> commit_fault env n <> None) -> logs = []) /\
    session_user (fst (search_matches env cfg emotion_of sid imgs w)) =
      session_user w.
Proof.
  destruct (search_matches_run env cfg emotion_of sid imgs w)
    as (dom & conf & dist & _ & ->).
  destruct (analyze_all_effect env emotion_of sid
              (Py.slice_to (MAX_IMAGES_TO_PROCESS cfg) imgs) [] w)
    as (logs & Hcalls & Hlog & Hall & Hfault & _ & Hsu & _).
  exists logs. cbn [fst].
  match goal with
  | |- context [insert_aggregated_emotion env ?a ?b ?c ?d ?e ?v] =>
      destruct (insert_aggregated_emotion_frame a b c d e v)
        as (Fc & Fl & Fs & _)
  end.
  cbn [calls emotion_log session_user with_background_tasks].
  rewrite Fc, Fl, Fs. cbn [calls emotion_log session_user with_calls].
  rewrite Hcalls, Hlog, Hsu, <- !app_assoc.
  repeat split; auto.
Qed.

End RouteEffects.

(** ** Emotion records and the aggregate (C7) *)

Section EmotionLogs.
Variable env : Env.
Variable cfg : Settings.
Variable matched_images_of : Embedding env -> Z -> Q -> Exc (list MatchedImage.t).
Variable emotion_of : string -> Exc (string * Py.dict Q * Q).

(** C7, as the code has it.  The records that take part in the aggregate
    are those of the matches whose classification returned.  For each of
    them [insert_emotion_log] is called, in the loop and so before
    [aggregate_emotions]; every row that the search adds to [emotion_log] is
    the row of one of them.  But the outcome of the insert changes neither
    the response nor the aggregate: when the database fails all along no row
    is written and the same records are aggregated. *)
Theorem emotion_log_failures_do_not_reach_the_aggregate
  (request : SearchRequest.t) (w w1 : World) (found : list MatchedImage.t) :
  search_upto_matches env cfg matched_images_of request w = (w1, Return found) ->
  exists w' resp logs,
    search_photos_with env cfg matched_images_of emotion_of request w =
      (w', Return resp) /\
    SearchResponse.matched_images resp =
      classified emotion_of (Py.slice_to (MAX_IMAGES_TO_PROCESS cfg) found) /\
    aggregate_emotions (SearchResponse.matched_images resp) =
      Return (SearchResponse.aggregated_state resp) /\
    calls w' =
      (calls w1
       ++ loop_calls emotion_of (Py.slice_to (MAX_IMAGES_TO_PROCESS cfg) found)
       ++ [CallAggregateEmotions; CallInsertAggregatedEmotion])%list /\
    emotion_log w' = (emotion_log w1 ++ logs)%list /\
    Forall (fun log =>
              exists r, In r (SearchResponse.matched_images resp) /\
                        log_of (SearchRequest.session_id request) r log) logs /\
    ((forall n, ticks w1 <= n -> commit_fault env n <> None) -> logs = []).
Proof.
  intros Hup. rewrite (search_photos_with_found _ _ _ _ _ _ _ _ Hup).
  destruct (search_matches_effect env cfg emotion_of
              (SearchRequest.session_id request) found w1)
    as (logs & Hcalls & Hlog & Hall & Hfault & _).
  destruct (search_matches_run env cfg emotion_of
              (SearchRequest.session_id request) found w1)
    as (dom & conf & dist & Hagg & Hrun).
  rewrite Hrun in *. cbn [fst] in Hcalls, Hlog.
  eexists. eexists. exists logs.
  split; [reflexivity|].
  cbn [SearchResponse.matched_images SearchResponse.aggregated_state].
  repeat split; auto.
Qed.

End EmotionLogs.

(** The database fails when the emotion log of the one match is inserted: no
    row is written, and the record is in the response and in the aggregate. *)
Lemma emotion_log_failures_do_not_reach_the_aggregate_witness :
  exists w' resp,
    search_photos (test_env (fun _ => true) (fault_at 7) no_fault) settings
      (test_request PHOTO true) empty_world = (w', Return resp) /\
    emotion_log w' = [] /\
    map EmotionResult.emotion (SearchResponse.matched_images resp) = ["happy"] /\
    SearchResponse.aggregated_state resp = ("happy", 1%Q, [("happy", 1%Q)]).
Proof.
  pose (e := test_env (fun _ => true) (fault_at 7) no_fault).
  destruct (emotion_log_failures_do_not_reach_the_aggregate e settings
              (get_matched_images e) (analyze_emotion e) (test_request PHOTO true)
              empty_world
              (fst (search_upto_matches e settings (get_matched_images e)
                      (test_request PHOTO true) empty_world))
              placeholder_matches)
    as (w' & resp & logs & Hs & _).
  - vm_compute. reflexivity.
  - exists w', resp. split; [exact Hs|].
    vm_compute in Hs. injection Hs as <- <-. vm_compute. repeat split.
Defined.

(** ** The session insert *)

Section SessionInsert.
Variable env : Env.
Variable cfg : Settings.

Lemma insert_session_user_run sid name img agreed (w : World) :
  insert_session_user env cfg sid name img agreed w =
  match session_expiry env cfg w with
  | Raise e => (with_ticks S w, Raise e)
  | Return expires_at =>
      match commit_fault env (S (S (S (ticks w)))) with
      | Some e => (four_ticks w, Raise (PyExc e))
      | None =>
          if has_session_user sid w
          then (four_ticks w, Raise (PyExc IntegrityError))
          else (with_session_user
                  (fun t => (t ++ [session_user_row env sid name img agreed
                                     expires_at w])%list)
                  (four_ticks w),
                Return tt)
      end
  end.
Proof.
  unfold insert_session_user, session_expiry, session_user_row, try_except, bind,
    datetime_utcnow, db_execute, tick, ret, raise, read, modify, lift, four_ticks.
  cbn -[Datetime.timedelta_hours Datetime.add].
  destruct (Datetime.timedelta_hours (SESSION_EXPIRY_HOURS cfg)) as [delta|e];
    cbn -[Datetime.add]; [|reflexivity].
  destruct (Datetime.add (utcnow env (ticks w)) delta) as [expires_at|e];
    cbn; [|reflexivity].
  destruct (commit_fault env (S (S (S (ticks w))))); cbn; [reflexivity|].
  unfold has_session_user. cbn.
  destruct (existsb _ (session_user w)); reflexivity.
Qed.

(** The expiry, when it can be represented, is the reading of the clock plus
    the configured number of hours. *)
Lemma session_expiry_value (w : World) (expires_at : Z) :
  session_expiry env cfg w = Return expires_at ->
  expires_at =
  (utcnow env (ticks w) + SESSION_EXPIRY_HOURS cfg * Datetime.usec_per_hour)%Z.
Proof.
  unfold session_expiry, Datetime.timedelta_hours, Datetime.add.
  destruct (_ && _); cbn [exc_bind]; [|discriminate].
  destruct (_ && _); [|discriminate].
  intros H. injection H as <-. reflexivity.
Qed.

End SessionInsert.

(** ** The route leaves the session table alone after the insert *)

Section RouteCommutes.
Variable env : Env.
Variable cfg : Settings.
Variable matched_images_of : Embedding env -> Z -> Q -> Exc (list MatchedImage.t).
Variable emotion_of : string -> Exc (string * Py.dict Q * Q).
Variable t : list SessionUser.t.

Lemma call_commutes_session_user c : Commutes (set_session_user t) (call c).
Proof. intros w; reflexivity. Qed.

Lemma find_matches_commutes_session_user request :
  Commutes (set_session_user t) (find_matches env cfg matched_images_of request).
Proof.
  unfold find_matches, call. commutes.
Qed.

Lemma analyze_one_commutes_session_user sid rs img :
  Commutes (set_session_user t) (analyze_one env emotion_of sid rs img).
Proof.
  unfold analyze_one.
  apply commutes_bind.
  - unfold call. commutes.
  - intros [[[label dist] conf]|]; [|apply commutes_ret].
    apply commutes_bind; [|intros ?; apply commutes_ret].
    apply commutes_try_except; [|intros ?; apply commutes_ret].
    apply commutes_bind; [apply call_commutes_session_user|].
    intros ?. apply insert_emotion_log_commutes_session_user.
Qed.

Lemma analyze_all_commutes_session_user sid imgs :
  forall rs, Commutes (set_session_user t) (analyze_all env emotion_of sid imgs rs).
Proof.
  induction imgs as [|img imgs IH]; intros rs; cbn [analyze_all].
  - apply commutes_ret.
  - apply commutes_bind; [apply analyze_one_commutes_session_user|].
    intros rs'. apply IH.
Qed.

Lemma search_matches_commutes_session_user sid imgs :
  Commutes (set_session_user t) (search_matches env cfg emotion_of sid imgs).
Proof.
  unfold search_matches.
  apply commutes_bind; [apply analyze_all_commutes_session_user|].
  intros rs.
  apply commutes_bind; [apply call_commutes_session_user|]. intros _.
  apply commutes_bind; [apply commutes_lift|].
  intros [[dom conf] dist].
  apply commutes_bind; [apply call_commutes_session_user|]. intros _.
  apply commutes_bind;
    [apply insert_aggregated_emotion_commutes_session_user|]. intros _.
  apply commutes_bind; [intros w; reflexivity|]. intros _.
  apply commutes_ret.
Qed.

Lemma after_insert_commutes_session_user request :
  Commutes (set_session_user t)
           (after_insert env cfg matched_images_of emotion_of request).
Proof.
  unfold after_insert.
  apply commutes_bind; [apply call_commutes_session_user|]. intros _.
  apply commutes_bind; [apply upload_image_to_s3_commutes_session_user|].
  intros path.
  apply commutes_bind; [apply find_matches_commutes_session_user|].
  intros found. apply search_matches_commutes_session_user.
Qed.

Lemma search_photos_except_commutes_session_user e :
  Commutes (set_session_user t) (search_photos_except env e).
Proof.
  destruct e; apply commutes_raise.
Qed.

End RouteCommutes.

Section RouteAfterInsert.
Variable env : Env.
Variable cfg : Settings.
Variable matched_images_of : Embedding env -> Z -> Q -> Exc (list MatchedImage.t).
Variable emotion_of : string -> Exc (string * Py.dict Q * Q).

Lemma search_photos_with_after_insert request (w : World) :
  search_photos_with env cfg matched_images_of emotion_of request w =
  match insert_session_user env cfg
          (SearchRequest.session_id request) (SearchRequest.user_name request)
          (SearchRequest.captured_image request)
          (SearchRequest.privacy_policy_agreed request)
          (with_calls (fun cs => (cs ++ [CallInsertSessionUser])%list) w) with
  | (w0, Return _) =>
      guarded_after_insert env cfg matched_images_of emotion_of request w0
  | (w0, Raise e) => search_photos_except env e w0
  end.
Proof.
  unfold guarded_after_insert, search_photos_with, search_photos_try, after_insert,
    try_except, bind, call, modify.
  destruct (insert_session_user _ _ _ _ _ _ _) as [w0 [[]|e]]; reflexivity.
Qed.

Lemma guarded_after_insert_commutes t request :
  Commutes (set_session_user t)
           (guarded_after_insert env cfg matched_images_of emotion_of request).
Proof.
  apply commutes_try_except.
  - apply after_insert_commutes_session_user.
  - intros e. apply search_photos_except_commutes_session_user.
Qed.

Lemma guarded_after_insert_session_user request (w : World) :
  session_user
    (fst (guarded_after_insert env cfg matched_images_of emotion_of request w)) =
  session_user w.
Proof.
  pose proof (guarded_after_insert_commutes (session_user w) request w) as H.
  rewrite set_session_user_id in H.
  apply (f_equal (fun x => session_user (fst x))) in H. exact H.
Qed.

Lemma search_photos_except_world e (w : World) :
  fst (search_photos_except env e w) = w.
Proof. destruct e; reflexivity. Qed.

(** C2, as the code has it.  The route never looks at
    [privacy_policy_agreed]: it only stores it, as text, in the Session row.
    The search of a request that does not agree gives the same response or
    error as the search of the same request that agrees, and the same
    world but for that column of the row it inserts. *)
Theorem consent_is_stored_but_not_checked (request : SearchRequest.t) (w : World) :
  let yes := search_photos_with env cfg matched_images_of emotion_of
               (with_consent true request) w in
  let no := search_photos_with env cfg matched_images_of emotion_of
              (with_consent false request) w in
  snd no = snd yes /\
  fst no = set_session_user (session_user (fst no)) (fst yes) /\
  ((session_user (fst no) = session_user w /\
    session_user (fst yes) = session_user w) \/
   (exists expires_at,
       session_user (fst no) =
         (session_user w ++
            [session_user_row env (SearchRequest.session_id request)
               (SearchRequest.user_name request)
               (SearchRequest.captured_image request) false expires_at w])%list /\
       session_user (fst yes) =
         (session_user w ++
            [session_user_row env (SearchRequest.session_id request)
               (SearchRequest.user_name request)
               (SearchRequest.captured_image request) true expires_at w])%list)).
Proof.
  cbv zeta. rewrite !search_photos_with_after_insert, !insert_session_user_run.
  cbn [SearchRequest.session_id SearchRequest.user_name
       SearchRequest.captured_image SearchRequest.privacy_policy_agreed
       with_consent].
  set (w0 := with_calls (fun cs => (cs ++ [CallInsertSessionUser])%list) w).
  change (session_expiry env cfg w0) with (session_expiry env cfg w).
  destruct (session_expiry env cfg w) as [expires_at|e].
  - change (ticks w0) with (ticks w).
    destruct (commit_fault env (S (S (S (ticks w))))) as [e|].
    + rewrite search_photos_except_world.
      split; [reflexivity|]. split; [symmetry; apply set_session_user_id|].
      left. split; reflexivity.
    + change (has_session_user (SearchRequest.session_id request) w0)
        with (has_session_user (SearchRequest.session_id request) w).
      destruct (has_session_user (SearchRequest.session_id request) w).
      * rewrite search_photos_except_world.
        split; [reflexivity|]. split; [symmetry; apply set_session_user_id|].
        left. split; reflexivity.
      * match goal with
        | |- context [with_session_user (fun t => (t ++ [?r])%list) (four_ticks w0)] =>
            change (with_session_user (fun t => (t ++ [r])%list) (four_ticks w0))
              with (set_session_user (session_user w ++ [r])%list (four_ticks w0))
        end.
        match goal with
        | |- context [with_session_user (fun t => (t ++ [?r])%list) (four_ticks w0)] =>
            change (with_session_user (fun t => (t ++ [r])%list) (four_ticks w0))
              with (set_session_user (session_user w ++ [r])%list (four_ticks w0))
        end.
        change (guarded_after_insert env cfg matched_images_of emotion_of (with_consent false request))
          with (guarded_after_insert env cfg matched_images_of emotion_of (with_consent true request)).
        rewrite !guarded_after_insert_commutes. cbn [fst snd].
        split; [reflexivity|]. split; [reflexivity|].
        right. exists expires_at. split; reflexivity.
  - rewrite search_photos_except_world.
    split; [reflexivity|]. split; [symmetry; apply set_session_user_id|].
    left. split; reflexivity.
Qed.

(** C8, as the code has it.  The expiry of the Session row that a search
    creates is the reading of the clock that [insert_session_user] takes when
    it is called, plus [SESSION_EXPIRY_HOURS]: 24 hours with the settings of
    the repository.  A search creates no other Session row.  The creation
    time that the row stores, [created_at], is another reading of the clock,
    taken later, when the row is flushed: the expiry is the creation time plus
    the window, less the time between the two readings.  So it is never after
    the creation time plus the window when the clock does not go back, and it
    is the creation time plus the window only when the clock shows the same
    time at both readings. *)
Theorem session_expires_after_the_retention_window
  (request : SearchRequest.t) (w : World) :
  (forall w1,
      insert_session_user env cfg
        (SearchRequest.session_id request) (SearchRequest.user_name request)
        (SearchRequest.captured_image request)
        (SearchRequest.privacy_policy_agreed request) w = (w1, Return tt) ->
      exists row,
        session_user w1 = (session_user w ++ [row])%list /\
        SessionUser.session_id row = SearchRequest.session_id request /\
        SessionUser.expires_at row =
          (utcnow env (ticks w) + retention_window cfg)%Z /\
        SessionUser.created_at row = utcnow env (S (S (ticks w))) /\
        SessionUser.expires_at row =
          (SessionUser.created_at row + retention_window cfg
           - (utcnow env (S (S (ticks w))) - utcnow env (ticks w)))%Z /\
        ((utcnow env (ticks w) <= utcnow env (S (S (ticks w))))%Z ->
         (SessionUser.expires_at row
          <= SessionUser.created_at row + retention_window cfg)%Z) /\
        (SessionUser.expires_at row =
           (SessionUser.created_at row + retention_window cfg)%Z <->
         utcnow env (S (S (ticks w))) = utcnow env (ticks w))) /\
  (session_user
     (fst (search_photos_with env cfg matched_images_of emotion_of request w)) =
     session_user w \/
   exists row,
     session_user
       (fst (search_photos_with env cfg matched_images_of emotion_of request w)) =
       (session_user w ++ [row])%list /\
     SessionUser.session_id row = SearchRequest.session_id request /\
     SessionUser.expires_at row =
       (utcnow env (ticks w) + retention_window cfg)%Z /\
     SessionUser.created_at row = utcnow env (S (S (ticks w)))) /\
  retention_window settings = (24 * 3600 * 1000000)%Z.
Proof.
  split; [|split; [|reflexivity]].
  - intros w1. rewrite insert_session_user_run.
    destruct (session_expiry env cfg w) as [expires_at|e] eqn:He; [|discriminate].
    destruct (commit_fault env (S (S (S (ticks w))))); [discriminate|].
    destruct (has_session_user _ w); [discriminate|].
    intros H. injection H as <-.
    apply session_expiry_value in He. fold (retention_window cfg) in He.
    eexists. split; [reflexivity|]. split; [reflexivity|].
    cbn [SessionUser.expires_at SessionUser.created_at session_user_row].
    split; [exact He|]. split; [reflexivity|].
    split; [lia|]. split; [lia|]. split; lia.
  - rewrite search_photos_with_after_insert, insert_session_user_run.
    set (w0 := with_calls (fun cs => (cs ++ [CallInsertSessionUser])%list) w).
    change (session_expiry env cfg w0) with (session_expiry env cfg w).
    destruct (session_expiry env cfg w) as [expires_at|e] eqn:He.
    + change (ticks w0) with (ticks w).
      destruct (commit_fault env (S (S (S (ticks w))))) as [e|].
      * rewrite search_photos_except_world. left. reflexivity.
      * change (has_session_user (SearchRequest.session_id request) w0)
          with (has_session_user (SearchRequest.session_id request) w).
        destruct (has_session_user (SearchRequest.session_id request) w).
        -- rewrite search_photos_except_world. left. reflexivity.
        -- right. rewrite guarded_after_insert_session_user.
           eexists. split; [reflexivity|]. split; [reflexivity|].
           split; [|reflexivity].
           apply (session_expiry_value _ _ _ _ He).
    + rewrite search_photos_except_world. left. reflexivity.
Qed.

End RouteAfterInsert.

(** ** Steps 3 to 5: no face, no matches (C5, C6) *)

Section FindMatches.
Variable env : Env.
Variable cfg : Settings.
Variable matched_images_of : Embedding env -> Z -> Q -> Exc (list MatchedImage.t).
Variable emotion_of : string -> Exc (string * Py.dict Q * Q).



Lemma search_photos_with_stored request (w w0 : World) path :
  store_request env cfg request w = (w0, Return path) ->
  search_photos_with env cfg matched_images_of emotion_of request w =
  try_except
    (bind (find_matches env cfg matched_images_of request)
          (search_matches env cfg emotion_of (SearchRequest.session_id request)))
    (search_photos_except env) w0.
Proof.
  unfold store_request, search_photos_with, search_photos_try, try_except, bind,
    call, modify.
  destruct (insert_session_user _ _ _ _ _ _ _) as [w1 [[]|e]]; [|discriminate].
  destruct (upload_image_to_s3 _ _ _ _ _) as [w2 [p|e]]; [|discriminate].
  intros H. injection H as <- _. reflexivity.
Qed.

(** What makes [detect_and_align_face] return [None]. *)
Lemma detect_and_align_face_undecodable image_bytes :
  imdecode env image_bytes = Return None ->
  detect_and_align_face env image_bytes = None.
Proof.
  intros H. unfold detect_and_align_face, detect_and_align_face_try.
  rewrite H. reflexivity.
Qed.

Lemma detect_and_align_face_decode_error image_bytes e :
  imdecode env image_bytes = Raise e ->
  detect_and_align_face env image_bytes = None.
Proof.
  intros H. unfold detect_and_align_face, detect_and_align_face_try.
  rewrite H. reflexivity.
Qed.

Lemma detect_and_align_face_no_face image_bytes image :
  imdecode env image_bytes = Return (Some image) ->
  detect_faces env image = Return [] ->
  detect_and_align_face env image_bytes = None.
Proof.
  intros H1 H2. unfold detect_and_align_face, detect_and_align_face_try.
  rewrite H1. cbn [exc_bind]. rewrite H2. reflexivity.
Qed.

(** C5, as the code has it.  Once the session is stored and the image
    uploaded, an image whose bytes do not decode to a bitmap makes the search
    fail with the very error of an image that decodes and shows no face:
    status 400 and the detail "No face detected in the image...".  No other
    service is called after the face detection. *)
Theorem undecodable_image_is_reported_as_no_face
  (request : SearchRequest.t) (w w0 : World) (path : string) (image_bytes : bytes) :
  store_request env cfg request w = (w0, Return path) ->
  __decode_base64 env (SearchRequest.captured_image request) = Return image_bytes ->
  imdecode env image_bytes = Return None \/
  (exists e, imdecode env image_bytes = Raise e) \/
  (exists image, imdecode env image_bytes = Return (Some image) /\
                 detect_faces env image = Return []) ->
  search_photos_with env cfg matched_images_of emotion_of request w =
  (with_calls (fun cs => (cs ++ [CallDetectAndAlignFace])%list) w0,
   Raise NO_FACE_DETECTED).
Proof.
  intros Hstore Hdecode Hcause.
  assert (Hnone : detect_and_align_face env image_bytes = None).
  { destruct Hcause as [H|[[e H]|(image & H1 & H2)]].
    - apply detect_and_align_face_undecodable. exact H.
    - eapply detect_and_align_face_decode_error. exact H.
    - eapply detect_and_align_face_no_face; eassumption. }
  rewrite (search_photos_with_stored _ _ _ _ Hstore).
  unfold find_matches. unfold try_except, bind, lift, call, modify.
  rewrite Hdecode. cbv beta iota. rewrite Hnone. reflexivity.
Qed.

End FindMatches.

(** The three characters [ABC] are not an image: the search answers as it does
    for a photograph without a face. *)
Lemma undecodable_image_is_reported_as_no_face_witness :
  search_photos env_ok settings (test_request NOT_AN_IMAGE true) empty_world =
  (with_calls (fun cs => (cs ++ [CallDetectAndAlignFace])%list)
     (fst (store_request env_ok settings (test_request NOT_AN_IMAGE true)
             empty_world)),
   Raise NO_FACE_DETECTED).
Proof.
  apply (undecodable_image_is_reported_as_no_face env_ok settings
           (get_matched_images env_ok) (analyze_emotion env_ok)
           (test_request NOT_AN_IMAGE true) empty_world _
           "s3://face-emotion-bucket/sessions/session-1/captured.jpg"
           not_an_image_bytes).
  - vm_compute. reflexivity.
  - reflexivity.
  - left. reflexivity.
Defined.

(** The claim fails on the code: the error of an image that does not decode
    is the one of an image without a face. *)
Lemma invalid_image_counterexample :
  __decode_base64 env_ok NOT_AN_IMAGE = Return not_an_image_bytes /\
  imdecode env_ok not_an_image_bytes = Return None /\
  snd (search_photos env_ok settings (test_request NOT_AN_IMAGE true) empty_world) =
    Raise NO_FACE_DETECTED /\
  __decode_base64 env_ok LANDSCAPE = Return landscape_bytes /\
  imdecode env_ok landscape_bytes = Return (Some landscape_bytes) /\
  detect_faces env_ok landscape_bytes = Return [] /\
  snd (search_photos env_ok settings (test_request LANDSCAPE true) empty_world) =
    snd (search_photos env_ok settings (test_request NOT_AN_IMAGE true) empty_world).
Proof.
  repeat split; vm_compute; reflexivity.
Qed.

(** The claim fails on the code: a request that does not agree to the privacy
    policy is served like any other.  Its Session row is created, its image
    is uploaded and every model is called. *)
Lemma consent_gate_counterexample :
  exists w' resp,
    search_photos env_ok settings (test_request PHOTO false) empty_world =
      (w', Return resp) /\
    map SessionUser.privacy_policy_agreed (session_user w') = ["False"] /\
    Py.keys (s3 w') = ["sessions/session-1/captured.jpg"] /\
    calls w' = [CallInsertSessionUser; CallUploadImageToS3; CallDetectAndAlignFace;
                CallExtractEmbedding; CallGetMatchedImages;
                CallAnalyzeEmotion "/path/to/image1.jpg"; CallInsertEmotionLog "1";
                CallAggregateEmotions; CallInsertAggregatedEmotion] /\
    SearchResponse.matched_count resp = 1.
Proof.
  eexists. eexists. split; [vm_compute; reflexivity|].
  vm_compute. repeat split.
Qed.

(** The claim fails on the code: the database fails when the emotion log of
    the one match is inserted, no row is written, and the record is in the
    response and in the aggregate that is persisted. *)
Lemma unpersisted_record_counterexample :
  exists w' resp,
    search_photos (test_env (fun _ => true) (fault_at 7) no_fault) settings
      (test_request PHOTO true) empty_world = (w', Return resp) /\
    emotion_log w' = [] /\
    SearchResponse.matched_count resp = 1 /\
    SearchResponse.aggregated_state resp = ("happy", 1%Q, [("happy", 1%Q)]) /\
    map SessionAggregatedEmotion.dominant_emotion (session_aggregated_emotion w') =
      ["happy"].
Proof.
  eexists. eexists. split; [vm_compute; reflexivity|].
  vm_compute. repeat split.
Qed.

Lemma session_expires_after_the_retention_window_witness :
  exists row,
    session_user
      (fst (search_photos env_ok settings (test_request PHOTO true) empty_world)) =
      [row] /\
    SessionUser.expires_at row = (1762041600000000 + 86400000000)%Z /\
    SessionUser.created_at row = 1762041600000002%Z.
Proof.
  destruct (proj1 (proj2 (session_expires_after_the_retention_window env_ok settings
                            (get_matched_images env_ok) (analyze_emotion env_ok)
                            (test_request PHOTO true) empty_world)))
    as [H | (row & H1 & _ & H2 & H3)].
  - vm_compute in H. discriminate.
  - exists row. split; [exact H1|]. rewrite H2, H3. split; reflexivity.
Defined.

(** The claim fails on the code.  The clock of the test environment advances
    by a microsecond at every reading: the row of the search is created two
    microseconds after the reading that its expiry is counted from, and
    expires two microseconds less than 24 hours after its creation time. *)
Lemma expiry_counts_from_the_call_counterexample :
  exists row,
    session_user
      (fst (search_photos env_ok settings (test_request PHOTO true) empty_world)) =
      [row] /\
    SessionUser.created_at row = 1762041600000002%Z /\
    SessionUser.expires_at row = (1762041600000000 + 24 * 3600 * 1000000)%Z /\
    SessionUser.expires_at row <>
      (SessionUser.created_at row + 24 * 3600 * 1000000)%Z.
Proof.
  eexists. split; [vm_compute; reflexivity|].
  vm_compute. repeat split. discriminate.
Qed.

(** ** The purge of a session (C9) *)

Section Purge.
Variable env : Env.

Lemma delete_session_run sid (w : World) :
  delete_session env sid w =
  match commit_fault env (ticks w) with
  | Some _ => (with_ticks S w, Return tt)
  | None => (purge sid (with_ticks S w), Return tt)
  end.
Proof.
  unfold delete_session, db_execute, try_except, bind, tick, ret, raise, modify.
  cbn. destruct (commit_fault env (ticks w)); reflexivity.
Qed.

Lemma filter_all {A} (f : A -> bool) (l : list A) :
  (forall x, In x l -> f x = true) -> filter f l = l.
Proof.
  induction l as [|x l IH]; simpl; intros H.
  - reflexivity.
  - rewrite (H x (or_introl eq_refl)). f_equal. apply IH.
    intros y Hy. apply H. right. exact Hy.
Qed.

Lemma purge_purged sid (w : World) :
  purged sid w -> store (purge sid w) = store w.
Proof.
  intros (Hu & Hl & Ha). unfold store, purge. cbn.
  rewrite !filter_all; [reflexivity| | |].
  - intros a Hin. apply negb_true_iff, String.eqb_neq, Ha, Hin.
  - intros l Hin. apply negb_true_iff, String.eqb_neq, Hl, Hin.
  - intros u Hin. apply negb_true_iff, String.eqb_neq, Hu, Hin.
Qed.

Lemma purged_purge sid (w : World) : purged sid (purge sid w).
Proof.
  unfold purged, purge. cbn. repeat split; intros x Hin;
    apply filter_In in Hin; destruct Hin as [_ Hin];
    apply negb_true_iff, String.eqb_neq in Hin; exact Hin.
Qed.

(** C9. [delete_session] never raises.  On a session that is already
    purged it leaves the store as it is.  So, once a first run has gone
    through, the session is purged and a second run changes nothing,
    whether it reaches the database or not.  The transaction itself is
    idempotent: purging twice is purging once. *)
Theorem delete_session_is_idempotent (sid : string) (w : World) :
  snd (delete_session env sid w) = Return tt /\
  snd (delete_session env sid (fst (delete_session env sid w))) = Return tt /\
  (purged sid w -> store (fst (delete_session env sid w)) = store w) /\
  (commit_fault env (ticks w) = None ->
   purged sid (fst (delete_session env sid w)) /\
   store (fst (delete_session env sid w)) = store (purge sid w) /\
   store (fst (delete_session env sid (fst (delete_session env sid w)))) =
     store (fst (delete_session env sid w))) /\
  store (purge sid (purge sid w)) = store (purge sid w).
Proof.
  assert (Hpurged : forall v, purged sid v ->
                              store (fst (delete_session env sid v)) = store v).
  { intros v Hv. rewrite delete_session_run.
    destruct (commit_fault env (ticks v)); [reflexivity|].
    cbn [fst]. exact (purge_purged sid (with_ticks S v) Hv). }
  split; [apply delete_session_returns|].
  split; [apply delete_session_returns|].
  split; [apply Hpurged|].
  split.
  - intros Hok.
    assert (Hp : purged sid (fst (delete_session env sid w))).
    { rewrite delete_session_run, Hok. cbn [fst]. apply purged_purge. }
    split; [exact Hp|]. split.
    + rewrite delete_session_run, Hok. reflexivity.
    + apply Hpurged. exact Hp.
  - apply purge_purged, purged_purge.
Qed.

End Purge.

(** The session of a finished search is purged; a second purge, while the
    database is out of reach or not, changes nothing. *)
Lemma delete_session_is_idempotent_witness :
  let w := fst (search_photos env_ok settings (test_request PHOTO true) empty_world) in
  store (fst (delete_session env_ok "session-1" w)) =
    ([], [], [], s3 w) /\
  store (fst (delete_session env_ok "session-1"
                (fst (delete_session env_ok "session-1" w)))) =
    store (fst (delete_session env_ok "session-1" w)).
Proof.
  cbv zeta.
  destruct (delete_session_is_idempotent env_ok "session-1"
              (fst (search_photos env_ok settings (test_request PHOTO true)
                      empty_world)))
    as (_ & _ & _ & H & _).
  destruct (H eq_refl) as (_ & H1 & H2).
  split; [|exact H2].
  rewrite H1. vm_compute. reflexivity.
Defined.

(** ** The classifier wrapper (C10) *)

Section Classifier.
Variable env : Env.

Lemma analyze_emotion_try_run image_path :
  analyze_emotion_try env image_path =
  match open_rgb env image_path with
  | Return _ =>
      Return ("happy",
              [("happy", 0.45); ("sad", 0.15); ("angry", 0.10); ("neutral", 0.20);
               ("fear", 0.05); ("surprise", 0.03); ("disgust", 0.02)]%Q,
              0.45%Q)
  | Raise e => Raise e
  end.
Proof.
  unfold analyze_emotion_try.
  destruct (open_rgb env image_path); reflexivity.
Qed.

(** C10. [analyze_emotion] returns a triple for every image path.  When
    its body raises, which it does exactly when the image cannot be opened,
    the triple is the fallback [('neutral', {}, 0.0)]; the route then
    collects a record labelled [neutral] for that match, as for a
    classification that went well. *)
Theorem analyze_emotion_never_raises (image_path : string) :
  (exists r, analyze_emotion env image_path = Return r) /\
  (forall e, analyze_emotion_try env image_path = Raise e ->
             analyze_emotion env image_path = Return ("neutral", [], 0%Q)) /\
  (forall e, open_rgb env image_path = Raise e ->
             analyze_emotion_try env image_path = Raise e) /\
  (forall e img sid rs w,
      MatchedImage.image_path img = image_path ->
      analyze_emotion_try env image_path = Raise e ->
      snd (analyze_one env (analyze_emotion env) sid rs img w) =
      Return (rs ++ [ {| EmotionResult.image_id := MatchedImage.image_id img;
                         EmotionResult.image_url := MatchedImage.image_url img;
                         EmotionResult.emotion := "neutral";
                         EmotionResult.emotion_distribution := [];
                         EmotionResult.emotion_confidence := 0%Q;
                         EmotionResult.similarity_score :=
                           MatchedImage.similarity_score img |} ])%list).
Proof.
  split; [|split; [|split]].
  - unfold analyze_emotion.
    destruct (analyze_emotion_try env image_path); eexists; reflexivity.
  - intros e H. unfold analyze_emotion. rewrite H. reflexivity.
  - intros e H. rewrite analyze_emotion_try_run, H. reflexivity.
  - intros e img sid rs w Hpath H.
    rewrite analyze_one_result. f_equal. f_equal.
    apply classified_one_return. rewrite Hpath.
    unfold analyze_emotion. rewrite H. reflexivity.
Qed.

(** The labels of [analyze_emotion] are in the vocabulary. *)
Lemma analyze_emotion_label_in_vocabulary image_path label dist confidence :
  analyze_emotion env image_path = Return (label, dist, confidence) ->
  In label EMOTION_LABELS.
Proof.
  unfold analyze_emotion. rewrite analyze_emotion_try_run.
  destruct (open_rgb env image_path); intros H; injection H as <- _ _;
    unfold EMOTION_LABELS; simpl; tauto.
Qed.

End Classifier.

Lemma analyze_emotion_never_raises_witness :
  analyze_emotion env_unreadable "/path/to/image1.jpg" = Return ("neutral", [], 0%Q) /\
  analyze_emotion env_ok "/path/to/image1.jpg" =
    Return ("happy",
            [("happy", 0.45); ("sad", 0.15); ("angry", 0.10); ("neutral", 0.20);
             ("fear", 0.05); ("surprise", 0.03); ("disgust", 0.02)]%Q,
            0.45%Q).
Proof.
  split.
  - apply (proj1 (proj2 (analyze_emotion_never_raises env_unreadable
                           "/path/to/image1.jpg")) (PyExc OSError)).
    reflexivity.
  - reflexivity.
Defined.

(** * Further properties of the services *)

(** ** The aggregate as a distribution *)

Section AggregateDistribution.
Import Py PyFacts.

(** The closed form of the aggregate with what makes its label dominant. *)
Lemma aggregate_emotions_dominant (rs : list EmotionResult.t) :
  rs <> [] ->
  exists dominant,
    aggregate_emotions rs =
      Return (dominant,
              fraction (tally rs dominant) (List.length rs),
              map (fun kv => (fst kv, fraction (snd kv) (List.length rs)))
                  (count_emotions rs)) /\
    In dominant (labels_of rs) /\
    (forall l, tally rs l <= tally rs dominant).
Proof.
  intros Hne.
  destruct (aggregate_emotions_nonempty rs Hne)
    as (d & kpre & kpost & Hk & Hlt & Hle & Hagg).
  exists d. split; [exact Hagg|]. split.
  - apply keys_count_emotions_In. rewrite Hk. apply in_or_app. right. left.
    reflexivity.
  - intros l.
    destruct (in_dec string_dec l (labels_of rs)) as [Hin|Hout].
    + apply keys_count_emotions_In in Hin. rewrite Hk in Hin.
      apply in_app_or in Hin. destruct Hin as [Hin|[<-|Hin]].
      * specialize (Hlt l Hin). lia.
      * lia.
      * exact (Hle l Hin).
    + apply (count_occ_not_In string_dec) in Hout.
      unfold tally at 1. rewrite Hout. lia.
Qed.



Lemma fraction_self (n : nat) : n <> 0 -> (fraction n n == 1)%Q.
Proof.
  intros Hn. unfold fraction, Qeq. cbn [Qnum Qden].
  rewrite Z.mul_1_r, Z.mul_1_l, <- positive_nat_Z.
  rewrite Nat2Pos.id by exact Hn. reflexivity.
Qed.

Lemma fraction_le (a b n : nat) : a <= b -> (fraction a n <= fraction b n)%Q.
Proof.
  intros H. unfold fraction, Qle. cbn [Qnum Qden].
  apply Z.mul_le_mono_nonneg_r; [apply Pos2Z.is_nonneg | lia].
Qed.

Lemma fraction_pos (a n : nat) : 0 < a -> (0 < fraction a n)%Q.
Proof.
  intros H. unfold fraction, Qlt. cbn [Qnum Qden]. lia.
Qed.





(** X2. The confidence of the aggregate is a fraction in (0, 1], it is the
    entry of the dominant label in the distribution, and no entry of the
    distribution is greater. *)
Theorem aggregate_confidence_is_the_greatest_share (rs : list EmotionResult.t) :
  rs <> [] ->
  exists dominant confidence distribution,
    aggregate_emotions rs = Return (dominant, confidence, distribution) /\
    (0 < confidence)%Q /\ (confidence <= 1)%Q /\
    get distribution dominant = Some confidence /\
    (forall l share, get distribution l = Some share -> (share <= confidence)%Q).
Proof.
  intros Hne.
  destruct (aggregate_emotions_dominant rs Hne) as (d & Hagg & Hin & Hmax).
  assert (Hlen : List.length rs <> 0) by (destruct rs; [congruence | discriminate]).
  assert (Hpos : 0 < tally rs d).
  { apply (count_occ_In string_dec) in Hin. exact Hin. }
  eexists. eexists. eexists. split; [exact Hagg|].
  split; [apply fraction_pos; exact Hpos|].
  split.
  { rewrite <- (fraction_self (List.length rs) Hlen). apply fraction_le.
    unfold tally, labels_of.
    rewrite <- (length_map EmotionResult.emotion rs). apply count_occ_bound. }
  split.
  { rewrite (get_map (fun c => fraction c (List.length rs))), get_count_emotions.
    destruct (tally rs d =? 0) eqn:E; [apply Nat.eqb_eq in E; lia|]. reflexivity. }
  intros l share.
  rewrite (get_map (fun c => fraction c (List.length rs))), get_count_emotions.
  destruct (tally rs l =? 0); [discriminate|].
  intros H. injection H as <-. apply fraction_le, Hmax.
Qed.

Lemma aggregate_confidence_is_the_greatest_share_witness :
  exists dominant confidence distribution,
    aggregate_emotions
      [labelled "1" "sad"; labelled "2" "happy"; labelled "3" "happy"] =
      Return (dominant, confidence, distribution) /\
    (0 < confidence)%Q /\ (confidence <= 1)%Q.
Proof.
  destruct (aggregate_confidence_is_the_greatest_share
              [labelled "1" "sad"; labelled "2" "happy"; labelled "3" "happy"])
    as (d & c & dist & H & H0 & H1 & _).
  - discriminate.
  - exists d, c, dist. auto.
Defined.

End AggregateDistribution.

Section AggregateOrder.
Import Py PyFacts.

Lemma tally_permutation (rs rs' : list EmotionResult.t) (l : string) :
  Permutation rs rs' -> tally rs l = tally rs' l.
Proof.
  intros H. unfold tally, labels_of.
  apply (Permutation_count_occ string_dec). apply Permutation_map. exact H.
Qed.

(** X3. The aggregate does not depend on the order of the records, except
    for the choice among labels that tie: two orders of the same records give
    the same confidence and the same distribution, and dominant labels of the
    same tally. *)
Theorem aggregate_is_order_insensitive (rs rs' : list EmotionResult.t) :
  Permutation rs rs' ->
  rs <> [] ->
  exists dominant dominant' confidence distribution distribution',
    aggregate_emotions rs = Return (dominant, confidence, distribution) /\
    aggregate_emotions rs' = Return (dominant', confidence, distribution') /\
    tally rs dominant' = tally rs dominant /\
    (forall l, get distribution l = get distribution' l).
Proof.
  intros Hperm Hne.
  assert (Hne' : rs' <> []).
  { intros ->. apply Permutation_sym, Permutation_nil in Hperm. contradiction. }
  destruct (aggregate_emotions_dominant rs Hne) as (d & Hagg & Hin & Hmax).
  destruct (aggregate_emotions_dominant rs' Hne') as (d' & Hagg' & Hin' & Hmax').
  assert (Htally : tally rs d' = tally rs d).
  { pose proof (Hmax d') as H1. pose proof (Hmax' d) as H2.
    rewrite <- !(tally_permutation rs rs' _ Hperm) in H2. lia. }
  exists d, d'. eexists. eexists. eexists.
  split; [exact Hagg|]. split.
  - rewrite Hagg'. rewrite <- (Permutation_length Hperm).
    rewrite <- (tally_permutation rs rs' d' Hperm), Htally. reflexivity.
  - split; [exact Htally|]. intros l.
    rewrite !(get_map (fun c => fraction c (List.length rs))).
    rewrite !get_count_emotions.
    rewrite <- (tally_permutation rs rs' l Hperm). reflexivity.
Qed.

Lemma aggregate_is_order_insensitive_witness :
  exists dominant dominant' confidence distribution distribution',
    aggregate_emotions
      [labelled "1" "sad"; labelled "2" "happy"; labelled "3" "happy"] =
      Return (dominant, confidence, distribution) /\
    aggregate_emotions
      [labelled "2" "happy"; labelled "1" "sad"; labelled "3" "happy"] =
      Return (dominant', confidence, distribution').
Proof.
  destruct (aggregate_is_order_insensitive
              [labelled "1" "sad"; labelled "2" "happy"; labelled "3" "happy"]
              [labelled "2" "happy"; labelled "1" "sad"; labelled "3" "happy"])
    as (d & d' & c & dist & dist' & H & H' & _).
  - apply perm_swap.
  - discriminate.
  - exists d, d', c, dist, dist'. auto.
Defined.

End AggregateOrder.

(** ** The data-URL prefix *)

Section DataUrl.

Lemma after_comma_app (p q : string) :
  after_comma p = None -> after_comma (p ++ String "," q) = Some q.
Proof.
  induction p as [|c p IH]; simpl; intros H.
  - reflexivity.
  - destruct (Ascii.eqb c ","); [discriminate|]. apply IH. exact H.
Qed.

Lemma until_comma_no_comma (s : string) :
  after_comma s = None -> until_comma s = s.
Proof.
  induction s as [|c s IH]; simpl; intros H.
  - reflexivity.
  - destruct (Ascii.eqb c ","); [discriminate|]. rewrite IH by exact H.
    reflexivity.
Qed.

Lemma until_comma_app (q r : string) :
  after_comma q = None -> until_comma (q ++ String "," r) = q.
Proof.
  induction q as [|c q IH]; simpl; intros H.
  - reflexivity.
  - destruct (Ascii.eqb c ","); [discriminate|]. rewrite IH by exact H.
    reflexivity.
Qed.

Lemma until_comma_has_no_comma (s : string) :
  after_comma (until_comma s) = None.
Proof.
  induction s as [|c s IH]; simpl.
  - reflexivity.
  - destruct (Ascii.eqb c ",") eqn:E; simpl; [reflexivity|].
    rewrite E. exact IH.
Qed.

(** X4. What the services decode of a captured image.  A text without a
    comma is taken whole.  Of a data URL, [prefix,payload], the payload is
    taken; what follows a second comma is dropped.  The text that is decoded
    never holds a comma, and stripping it again changes nothing. *)
Theorem strip_data_url_takes_the_payload (prefix payload : string) :
  after_comma prefix = None ->
  after_comma payload = None ->
  strip_data_url payload = payload /\
  strip_data_url (prefix ++ String "," payload) = payload /\
  (forall rest,
      strip_data_url (prefix ++ String "," (payload ++ String "," rest)) = payload) /\
  (forall s, after_comma (strip_data_url s) = None \/ strip_data_url s = s) /\
  (forall s, strip_data_url (strip_data_url s) = strip_data_url s).
Proof.
  intros Hp Hq. unfold strip_data_url.
  split; [rewrite Hq; reflexivity|].
  split; [rewrite (after_comma_app _ _ Hp); apply until_comma_no_comma, Hq|].
  split; [intros rest; rewrite (after_comma_app _ _ Hp);
          apply until_comma_app, Hq|].
  split.
  - intros s. destruct (after_comma s); [left; apply until_comma_has_no_comma|].
    right. reflexivity.
  - intros s. destruct (after_comma s) as [rest|] eqn:E.
    + rewrite until_comma_has_no_comma. reflexivity.
    + rewrite E. reflexivity.
Qed.

Lemma strip_data_url_takes_the_payload_witness :
  strip_data_url "data:image/jpeg;base64,/9j/4AAQ" = "/9j/4AAQ" /\
  strip_data_url "data:image/jpeg;base64,/9j/4AAQ,trailer" = "/9j/4AAQ".
Proof.
  destruct (strip_data_url_takes_the_payload "data:image/jpeg;base64" "/9j/4AAQ"
              eq_refl eq_refl) as (_ & H1 & H2 & _).
  split; [exact H1 | exact (H2 "trailer")].
Defined.

End DataUrl.

(** ** The upload *)

Section Upload.
Variable env : Env.
Variable cfg : Settings.

Lemma upload_image_to_s3_run (base64_image session_id : string) (w : World) :
  upload_image_to_s3 env cfg base64_image session_id w =
  match b64decode env (strip_data_url base64_image) with
  | Raise e => (w, Raise e)
  | Return image_data =>
      match put_object_fault env (ticks w) with
      | Some e => (with_ticks S w, Raise (PyExc e))
      | None =>
          (with_s3 (fun objects => Py.set objects (captured_key session_id) image_data)
             (with_ticks S w),
           Return ("s3://" ++ AWS_S3_BUCKET cfg ++ "/" ++ captured_key session_id))
      end
  end.
Proof.
  unfold upload_image_to_s3, put_object, try_except, bind, lift, tick, ret, raise,
    modify, captured_key.
  destruct (b64decode env (strip_data_url base64_image)) as [data|e];
    cbn; [|reflexivity].
  destruct (put_object_fault env (ticks w)); reflexivity.
Qed.

(** X5. When [upload_image_to_s3] returns, the object stored under the key
    of the session, [sessions/<session_id>/captured.jpg], is exactly what
    [__decode_base64] returns for the same text, the URI returned names that
    key in the configured bucket, and no other object and no table has
    changed. *)
Theorem upload_stores_the_decoded_image
  (base64_image session_id uri : string) (w w' : World) :
  upload_image_to_s3 env cfg base64_image session_id w = (w', Return uri) ->
  exists image_data,
    __decode_base64 env base64_image = Return image_data /\
    Py.get (s3 w') (captured_key session_id) = Some image_data /\
    uri = "s3://" ++ AWS_S3_BUCKET cfg ++ "/" ++ captured_key session_id /\
    (forall key, key <> captured_key session_id ->
                 Py.get (s3 w') key = Py.get (s3 w) key) /\
    tables w' = tables w.
Proof.
  rewrite upload_image_to_s3_run. unfold __decode_base64.
  destruct (b64decode env (strip_data_url base64_image)) as [data|e];
    [|discriminate].
  destruct (put_object_fault env (ticks w)); [discriminate|].
  intros H. injection H as <- <-.
  exists data. split; [reflexivity|]. cbn.
  split; [rewrite PyFacts.get_set, String.eqb_refl; reflexivity|].
  split; [reflexivity|]. split; [|reflexivity].
  intros key Hkey. rewrite PyFacts.get_set.
  destruct (String.eqb (captured_key session_id) key) eqn:E; [|reflexivity].
  apply String.eqb_eq in E. congruence.
Qed.

(** X6. When [upload_image_to_s3] raises, because the text is not base64
    or because the bucket refuses the object, nothing is stored: the bucket
    and the tables are as before. *)
Theorem failed_upload_stores_nothing
  (base64_image session_id : string) (e : exn) (w w' : World) :
  upload_image_to_s3 env cfg base64_image session_id w = (w', Raise e) ->
  s3 w' = s3 w /\ tables w' = tables w /\
  (__decode_base64 env base64_image = Raise e \/
   exists fault, put_object_fault env (ticks w) = Some fault /\ e = PyExc fault).
Proof.
  rewrite upload_image_to_s3_run. unfold __decode_base64.
  destruct (b64decode env (strip_data_url base64_image)) as [data|e0].
  - destruct (put_object_fault env (ticks w)) as [fault|]; [|discriminate].
    intros H. injection H as <- <-.
    split; [reflexivity|]. split; [reflexivity|]. right. exists fault. auto.
  - intros H. injection H as <- <-. auto.
Qed.

End Upload.

Lemma upload_stores_the_decoded_image_witness :
  Py.get
    (s3 (fst (upload_image_to_s3 env_ok settings PHOTO "session-1" empty_world)))
    (captured_key "session-1") = Some photo_bytes.
Proof.
  destruct (upload_stores_the_decoded_image env_ok settings PHOTO "session-1"
              "s3://face-emotion-bucket/sessions/session-1/captured.jpg"
              empty_world
              (fst (upload_image_to_s3 env_ok settings PHOTO "session-1" empty_world))
              eq_refl)
    as (data & Hd & Hget & _).
  rewrite Hget. vm_compute in Hd. injection Hd as <-. reflexivity.
Defined.

Lemma failed_upload_stores_nothing_witness :
  s3 (fst (upload_image_to_s3 env_ok settings "not base64!" "session-1" empty_world))
  = [].
Proof.
  destruct (failed_upload_stores_nothing env_ok settings "not base64!" "session-1"
              (PyExc BinasciiError) empty_world
              (fst (upload_image_to_s3 env_ok settings "not base64!" "session-1"
                      empty_world))
              eq_refl)
    as (H & _).
  exact H.
Defined.

(** ** What steps 1 to 5 leave alone *)

Section PrefixFrame.
Variable env : Env.
Variable cfg : Settings.
Variable matched_images_of : Embedding env -> Z -> Q -> Exc (list MatchedImage.t).

Ltac prefix_commutes :=
  unfold search_upto_matches, insert_session_user, upload_image_to_s3, put_object,
    find_matches, call, datetime_utcnow, db_execute;
  commutes.

Lemma search_upto_matches_commutes_emotion_log t request :
  Commutes (set_emotion_log t)
           (search_upto_matches env cfg matched_images_of request).
Proof. prefix_commutes. Qed.

Lemma search_upto_matches_commutes_aggregated t request :
  Commutes (set_aggregated t)
           (search_upto_matches env cfg matched_images_of request).
Proof. prefix_commutes. Qed.

Lemma search_upto_matches_commutes_background_tasks t request :
  Commutes (set_background_tasks t)
           (search_upto_matches env cfg matched_images_of request).
Proof. prefix_commutes. Qed.

Lemma search_upto_matches_frame request (w : World) :
  emotion_log (fst (search_upto_matches env cfg matched_images_of request w)) =
    emotion_log w /\
  session_aggregated_emotion
    (fst (search_upto_matches env cfg matched_images_of request w)) =
    session_aggregated_emotion w /\
  background_tasks (fst (search_upto_matches env cfg matched_images_of request w)) =
    background_tasks w.
Proof.
  split; [|split].
  - pose proof (search_upto_matches_commutes_emotion_log (emotion_log w) request w)
      as H.
    replace (set_emotion_log (emotion_log w) w) with w in H by (destruct w; reflexivity).
    apply (f_equal (fun x => emotion_log (fst x))) in H. exact H.
  - pose proof (search_upto_matches_commutes_aggregated
                  (session_aggregated_emotion w) request w) as H.
    replace (set_aggregated (session_aggregated_emotion w) w) with w in H
      by (destruct w; reflexivity).
    apply (f_equal (fun x => session_aggregated_emotion (fst x))) in H. exact H.
  - pose proof (search_upto_matches_commutes_background_tasks
                  (background_tasks w) request w) as H.
    replace (set_background_tasks (background_tasks w) w) with w in H
      by (destruct w; reflexivity).
    apply (f_equal (fun x => background_tasks (fst x))) in H. exact H.
Qed.

End PrefixFrame.

(** ** What a search writes *)

Section RouteWrites.
Variable env : Env.
Variable cfg : Settings.
Variable matched_images_of : Embedding env -> Z -> Q -> Exc (list MatchedImage.t).
Variable emotion_of : string -> Exc (string * Py.dict Q * Q).

Lemma existsb_false {A} (f : A -> bool) (l : list A) :
  existsb f l = false -> forall x, In x l -> f x = false.
Proof.
  intros H x Hin. destruct (f x) eqn:E; [|reflexivity].
  assert (Ht : existsb f l = true) by (apply existsb_exists; exists x; auto).
  congruence.
Qed.

(** The Session row of a search: none, or one for a session id that was free. *)
Lemma search_photos_with_session_user request (w : World) :
  session_user
    (fst (search_photos_with env cfg matched_images_of emotion_of request w)) =
    session_user w \/
  (has_session_user (SearchRequest.session_id request) w = false /\
   exists expires_at,
     session_user
       (fst (search_photos_with env cfg matched_images_of emotion_of request w)) =
     (session_user w ++
        [session_user_row env (SearchRequest.session_id request)
           (SearchRequest.user_name request) (SearchRequest.captured_image request)
           (SearchRequest.privacy_policy_agreed request) expires_at w])%list).
Proof.
  rewrite search_photos_with_after_insert, insert_session_user_run.
  set (w0 := with_calls (fun cs => (cs ++ [CallInsertSessionUser])%list) w).
  change (session_expiry env cfg w0) with (session_expiry env cfg w).
  destruct (session_expiry env cfg w) as [expires_at|e].
  - change (ticks w0) with (ticks w).
    destruct (commit_fault env (S (S (S (ticks w))))) as [e|].
    + rewrite search_photos_except_world. left. reflexivity.
    + change (has_session_user (SearchRequest.session_id request) w0)
        with (has_session_user (SearchRequest.session_id request) w).
      destruct (has_session_user (SearchRequest.session_id request) w) eqn:Hfree.
      * rewrite search_photos_except_world. left. reflexivity.
      * right. split; [reflexivity|]. exists expires_at.
        rewrite guarded_after_insert_session_user. reflexivity.
  - rewrite search_photos_except_world. left. reflexivity.
Qed.

(** The aggregated row and the clean-up task of steps 6 to 9. *)
Lemma search_matches_aggregated sid imgs (w : World) :
  background_tasks (fst (search_matches env cfg emotion_of sid imgs w)) =
    (background_tasks w ++ [sid])%list /\
  s3 (fst (search_matches env cfg emotion_of sid imgs w)) = s3 w /\
  (session_aggregated_emotion (fst (search_matches env cfg emotion_of sid imgs w)) =
     session_aggregated_emotion w \/
   exists row,
     session_aggregated_emotion (fst (search_matches env cfg emotion_of sid imgs w)) =
       (session_aggregated_emotion w ++ [row])%list /\
     SessionAggregatedEmotion.session_id row = sid /\
     (forall a, In a (session_aggregated_emotion w) ->
                SessionAggregatedEmotion.session_id a <> sid /\
                SessionAggregatedEmotion.aggregation_id a <>
                SessionAggregatedEmotion.aggregation_id row)).
Proof.
  destruct (search_matches_run env cfg emotion_of sid imgs w)
    as (dom & conf & dist & _ & ->).
  destruct (analyze_all_effect env emotion_of sid
              (Py.slice_to (MAX_IMAGES_TO_PROCESS cfg) imgs) [] w)
    as (logs & _ & _ & _ & _ & _ & _ & Hagg & Hs3 & Hbg).
  rewrite insert_aggregated_emotion_run. cbn [fst].
  destruct (aggregated_persists env sid _) eqn:Hp;
    cbn [background_tasks s3 session_aggregated_emotion with_background_tasks
         with_aggregated with_calls three_ticks with_ticks];
    rewrite Hbg, Hs3, Hagg.
  - split; [reflexivity|]. split; [reflexivity|]. right.
    eexists. split; [reflexivity|]. split; [reflexivity|].
    intros a Hin. unfold aggregated_persists in Hp.
    destruct (commit_fault env _); [discriminate|].
    apply negb_true_iff in Hp. unfold has_aggregated in Hp.
    cbn [session_aggregated_emotion with_calls] in Hp. rewrite Hagg in Hp.
    pose proof (existsb_false _ _ Hp a Hin) as Ha. cbn beta in Ha.
    apply orb_false_iff in Ha. destruct Ha as [Ha1 Ha2].
    apply String.eqb_neq in Ha1, Ha2. split; assumption.
  - auto.
Qed.

(** Everything that a search writes to the tables, and when it schedules
    the clean-up. *)
Lemma search_photos_with_writes request (w : World) :
  (exists logs,
      emotion_log
        (fst (search_photos_with env cfg matched_images_of emotion_of request w)) =
        (emotion_log w ++ logs)%list /\
      Forall (fun log => EmotionLog.session_id log = SearchRequest.session_id request)
             logs) /\
  (session_aggregated_emotion
     (fst (search_photos_with env cfg matched_images_of emotion_of request w)) =
     session_aggregated_emotion w \/
   exists row,
     session_aggregated_emotion
       (fst (search_photos_with env cfg matched_images_of emotion_of request w)) =
       (session_aggregated_emotion w ++ [row])%list /\
     SessionAggregatedEmotion.session_id row = SearchRequest.session_id request /\
     (forall a, In a (session_aggregated_emotion w) ->
                SessionAggregatedEmotion.session_id a <>
                  SearchRequest.session_id request /\
                SessionAggregatedEmotion.aggregation_id a <>
                SessionAggregatedEmotion.aggregation_id row)) /\
  background_tasks
    (fst (search_photos_with env cfg matched_images_of emotion_of request w)) =
    match snd (search_photos_with env cfg matched_images_of emotion_of request w) with
    | Return _ => (background_tasks w ++ [SearchRequest.session_id request])%list
    | Raise _ => background_tasks w
    end.
Proof.
  destruct (search_upto_matches_frame env cfg matched_images_of request w)
    as (Flog & Fagg & Fbg).
  destruct (search_upto_matches env cfg matched_images_of request w)
    as [w1 [found|e]] eqn:Hup; cbn [fst] in Flog, Fagg, Fbg.
  - rewrite (search_photos_with_found _ _ _ _ _ _ _ _ Hup).
    destruct (search_matches_effect env cfg emotion_of
                (SearchRequest.session_id request) found w1)
      as (logs & _ & Hlog & Hall & _).
    destruct (search_matches_aggregated (SearchRequest.session_id request) found w1)
      as (Hbg & _ & Hagg).
    destruct (search_matches_run env cfg emotion_of
                (SearchRequest.session_id request) found w1)
      as (dom & conf & dist & _ & Hrun).
    rewrite Hrun in *. cbn [fst snd] in *.
    rewrite Hlog, Hbg, Flog, Fbg. rewrite Fagg in Hagg.
    split; [|split; [|reflexivity]].
    + exists logs. split; [reflexivity|].
      eapply Forall_impl; [|exact Hall].
      intros log (r & _ & _ & Hsid & _). exact Hsid.
    + destruct Hagg as [Hagg|(row & Hrow & Hsid & Hfree)].
      * left. exact Hagg.
      * right. exists row. auto.
  - rewrite (search_photos_with_failed _ _ _ _ _ _ _ _ Hup).
    assert (Hw : fst (search_photos_except env e w1) = w1)
      by apply search_photos_except_world.
    assert (Hr : exists e', snd (search_photos_except env e w1) = Raise e')
      by (destruct e; eexists; reflexivity).
    destruct Hr as [e' Hr]. rewrite Hw, Hr, Flog, Fagg, Fbg.
    split; [|split; [left|]; reflexivity].
    exists []. rewrite app_nil_r. split; [reflexivity | constructor].
Qed.

End RouteWrites.

(** ** Sessions in the tables *)

Section SessionRows.
Variable env : Env.
Variable cfg : Settings.
Variable matched_images_of : Embedding env -> Z -> Q -> Exc (list MatchedImage.t).
Variable emotion_of : string -> Exc (string * Py.dict Q * Q).

Lemma filter_snoc_out {A} (keep : A -> bool) (l : list A) (x : A) :
  keep x = false -> filter keep (l ++ [x])%list = filter keep l.
Proof.
  intros H. rewrite filter_app. simpl. rewrite H. apply app_nil_r.
Qed.

Lemma filter_app_out {A} (keep : A -> bool) (l extra : list A) :
  Forall (fun x => keep x = false) extra ->
  filter keep (l ++ extra)%list = filter keep l.
Proof.
  intros H. rewrite filter_app.
  replace (filter keep extra) with (@nil A); [apply app_nil_r|].
  induction H as [|x extra Hx _ IH]; simpl; [reflexivity|].
  rewrite Hx. exact IH.
Qed.

Lemma tables_purge_purged sid (w : World) :
  purged sid w -> tables (purge sid w) = tables w.
Proof.
  intros H. pose proof (purge_purged sid w H) as Hs.
  unfold store in Hs. unfold tables. congruence.
Qed.

(** X7. Every row that a search writes carries the session id of its
    request: purging that session after the search gives the tables that
    purging it before the search gives.  So, for a session id that was not in
    the tables, [delete_session] after the search restores the tables, whether
    the search succeeded or failed. *)
Theorem search_writes_only_rows_of_its_session (request : SearchRequest.t) (w : World) :
  tables (purge (SearchRequest.session_id request)
            (fst (search_photos_with env cfg matched_images_of emotion_of request w))) =
    tables (purge (SearchRequest.session_id request) w) /\
  (purged (SearchRequest.session_id request) w ->
   commit_fault env
     (ticks (fst (search_photos_with env cfg matched_images_of emotion_of request w)))
     = None ->
   tables (fst (delete_session env (SearchRequest.session_id request)
                  (fst (search_photos_with env cfg matched_images_of emotion_of
                          request w)))) =
   tables w).
Proof.
  assert (Hmain :
    tables (purge (SearchRequest.session_id request)
              (fst (search_photos_with env cfg matched_images_of emotion_of request w))) =
    tables (purge (SearchRequest.session_id request) w)).
  { destruct (search_photos_with_writes env cfg matched_images_of emotion_of request w)
      as ((logs & Hlog & Hlogs) & Hagg & _).
    pose proof (search_photos_with_session_user env cfg matched_images_of emotion_of
                  request w) as Hsu.
    unfold tables, purge.
    cbn [session_user emotion_log session_aggregated_emotion with_aggregated
         with_emotion_log with_session_user].
    f_equal; [f_equal|].
    - destruct Hsu as [->|(_ & expires_at & ->)]; [reflexivity|].
      apply filter_snoc_out. cbn. rewrite String.eqb_refl. reflexivity.
    - rewrite Hlog. apply filter_app_out.
      eapply Forall_impl; [|exact Hlogs].
      intros log ->. rewrite String.eqb_refl. reflexivity.
    - destruct Hagg as [->|(row & -> & Hsid & _)]; [reflexivity|].
      apply filter_snoc_out. rewrite Hsid, String.eqb_refl. reflexivity. }
  split; [exact Hmain|].
  intros Hpurged Hok.
  rewrite delete_session_run, Hok. cbn [fst].
  change (tables (purge (SearchRequest.session_id request)
                    (with_ticks S
                       (fst (search_photos_with env cfg matched_images_of emotion_of
                               request w)))))
    with (tables (purge (SearchRequest.session_id request)
                    (fst (search_photos_with env cfg matched_images_of emotion_of
                            request w)))).
  rewrite Hmain. apply tables_purge_purged. exact Hpurged.
Qed.

Lemma NoDup_map_snoc {A B} (f : A -> B) (l : list A) (x : A) :
  NoDup (map f l) -> (forall y, In y l -> f y <> f x) ->
  NoDup (map f (l ++ [x])%list).
Proof.
  intros Hnd Hfresh. rewrite map_app. apply NoDup_app.
  - exact Hnd.
  - repeat constructor. intros [].
  - intros b Hb [<-|[]]. apply in_map_iff in Hb.
    destruct Hb as (y & Hy & Hin). exact (Hfresh y Hin Hy).
Qed.

Lemma NoDup_map_filter {A B} (f : A -> B) (keep : A -> bool) (l : list A) :
  NoDup (map f l) -> NoDup (map f (filter keep l)).
Proof.
  induction l as [|x l IH]; simpl; intros H.
  - constructor.
  - inversion H as [|? ? Hx Hl]; subst.
    destruct (keep x); simpl; [|apply IH; exact Hl].
    constructor; [|apply IH; exact Hl].
    intros Hin. apply Hx. apply in_map_iff in Hin.
    destruct Hin as (y & Hy & Hin). apply filter_In in Hin.
    apply in_map_iff. exists y. tauto.
Qed.

(** The loop of step 6 keeps the ids of the emotion logs distinct. *)
Lemma analyze_all_emotion_ids sid imgs :
  forall rs (w : World),
    NoDup (map EmotionLog.emotion_id (emotion_log w)) ->
    NoDup (map EmotionLog.emotion_id
             (emotion_log (fst (analyze_all env emotion_of sid imgs rs w)))).
Proof.
  induction imgs as [|img imgs IH]; intros rs w Hnd.
  - exact Hnd.
  - cbn [analyze_all]. unfold bind. rewrite analyze_one_run.
    destruct (emotion_of (MatchedImage.image_path img)) as [[[label dist] conf]|e].
    + rewrite insert_emotion_log_run. cbn [fst].
      destruct (emotion_log_persists env _) eqn:Hp; apply IH.
      * cbn [emotion_log with_emotion_log three_ticks with_ticks with_calls].
        apply NoDup_map_snoc; [exact Hnd|].
        intros y Hin. unfold emotion_log_persists in Hp.
        destruct (commit_fault env _); [discriminate|].
        apply negb_true_iff in Hp. unfold has_emotion_log in Hp.
        cbn [emotion_log with_calls] in Hp.
        pose proof (existsb_false _ _ Hp y Hin) as Hy. cbn beta in Hy.
        apply String.eqb_neq in Hy. exact Hy.
      * exact Hnd.
    + apply IH. exact Hnd.
Qed.

(** X8. The key constraints of the tables are invariants of the route and
    of the purge: no two Session rows share a session id, no two emotion logs
    an id, no two aggregated results an id or a session id. *)
Theorem key_constraints_are_kept (request : SearchRequest.t) (sid : string) (w : World) :
  keys_ok w ->
  keys_ok (fst (search_photos_with env cfg matched_images_of emotion_of request w)) /\
  keys_ok (fst (delete_session env sid w)).
Proof.
  intros (Ksu & Klog & Kagg & Kuniq). split.
  - destruct (search_photos_with_writes env cfg matched_images_of emotion_of request w)
      as (_ & Hagg & _).
    pose proof (search_photos_with_session_user env cfg matched_images_of emotion_of
                  request w) as Hsu.
    unfold keys_ok. split; [|split].
    + destruct Hsu as [->|(Hfree & expires_at & ->)]; [exact Ksu|].
      apply NoDup_map_snoc; [exact Ksu|].
      intros y Hin. unfold has_session_user in Hfree.
      pose proof (existsb_false _ _ Hfree y Hin) as Hy. cbn beta in Hy.
      apply String.eqb_neq in Hy. exact Hy.
    + destruct (search_upto_matches env cfg matched_images_of request w)
        as [w1 [found|e]] eqn:Hup.
      * pose proof (search_upto_matches_frame env cfg matched_images_of request w)
          as (Flog & _). rewrite Hup in Flog. cbn [fst] in Flog.
        rewrite (search_photos_with_found _ _ _ _ _ _ _ _ Hup).
        destruct (search_matches_run env cfg emotion_of
                    (SearchRequest.session_id request) found w1)
          as (dom & conf & dist & _ & ->).
        cbn [fst emotion_log with_background_tasks].
        match goal with
        | |- context [insert_aggregated_emotion env ?a ?b ?c ?d ?e ?v] =>
            destruct (insert_aggregated_emotion_frame env a b c d e v)
              as (_ & -> & _)
        end.
        cbn [emotion_log with_calls].
        apply analyze_all_emotion_ids. rewrite Flog. exact Klog.
      * pose proof (search_upto_matches_frame env cfg matched_images_of request w)
          as (Flog & _). rewrite Hup in Flog. cbn [fst] in Flog.
        rewrite (search_photos_with_failed _ _ _ _ _ _ _ _ Hup).
        rewrite search_photos_except_world, Flog. exact Klog.
    + destruct Hagg as [->|(row & -> & Hsid & Hfree)]; [split; assumption|].
      split; apply NoDup_map_snoc; try assumption.
      * intros y Hin. apply (Hfree y Hin).
      * intros y Hin. rewrite Hsid. apply (Hfree y Hin).
  - rewrite delete_session_run.
    destruct (commit_fault env (ticks w)); [repeat split; assumption|].
    unfold keys_ok, purge.
    cbn [fst session_user emotion_log session_aggregated_emotion with_aggregated
         with_emotion_log with_session_user with_ticks].
    repeat split; apply NoDup_map_filter; assumption.
Qed.

Lemma session_expiry_raises (w : World) (e : exn) :
  session_expiry env cfg w = Raise e -> e = PyExc OverflowError.
Proof.
  unfold session_expiry, Datetime.timedelta_hours, Datetime.add.
  destruct (_ && _); cbn [exc_bind].
  - destruct (_ && _); [discriminate|]. intros H. injection H as <-. reflexivity.
  - intros H. injection H as <-. reflexivity.
Qed.

(** X9. A search for a session id that is already in the Session table is
    rejected with status 500: the insert of the Session row is the only
    service called, and neither the tables nor the bucket change. *)
Theorem taken_session_id_is_rejected (request : SearchRequest.t) (w : World) :
  has_session_user (SearchRequest.session_id request) w = true ->
  exists w' e,
    search_photos_with env cfg matched_images_of emotion_of request w =
      (w', Raise (HTTPException 500 ("Search failed: " ++ str env (PyExc e)))) /\
    store w' = store w /\
    calls w' = (calls w ++ [CallInsertSessionUser])%list /\
    background_tasks w' = background_tasks w.
Proof.
  intros Htaken.
  rewrite search_photos_with_after_insert, insert_session_user_run.
  set (w0 := with_calls (fun cs => (cs ++ [CallInsertSessionUser])%list) w).
  change (session_expiry env cfg w0) with (session_expiry env cfg w).
  destruct (session_expiry env cfg w) as [expires_at|e] eqn:He.
  - change (ticks w0) with (ticks w).
    destruct (commit_fault env (S (S (S (ticks w))))) as [e|].
    + eexists. exists e. split; [reflexivity|]. repeat split.
    + change (has_session_user (SearchRequest.session_id request) w0)
        with (has_session_user (SearchRequest.session_id request) w).
      rewrite Htaken. eexists. exists IntegrityError.
      split; [reflexivity|]. repeat split.
  - apply session_expiry_raises in He. subst e.
    eexists. exists OverflowError. split; [reflexivity|]. repeat split.
Qed.

(** X10. An aggregated result for a session that already has one is
    dropped without an error: [insert_aggregated_emotion] returns normally and
    the table keeps the first result only. *)
Theorem second_aggregate_is_dropped
  (sid dom : string) (conf : Q) (dist : Py.dict Q) (st : string) (w : World)
  (first : SessionAggregatedEmotion.t) :
  In first (session_aggregated_emotion w) ->
  SessionAggregatedEmotion.session_id first = sid ->
  snd (insert_aggregated_emotion env sid dom conf dist st w) = Return tt /\
  session_aggregated_emotion (fst (insert_aggregated_emotion env sid dom conf dist st w))
    = session_aggregated_emotion w.
Proof.
  intros Hin Hsid. rewrite insert_aggregated_emotion_run.
  assert (Hp : aggregated_persists env sid w = false).
  { unfold aggregated_persists. destruct (commit_fault env _); [reflexivity|].
    apply negb_false_iff. unfold has_aggregated. apply existsb_exists.
    exists first. split; [exact Hin|].
    rewrite Hsid, String.eqb_refl. apply orb_true_r. }
  rewrite Hp. split; reflexivity.
Qed.

End SessionRows.

Lemma search_writes_only_rows_of_its_session_witness :
  tables (fst (delete_session env_ok "session-1" world_after_search)) = ([], [], []).
Proof.
  apply (proj2 (search_writes_only_rows_of_its_session env_ok settings
                  (get_matched_images env_ok) (analyze_emotion env_ok)
                  (test_request PHOTO true) empty_world)).
  - repeat split; intros x [].
  - reflexivity.
Defined.

Lemma key_constraints_are_kept_witness : keys_ok world_after_search.
Proof.
  apply (proj1 (key_constraints_are_kept env_ok settings
                  (get_matched_images env_ok) (analyze_emotion env_ok)
                  (test_request PHOTO true) "session-1" empty_world
                  (conj (NoDup_nil _)
                     (conj (NoDup_nil _) (conj (NoDup_nil _) (NoDup_nil _)))))).
Defined.

Lemma taken_session_id_is_rejected_witness :
  exists w' e,
    search_photos env_ok settings (test_request LANDSCAPE true) world_after_search =
      (w', Raise (HTTPException 500 ("Search failed: " ++ str env_ok (PyExc e)))) /\
    store w' = store world_after_search.
Proof.
  destruct (taken_session_id_is_rejected env_ok settings
              (get_matched_images env_ok) (analyze_emotion env_ok)
              (test_request LANDSCAPE true) world_after_search eq_refl)
    as (w' & e & Hs & Hst & _).
  exists w', e. split; assumption.
Defined.

Lemma second_aggregate_is_dropped_witness :
  session_aggregated_emotion
    (fst (insert_aggregated_emotion env_ok "session-1" "sad" 1%Q [("sad", 1%Q)]
            "The person's emotion state is SAD (100.0% confidence)"
            (with_aggregated (fun _ => [test_aggregate]) empty_world))) =
  [test_aggregate].
Proof.
  apply (proj2 (second_aggregate_is_dropped env_ok "session-1" "sad" 1%Q
                  [("sad", 1%Q)]
                  "The person's emotion state is SAD (100.0% confidence)"
                  (with_aggregated (fun _ => [test_aggregate]) empty_world)
                  test_aggregate (or_introl eq_refl) eq_refl)).
Defined.

(** ** Failures before the matches *)

Section EarlyFailures.
Variable env : Env.
Variable cfg : Settings.
Variable matched_images_of : Embedding env -> Z -> Q -> Exc (list MatchedImage.t).
Variable emotion_of : string -> Exc (string * Py.dict Q * Q).

(** X11. When the upload fails, because the captured image is not base64
    or because the bucket refuses it, the search fails with status 500 after
    the Session row was created: the row stays in the table, nothing is
    stored in the bucket, no model is called and no clean-up is scheduled. *)
Theorem failed_upload_fails_the_search
  (request : SearchRequest.t) (w : World) (expires_at : Z) (e : PyError) :
  session_expiry env cfg w = Return expires_at ->
  commit_fault env (S (S (S (ticks w)))) = None ->
  has_session_user (SearchRequest.session_id request) w = false ->
  (__decode_base64 env (SearchRequest.captured_image request) = Raise (PyExc e) \/
   (exists image_data,
       __decode_base64 env (SearchRequest.captured_image request) = Return image_data) /\
   put_object_fault env (S (S (S (S (ticks w))))) = Some e) ->
  exists w',
    search_photos_with env cfg matched_images_of emotion_of request w =
      (w', Raise (HTTPException 500 ("Search failed: " ++ str env (PyExc e)))) /\
    session_user w' =
      (session_user w ++
         [session_user_row env (SearchRequest.session_id request)
            (SearchRequest.user_name request) (SearchRequest.captured_image request)
            (SearchRequest.privacy_policy_agreed request) expires_at w])%list /\
    s3 w' = s3 w /\
    emotion_log w' = emotion_log w /\
    session_aggregated_emotion w' = session_aggregated_emotion w /\
    calls w' = (calls w ++ [CallInsertSessionUser; CallUploadImageToS3])%list /\
    background_tasks w' = background_tasks w.
Proof.
  intros Hexp Hok Hfree Hfail.
  rewrite search_photos_with_after_insert, insert_session_user_run.
  set (w0 := with_calls (fun cs => (cs ++ [CallInsertSessionUser])%list) w).
  change (session_expiry env cfg w0) with (session_expiry env cfg w).
  change (ticks w0) with (ticks w).
  change (has_session_user (SearchRequest.session_id request) w0)
    with (has_session_user (SearchRequest.session_id request) w).
  rewrite Hexp, Hok, Hfree.
  unfold guarded_after_insert, after_insert, try_except, bind, call, modify.
  rewrite upload_image_to_s3_run. unfold __decode_base64 in Hfail.
  destruct Hfail as [Hdec|[[data Hdec] Hput]]; rewrite Hdec.
  - eexists. split; [reflexivity|]. cbn. rewrite <- app_assoc. repeat split.
  - cbn [ticks with_calls with_session_user four_ticks with_ticks].
    change (ticks w0) with (ticks w). rewrite Hput.
    eexists. split; [reflexivity|]. cbn. rewrite <- app_assoc. repeat split.
Qed.

(** What makes [extract_embedding] return [None]. *)
Lemma extract_embedding_none (face_image : Face env) :
  extract_embedding env face_image = None <->
  analyzer_get env face_image = Return [] \/
  exists e, analyzer_get env face_image = Raise e.
Proof.
  unfold extract_embedding.
  destruct (analyzer_get env face_image) as [[|emb faces]|e]; split;
    try (intros; discriminate); try (intros; reflexivity).
  - intros _. left. reflexivity.
  - intros [H|[e H]]; discriminate.
  - intros _. right. exists e. reflexivity.
Qed.

(** X12. When no embedding can be extracted from the aligned face,
    [extract_embedding] returns [None] and the route fails on
    [embedding.shape], in the line that logs the embedding: the search answers
    500, as for an internal error, and the similarity index is not queried. *)
Theorem failed_embedding_fails_the_search
  (request : SearchRequest.t) (w w0 : World) (path : string) (image_bytes : bytes)
  (aligned_face : Face env) :
  store_request env cfg request w = (w0, Return path) ->
  __decode_base64 env (SearchRequest.captured_image request) = Return image_bytes ->
  detect_and_align_face env image_bytes = Some aligned_face ->
  (analyzer_get env aligned_face = Return [] \/
   exists e, analyzer_get env aligned_face = Raise e) ->
  search_photos_with env cfg matched_images_of emotion_of request w =
  (with_calls
     (fun cs => ((cs ++ [CallDetectAndAlignFace]) ++ [CallExtractEmbedding])%list) w0,
   Raise (HTTPException 500 ("Search failed: " ++ str env (PyExc AttributeError)))).
Proof.
  intros Hstore Hdecode Hface Hemb. apply extract_embedding_none in Hemb.
  rewrite (search_photos_with_stored _ _ _ _ _ _ _ _ Hstore).
  unfold find_matches. unfold try_except, bind, lift, call, modify.
  rewrite Hdecode. cbv beta iota. rewrite Hface. cbv beta iota.
  rewrite Hemb. reflexivity.
Qed.

End EarlyFailures.

Lemma failed_upload_fails_the_search_witness :
  exists w',
    search_photos env_ok settings (test_request "not base64!" true) empty_world =
      (w', Raise (HTTPException 500 "Search failed: error")) /\
    map SessionUser.session_id (session_user w') = ["session-1"] /\
    background_tasks w' = [].
Proof.
  destruct (failed_upload_fails_the_search env_ok settings
              (get_matched_images env_ok) (analyze_emotion env_ok)
              (test_request "not base64!" true) empty_world
              (1762041600000000 + 86400000000)%Z BinasciiError
              eq_refl eq_refl eq_refl (or_introl eq_refl))
    as (w' & Hs & Hsu & _ & _ & _ & _ & Hbg).
  exists w'. split; [exact Hs|]. split; [rewrite Hsu; reflexivity | exact Hbg].
Defined.

Lemma failed_embedding_fails_the_search_witness :
  snd (search_photos env_no_embedding settings (test_request PHOTO true) empty_world) =
  Raise (HTTPException 500 "Search failed: error").
Proof.
  unfold search_photos.
  rewrite (failed_embedding_fails_the_search env_no_embedding settings
             (get_matched_images env_no_embedding) (analyze_emotion env_no_embedding)
             (test_request PHOTO true) empty_world
             (fst (store_request env_no_embedding settings (test_request PHOTO true)
                     empty_world))
             "s3://face-emotion-bucket/sessions/session-1/captured.jpg"
             photo_bytes photo_bytes).
  - reflexivity.
  - vm_compute. reflexivity.
  - reflexivity.
  - reflexivity.
  - left. reflexivity.
Defined.

(** ** The face that is aligned *)

Section LargestFace.
Variable env : Env.
Import Py.

Lemma max_from_split_Z {A} (key : A -> Z) (l : list A) :
  forall (pre mid : list A) (best : A),
    (forall y, In y pre -> (key y < key best)%Z) ->
    (forall y, In y mid -> (key y <= key best)%Z) ->
    exists pre' post',
      (pre ++ best :: mid ++ l)%list =
      (pre' ++ max_from (fun a b => (key b <? key a)%Z) best l :: post')%list /\
      (forall y, In y pre' ->
                 (key y < key (max_from (fun a b => (key b <? key a)%Z) best l))%Z) /\
      (forall y, In y post' ->
                 (key y <= key (max_from (fun a b => (key b <? key a)%Z) best l))%Z).
Proof.
  induction l as [|x l IH]; simpl; intros pre mid best Hpre Hmid.
  - exists pre, mid. rewrite app_nil_r. auto.
  - destruct (key best <? key x)%Z eqn:E.
    + apply Z.ltb_lt in E.
      destruct (IH (pre ++ best :: mid)%list [] x) as (pre' & post' & Heq & H1 & H2).
      * intros y Hy. apply in_app_or in Hy. destruct Hy as [Hy|[Hy|Hy]].
        -- specialize (Hpre y Hy). lia.
        -- subst y. exact E.
        -- specialize (Hmid y Hy). lia.
      * intros y [].
      * exists pre', post'. split; [|auto].
        rewrite <- Heq. simpl. rewrite <- app_assoc. reflexivity.
    + apply Z.ltb_ge in E.
      destruct (IH pre (mid ++ [x])%list best) as (pre' & post' & Heq & H1 & H2).
      * exact Hpre.
      * intros y Hy. apply in_app_or in Hy. destruct Hy as [Hy|[Hy|[]]].
        -- auto.
        -- subst y. exact E.
      * exists pre', post'. split; [|auto].
        rewrite <- Heq. rewrite <- app_assoc. reflexivity.
Qed.

(** X13. The face that [detect_and_align_face] returns is the resized crop
    of a detected face of the greatest area, the first one among those of
    that area; the image was decoded and at least one face detected. *)
Theorem aligned_face_is_the_largest (image_bytes : bytes) (aligned_face : Face env) :
  detect_and_align_face env image_bytes = Some aligned_face ->
  exists image before largest after,
    imdecode env image_bytes = Return (Some image) /\
    detect_faces env image = Return (before ++ largest :: after)%list /\
    (forall a, In a before -> (facial_area_size a < facial_area_size largest)%Z) /\
    (forall a, In a after -> (facial_area_size a <= facial_area_size largest)%Z) /\
    resize env (crop env image largest) = Return aligned_face.
Proof.
  unfold detect_and_align_face, detect_and_align_face_try.
  destruct (imdecode env image_bytes) as [[image|]|e]; cbn [exc_bind];
    try discriminate.
  destruct (detect_faces env image) as [[|face faces]|e] eqn:Hfaces;
    cbn [exc_bind]; try discriminate.
  unfold max_by. cbn [exc_bind].
  destruct (max_from_split_Z facial_area_size faces [] [] face)
    as (before & after & Heq & Hlt & Hle); try (intros y []).
  cbn [app] in Heq.
  destruct (resize env _) as [aligned|e] eqn:Hr; [|discriminate].
  intros H. injection H as <-.
  exists image, before. eexists. exists after.
  split; [reflexivity|]. split; [rewrite Hfaces, Heq; reflexivity|]. auto.
Qed.

End LargestFace.

(** Of two faces of the greatest area the first one is taken. *)
Example largest_face_first_of_ties :
  Py.max_by (fun a b => (facial_area_size b <? facial_area_size a)%Z)
            [(0, 0, 10, 10); (0, 0, 20, 20); (5, 5, 25, 25); (1, 1, 2, 2)]%Z =
  Return (0, 0, 20, 20)%Z.
Proof. reflexivity. Qed.

Lemma aligned_face_is_the_largest_witness :
  exists image before largest after,
    imdecode env_ok photo_bytes = Return (Some image) /\
    detect_faces env_ok image = Return (before ++ largest :: after)%list.
Proof.
  destruct (aligned_face_is_the_largest env_ok photo_bytes photo_bytes eq_refl)
    as (image & before & largest & after & H1 & H2 & _).
  exists image, before, largest, after. auto.
Defined.

(** ** The purge and the other sessions *)

Section PurgeFrame.
Variable env : Env.

Lemma filter_filter_implied {A} (p q : A -> bool) (l : list A) :
  (forall x, p x = true -> q x = true) -> filter p (filter q l) = filter p l.
Proof.
  intros H. induction l as [|x l IH]; simpl.
  - reflexivity.
  - destruct (q x) eqn:Q; simpl.
    + destruct (p x); [f_equal|]; exact IH.
    + destruct (p x) eqn:P; [|exact IH].
      rewrite (H x P) in Q. discriminate.
Qed.

Lemma cleanup_session_run sid (w : World) :
  cleanup_session env sid w = delete_session env sid w.
Proof.
  unfold cleanup_session, try_except. rewrite delete_session_run.
  destruct (commit_fault env (ticks w)); reflexivity.
Qed.

(** X14. [delete_session] touches the rows of its session only: the rows
    of every other session are what they were, in the same order.  It does
    not touch the bucket either: the captured image of the session stays
    there.  [cleanup_session], once its delay is over, does the same and never
    raises. *)
Theorem delete_session_touches_one_session (sid other : string) (w : World) :
  other <> sid ->
  session_rows other (fst (delete_session env sid w)) = session_rows other w /\
  s3 (fst (delete_session env sid w)) = s3 w /\
  background_tasks (fst (delete_session env sid w)) = background_tasks w /\
  cleanup_session env sid w = delete_session env sid w /\
  snd (cleanup_session env sid w) = Return tt.
Proof.
  intros Hother.
  split; [|split; [|split; [|split]]].
  - rewrite delete_session_run.
    destruct (commit_fault env (ticks w)); [reflexivity|].
    unfold session_rows, purge.
    cbn [fst session_user emotion_log session_aggregated_emotion with_aggregated
         with_emotion_log with_session_user with_ticks].
    rewrite !filter_filter_implied; [reflexivity| | |];
      intros x Hx; apply String.eqb_eq in Hx; apply negb_true_iff, String.eqb_neq;
      congruence.
  - rewrite delete_session_run. destruct (commit_fault env (ticks w)); reflexivity.
  - rewrite delete_session_run. destruct (commit_fault env (ticks w)); reflexivity.
  - apply cleanup_session_run.
  - rewrite cleanup_session_run. apply delete_session_returns.
Qed.

End PurgeFrame.

Lemma delete_session_touches_one_session_witness :
  session_rows "session-1" (fst (delete_session env_ok "session-2" world_after_search)) =
  session_rows "session-1" world_after_search /\
  Py.keys (s3 (fst (delete_session env_ok "session-1" world_after_search))) =
  ["sessions/session-1/captured.jpg"].
Proof.
  destruct (delete_session_touches_one_session env_ok "session-2" "session-1"
              world_after_search) as (H1 & _).
  - discriminate.
  - split; [exact H1 | reflexivity].
Defined.

(** ** The response and the clean-up *)

Section ResponseShape.
Variable env : Env.
Variable cfg : Settings.
Variable matched_images_of : Embedding env -> Z -> Q -> Exc (list MatchedImage.t).
Variable emotion_of : string -> Exc (string * Py.dict Q * Q).

(** X15. The clean-up of a session is scheduled exactly when its search
    succeeds, once.  A search that fails schedules none, also when it has
    already created the Session row. *)
Theorem cleanup_is_scheduled_on_success_only (request : SearchRequest.t) (w : World) :
  background_tasks
    (fst (search_photos_with env cfg matched_images_of emotion_of request w)) =
  match snd (search_photos_with env cfg matched_images_of emotion_of request w) with
  | Return _ => (background_tasks w ++ [SearchRequest.session_id request])%list
  | Raise _ => background_tasks w
  end.
Proof.
  apply (search_photos_with_writes env cfg matched_images_of emotion_of request w).
Qed.

Lemma slice_to_length {A} (n : Z) (l : list A) :
  (0 <= n)%Z -> (Z.of_nat (List.length (Py.slice_to n l)) <= n)%Z.
Proof.
  intros H. unfold Py.slice_to.
  destruct (0 <=? n)%Z eqn:E; [|apply Z.leb_gt in E; lia].
  rewrite length_firstn. lia.
Qed.

Lemma slice_to_length_le {A} (n : Z) (l : list A) :
  List.length (Py.slice_to n l) <= List.length l.
Proof.
  unfold Py.slice_to. destruct (0 <=? n)%Z; rewrite length_firstn; lia.
Qed.

(** X16. A successful response echoes the session id of the request, its
    statement is the sentence built from its aggregate, and it holds at most
    [MAX_IMAGES_TO_PROCESS] records (when that setting is not negative) and
    never more than the index has found. *)
Theorem response_is_bounded_and_consistent
  (request : SearchRequest.t) (w w' w1 : World) (resp : SearchResponse.t)
  (found : list MatchedImage.t) :
  search_photos_with env cfg matched_images_of emotion_of request w =
    (w', Return resp) ->
  search_upto_matches env cfg matched_images_of request w = (w1, Return found) ->
  SearchResponse.session_id resp = SearchRequest.session_id request /\
  SearchResponse.statement resp =
    make_statement env (fst (fst (SearchResponse.aggregated_state resp)))
                   (snd (fst (SearchResponse.aggregated_state resp))) /\
  SearchResponse.matched_count resp <= List.length found /\
  ((0 <= MAX_IMAGES_TO_PROCESS cfg)%Z ->
   (Z.of_nat (SearchResponse.matched_count resp) <= MAX_IMAGES_TO_PROCESS cfg)%Z).
Proof.
  intros H Hup.
  rewrite (search_photos_with_found _ _ _ _ _ _ _ _ Hup) in H.
  destruct (search_matches_run env cfg emotion_of
              (SearchRequest.session_id request) found w1)
    as (dom & conf & dist & _ & Hrun).
  rewrite Hrun in H. injection H as _ <-.
  cbn [SearchResponse.session_id SearchResponse.statement
       SearchResponse.aggregated_state SearchResponse.matched_count fst snd].
  pose proof (classified_length emotion_of
                (Py.slice_to (MAX_IMAGES_TO_PROCESS cfg) found)) as Hc.
  pose proof (slice_to_length_le (MAX_IMAGES_TO_PROCESS cfg) found) as Hl.
  split; [reflexivity|]. split; [reflexivity|]. split; [lia|].
  intros Hmax. pose proof (slice_to_length _ found Hmax) as Hs. lia.
Qed.

End ResponseShape.

(** The three characters [ABC] again: the Session row is there, no clean-up
    is scheduled. *)
Example failed_search_leaves_session_unscheduled :
  let w := fst (search_photos env_ok settings (test_request NOT_AN_IMAGE true)
                  empty_world) in
  map SessionUser.session_id (session_user w) = ["session-1"] /\
  background_tasks w = [].
Proof. vm_compute. split; reflexivity. Qed.

Lemma response_is_bounded_and_consistent_witness :
  exists w' resp,
    search_photos_with env_ok settings_limit_2 (fixed_index env_ok three_matches)
      (analyze_emotion env_ok) (test_request PHOTO true) empty_world =
      (w', Return resp) /\
    (Z.of_nat (SearchResponse.matched_count resp) <= 2)%Z /\
    SearchResponse.session_id resp = "session-1".
Proof.
  destruct (search_photos_with env_ok settings_limit_2
              (fixed_index env_ok three_matches) (analyze_emotion env_ok)
              (test_request PHOTO true) empty_world)
    as [w' [resp|e]] eqn:Hs.
  - destruct (response_is_bounded_and_consistent env_ok settings_limit_2
                (fixed_index env_ok three_matches) (analyze_emotion env_ok)
                (test_request PHOTO true) empty_world w'
                (fst (search_upto_matches env_ok settings_limit_2
                        (fixed_index env_ok three_matches)
                        (test_request PHOTO true) empty_world))
                resp three_matches Hs)
      as (Hid & _ & _ & Hmax).
    + vm_compute. reflexivity.
    + exists w', resp. split; [reflexivity|]. split; [|exact Hid].
      apply Hmax. vm_compute. discriminate.
  - vm_compute in Hs. discriminate.
Defined.

(** ** The labels of a response *)

Section ResponseLabels.
Variable env : Env.
Variable cfg : Settings.
Variable matched_images_of : Embedding env -> Z -> Q -> Exc (list MatchedImage.t).

Lemma classified_In (emotion_of : string -> Exc (string * Py.dict Q * Q))
  (imgs : list MatchedImage.t) (r : EmotionResult.t) :
  In r (classified emotion_of imgs) ->
  exists img dist conf,
    In img imgs /\
    emotion_of (MatchedImage.image_path img) =
      Return (EmotionResult.emotion r, dist, conf).
Proof.
  unfold classified. intros H. apply in_flat_map in H.
  destruct H as (img & Hin & Hr).
  destruct (emotion_of (MatchedImage.image_path img)) as [[[label dist] conf]|e] eqn:E;
    [|destruct Hr].
  destruct Hr as [<-|[]]. exists img, dist, conf. split; [exact Hin|].
  exact E.
Qed.

(** X17. With the classifier of the repository every label of a successful
    response is in the vocabulary [EMOTION_LABELS]: the label of each matched
    image and the dominant emotion of the aggregate. *)
Theorem labels_are_in_the_vocabulary
  (request : SearchRequest.t) (w w' : World) (resp : SearchResponse.t) :
  search_photos_with env cfg matched_images_of (analyze_emotion env) request w =
    (w', Return resp) ->
  (forall r, In r (SearchResponse.matched_images resp) ->
             In (EmotionResult.emotion r) EMOTION_LABELS) /\
  In (fst (fst (SearchResponse.aggregated_state resp))) EMOTION_LABELS.
Proof.
  intros H.
  destruct (search_photos_with_response _ _ _ _ _ _ _ _ H) as (w1 & found & Hup).
  rewrite (search_photos_with_found _ _ _ _ _ _ _ _ Hup) in H.
  destruct (search_matches_run env cfg (analyze_emotion env)
              (SearchRequest.session_id request) found w1)
    as (dom & conf & dist & Hagg & Hrun).
  rewrite Hrun in H. injection H as _ <-.
  cbn [SearchResponse.matched_images SearchResponse.aggregated_state fst].
  set (rs := classified (analyze_emotion env)
               (Py.slice_to (MAX_IMAGES_TO_PROCESS cfg) found)) in *.
  assert (Hall : forall r, In r rs -> In (EmotionResult.emotion r) EMOTION_LABELS).
  { intros r Hr. destruct (classified_In _ _ _ Hr) as (img & d & c & _ & Hc).
    exact (analyze_emotion_label_in_vocabulary env _ _ _ _ Hc). }
  split; [exact Hall|].
  destruct rs as [|r0 rs0] eqn:Ers.
  - cbn in Hagg. injection Hagg as <- _ _. unfold EMOTION_LABELS. simpl. tauto.
  - destruct (aggregate_emotions_dominant (r0 :: rs0)) as (d & Hd & Hin & _);
      [discriminate|].
    rewrite Hd in Hagg. injection Hagg as <- _ _.
    unfold labels_of in Hin. apply in_map_iff in Hin.
    destruct Hin as (r & <- & Hr). apply Hall. exact Hr.
Qed.

End ResponseLabels.

Lemma labels_are_in_the_vocabulary_witness :
  In (fst (fst (SearchResponse.aggregated_state
                  (match snd (search_photos env_unreadable settings
                                (test_request PHOTO true) empty_world) with
                   | Return resp => resp
                   | Raise _ => empty_response env_unreadable "session-1"
                   end))))
     EMOTION_LABELS.
Proof.
  unfold search_photos.
  destruct (search_photos_with env_unreadable settings
              (get_matched_images env_unreadable) (analyze_emotion env_unreadable)
              (test_request PHOTO true) empty_world)
    as [w' [resp|e]] eqn:Hs.
  - cbn [snd].
    apply (labels_are_in_the_vocabulary env_unreadable settings
             (get_matched_images env_unreadable)
             (test_request PHOTO true) empty_world w' resp Hs).
  - vm_compute in Hs. discriminate.
Defined.

(** ** A database that answers *)

Section HealthyDatabase.
Variable env : Env.
Variable cfg : Settings.
Variable matched_images_of : Embedding env -> Z -> Q -> Exc (list MatchedImage.t).
Variable emotion_of : string -> Exc (string * Py.dict Q * Q).

Lemma analyze_all_persists sid imgs :
  forall rs (w : World),
    healthy_from env w ->
    exists logs,
      emotion_log (fst (analyze_all env emotion_of sid imgs rs w)) =
        (emotion_log w ++ logs)%list /\
      Forall2 (log_of sid) (classified emotion_of imgs) logs.
Proof.
  induction imgs as [|img imgs IH]; intros rs w (Hup & Hfresh & Hinj).
  - exists []. cbn. rewrite app_nil_r. split; [reflexivity | constructor].
  - cbn [analyze_all]. unfold bind. rewrite analyze_one_run.
    rewrite (classified_cons emotion_of img imgs).
    destruct (emotion_of (MatchedImage.image_path img))
      as [[[label dist] conf]|e] eqn:Hc.
    + rewrite (classified_one_return _ _ _ _ _ Hc).
      rewrite insert_emotion_log_run. cbn [fst].
      assert (Hp : emotion_log_persists env
                     (with_calls
                        (fun cs => ((cs ++ [CallAnalyzeEmotion
                                              (MatchedImage.image_path img)])
                                      ++ [CallInsertEmotionLog
                                            (MatchedImage.image_id img)])%list) w)
                   = true).
      { unfold emotion_log_persists. cbn [ticks with_calls].
        rewrite (Hup (S (S (ticks w)))) by lia.
        apply negb_true_iff. exact (Hfresh (ticks w) (Nat.le_refl _)). }
      rewrite Hp.
      match goal with
      | |- context [analyze_all env emotion_of sid imgs ?r ?v] =>
          destruct (IH r v) as (logs & Hlog & Hall)
      end.
      { split; [|split].
        - intros n Hn. apply Hup. cbn in Hn. lia.
        - intros n Hn. cbn in Hn. unfold has_emotion_log.
          cbn [emotion_log with_emotion_log three_ticks with_ticks with_calls].
          rewrite existsb_app. apply orb_false_iff. split.
          + apply (Hfresh n). lia.
          + cbn. rewrite orb_false_r. apply String.eqb_neq.
            intros Heq. apply Hinj in Heq; lia.
        - intros n m Hn Hm. cbn in Hn, Hm. apply Hinj; lia. }
      cbn [emotion_log with_emotion_log three_ticks with_ticks with_calls] in Hlog.
      eexists. split.
      * rewrite Hlog, <- app_assoc. reflexivity.
      * cbn [app]. constructor; [|exact Hall].
        unfold log_of. cbn. auto.
    + rewrite (classified_one_raise _ _ _ Hc). cbn [fst app].
      match goal with
      | |- context [analyze_all env emotion_of sid imgs ?r ?v] =>
          destruct (IH r v) as (logs & Hlog & Hall)
      end.
      { split; [|split].
        - intros n Hn. exact (Hup n Hn).
        - intros n Hn. exact (Hfresh n Hn).
        - intros n m Hn Hm. exact (Hinj n m Hn Hm). }
      exists logs. split; [exact Hlog | exact Hall].
Qed.

(** X18. While the database can be reached and the UUIDs are new, a
    search whose matches were found persists everything it answers: one
    emotion log for each matched image of the response, in order, and, when
    the session has no aggregated result yet, the aggregated result of the
    response. *)
Theorem healthy_database_persists_the_response
  (request : SearchRequest.t) (w w1 : World) (found : list MatchedImage.t) :
  search_upto_matches env cfg matched_images_of request w = (w1, Return found) ->
  healthy_from env w1 ->
  (forall n, ticks w1 <= n ->
             has_aggregated (uuid4 env n) (SearchRequest.session_id request) w1
             = false) ->
  exists w' resp logs row,
    search_photos_with env cfg matched_images_of emotion_of request w =
      (w', Return resp) /\
    emotion_log w' = (emotion_log w1 ++ logs)%list /\
    Forall2 (log_of (SearchRequest.session_id request))
            (SearchResponse.matched_images resp) logs /\
    session_aggregated_emotion w' = (session_aggregated_emotion w1 ++ [row])%list /\
    SessionAggregatedEmotion.session_id row = SearchRequest.session_id request /\
    (SessionAggregatedEmotion.dominant_emotion row,
     SessionAggregatedEmotion.emotion_confidence row,
     SessionAggregatedEmotion.emotion_distribution row) =
      SearchResponse.aggregated_state resp /\
    SessionAggregatedEmotion.statement row = SearchResponse.statement resp.
Proof.
  intros Hup Hhealthy Hfree.
  rewrite (search_photos_with_found _ _ _ _ _ _ _ _ Hup).
  destruct (search_matches_run env cfg emotion_of
              (SearchRequest.session_id request) found w1)
    as (dom & conf & dist & _ & Hrun).
  rewrite Hrun.
  destruct (analyze_all_persists (SearchRequest.session_id request)
              (Py.slice_to (MAX_IMAGES_TO_PROCESS cfg) found) [] w1 Hhealthy)
    as (logs & Hlog & Hall).
  destruct (analyze_all_effect env emotion_of (SearchRequest.session_id request)
              (Py.slice_to (MAX_IMAGES_TO_PROCESS cfg) found) [] w1)
    as (logs' & _ & _ & _ & _ & Hticks & _ & Hagg & _).
  rewrite insert_aggregated_emotion_run.
  match goal with
  | |- context [aggregated_persists env ?s ?v] =>
      assert (Hp : aggregated_persists env s v = true)
  end.
  { unfold aggregated_persists, has_aggregated.
    cbn [ticks session_aggregated_emotion with_calls].
    rewrite Hticks, Hagg.
    destruct Hhealthy as (Hdb & _).
    rewrite Hdb by lia. apply negb_true_iff.
    apply (Hfree (ticks w1 + 3 * List.length
                                   (classified emotion_of
                                      (Py.slice_to (MAX_IMAGES_TO_PROCESS cfg) found)))).
    lia. }
  rewrite Hp.
  eexists. eexists. exists logs. eexists.
  split; [reflexivity|].
  cbn [fst emotion_log session_aggregated_emotion with_background_tasks
       with_aggregated three_ticks with_ticks with_calls
       SearchResponse.matched_images SearchResponse.aggregated_state
       SearchResponse.statement].
  rewrite Hlog, Hagg.
  split; [reflexivity|]. split; [exact Hall|]. split; [reflexivity|].
  repeat split.
Qed.

End HealthyDatabase.

Lemma string_of_nat_inj (n m : nat) : string_of_nat n = string_of_nat m -> n = m.
Proof.
  assert (Hnonnil : forall k, Nat.to_uint k <> Decimal.Nil).
  { intros k H. pose proof (DecimalNat.Unsigned.of_to k) as Hk.
    rewrite H in Hk. cbn in Hk. subst k. discriminate H. }
  unfold string_of_nat. intros H.
  apply (f_equal NilZero.uint_of_string) in H.
  rewrite !NilZero.usu in H by apply Hnonnil.
  injection H as H. apply DecimalNat.Unsigned.to_uint_inj. exact H.
Qed.

Lemma healthy_database_persists_the_response_witness :
  exists w' resp logs row,
    search_photos env_ok settings (test_request PHOTO true) empty_world =
      (w', Return resp) /\
    Forall2 (log_of "session-1") (SearchResponse.matched_images resp) logs /\
    emotion_log w' = logs /\
    session_aggregated_emotion w' = [row] /\
    SessionAggregatedEmotion.statement row = SearchResponse.statement resp.
Proof.
  destruct (healthy_database_persists_the_response env_ok settings
              (get_matched_images env_ok) (analyze_emotion env_ok)
              (test_request PHOTO true) empty_world
              (fst (search_upto_matches env_ok settings (get_matched_images env_ok)
                      (test_request PHOTO true) empty_world))
              placeholder_matches)
    as (w' & resp & logs & row & Hs & Hlog & Hall & Hagg & _ & _ & Hst).
  - vm_compute. reflexivity.
  - split; [|split].
    + intros n _. reflexivity.
    + intros n _. reflexivity.
    + intros n m _ _ H. cbn in H. injection H as H.
      apply string_of_nat_inj. exact H.
  - intros n _. reflexivity.
  - exists w', resp, logs, row.
    split; [exact Hs|]. split; [exact Hall|]. split; [exact Hlog|].
    split; [exact Hagg | exact Hst].
Defined.

(** * The route with the classifier and the index of the repository *)

Section RepositoryClassifier.
Variable env : Env.
Variable cfg : Settings.
Variable matched_images_of : Embedding env -> Z -> Q -> Exc (list MatchedImage.t).

(** [analyze_emotion] returns for every image, so the loop collects a record
    for every match it goes through. *)
Lemma classified_analyze_emotion (imgs : list MatchedImage.t) :
  classified (analyze_emotion env) imgs = map (record_of env) imgs.
Proof.
  induction imgs as [|img imgs IH]; [reflexivity|].
  rewrite (classified_cons (analyze_emotion env) img imgs), IH. cbn [map].
  unfold classified. cbn [flat_map]. unfold analyze_emotion, record_of.
  destruct (analyze_emotion_try env (MatchedImage.image_path img))
    as [[[label dist] conf]|e]; reflexivity.
Qed.

Lemma record_of_failing (img : MatchedImage.t) :
  classification_fails env img = true -> record_of env img = neutral_record img.
Proof.
  unfold classification_fails, record_of.
  destruct (analyze_emotion_try env (MatchedImage.image_path img));
    [discriminate | reflexivity].
Qed.


Lemma record_of_label (img : MatchedImage.t) :
  EmotionResult.emotion (record_of env img) =
  if classification_fails env img then "neutral" else "happy".
Proof.
  unfold classification_fails, record_of. rewrite analyze_emotion_try_run.
  destruct (open_rgb env (MatchedImage.image_path img)); reflexivity.
Qed.

(** The neutral records of the loop are those of the failed classifications. *)
Lemma tally_neutral_records (imgs : list MatchedImage.t) :
  tally (map (record_of env) imgs) "neutral" =
  List.length (filter (classification_fails env) imgs).
Proof.
  unfold tally, labels_of. induction imgs as [|img imgs IH]; [reflexivity|].
  cbn [map filter count_occ]. rewrite record_of_label.
  destruct (classification_fails env img); cbn [List.length].
  - destruct (string_dec "neutral" "neutral"); [|congruence]. rewrite IH. reflexivity.
  - destruct (string_dec "happy" "neutral"); [discriminate|]. exact IH.
Qed.




(** The search once the matches are found, with the classifier of the
    repository: it succeeds, with a record for every match of the loop, and
    inserts the aggregate of these records. *)
Lemma search_found_with_analyze_emotion
  (request : SearchRequest.t) (w w1 : World) (found : list MatchedImage.t) :
  search_upto_matches env cfg matched_images_of request w = (w1, Return found) ->
  exists w' resp,
    search_photos_with env cfg matched_images_of (analyze_emotion env) request w =
      (w', Return resp) /\
    SearchResponse.matched_images resp = map (record_of env) (processed cfg found) /\
    SearchResponse.matched_count resp = List.length (processed cfg found) /\
    aggregate_emotions (map (record_of env) (processed cfg found)) =
      Return (SearchResponse.aggregated_state resp) /\
    calls w' =
      (calls w1 ++ loop_calls (analyze_emotion env) (processed cfg found)
       ++ [CallAggregateEmotions; CallInsertAggregatedEmotion])%list /\
    (commit_fault env (S (S (ticks w1 + 3 * List.length (processed cfg found))))
       = None ->
     has_aggregated (uuid4 env (ticks w1 + 3 * List.length (processed cfg found)))
       (SearchRequest.session_id request) w1 = false ->
     exists row,
       session_aggregated_emotion w' =
         (session_aggregated_emotion w1 ++ [row])%list /\
       aggregated_row_of (SearchRequest.session_id request) resp row).
Proof.
  intros Hup. rewrite (search_photos_with_found _ _ _ _ _ _ _ _ Hup).
  destruct (search_matches_effect env cfg (analyze_emotion env)
              (SearchRequest.session_id request) found w1)
    as (logs & Hcalls & _).
  destruct (search_matches_run env cfg (analyze_emotion env)
              (SearchRequest.session_id request) found w1)
    as (dom & conf & dist & Hagg & Hrun).
  destruct (analyze_all_effect env (analyze_emotion env)
              (SearchRequest.session_id request)
              (Py.slice_to (MAX_IMAGES_TO_PROCESS cfg) found) [] w1)
    as (logs' & _ & _ & _ & _ & Hticks & _ & Htable & _).
  fold (processed cfg found) in Hagg, Hrun, Hcalls, Hticks, Htable.
  rewrite classified_analyze_emotion in Hagg, Hrun, Hticks.
  rewrite length_map in Hrun, Hticks.
  rewrite Hrun in Hcalls. cbn [fst] in Hcalls. rewrite Hrun.
  eexists. eexists. split; [reflexivity|].
  cbn [SearchResponse.matched_images SearchResponse.matched_count
       SearchResponse.aggregated_state].
  split; [reflexivity|]. split; [reflexivity|]. split; [exact Hagg|].
  split; [exact Hcalls|].
  intros Hfault Hfree.
  rewrite insert_aggregated_emotion_run.
  unfold aggregated_persists, has_aggregated in *.
  cbn [ticks session_aggregated_emotion with_calls].
  rewrite Hticks, Htable, Hfault, Hfree.
  cbn [negb fst session_aggregated_emotion with_background_tasks with_aggregated
       three_ticks with_ticks with_calls].
  rewrite Htable. eexists. split; [reflexivity|].
  unfold aggregated_row_of, aggregated_row. cbn. repeat split.
Qed.


(** C4, as the code has it.  In every successful response [matched_count]
    is the length of [matched_images].  A match whose classification fails
    is not left out: of the [n] matches found, the loop goes through the first
    [MAX_IMAGES_TO_PROCESS], all [n] when the limit allows, and the response
    holds one record for each of them, in order.  The record of a match whose
    classification fails is the neutral fallback, and the neutral records are
    exactly those.  The aggregate is computed over all the records, the
    neutral ones included.  A failing classification never makes the search
    fail. *)
Theorem failed_classification_is_kept_as_neutral
  (request : SearchRequest.t) (w : World) :
  (forall w' resp,
      search_photos_with env cfg matched_images_of (analyze_emotion env) request w =
        (w', Return resp) ->
      SearchResponse.matched_count resp =
      List.length (SearchResponse.matched_images resp)) /\
  (forall w1 found,
      search_upto_matches env cfg matched_images_of request w =
        (w1, Return found) ->
      exists w' resp,
        search_photos_with env cfg matched_images_of (analyze_emotion env)
          request w = (w', Return resp) /\
        SearchResponse.matched_images resp =
          map (record_of env) (processed cfg found) /\
        SearchResponse.matched_count resp = List.length (processed cfg found) /\
        ((Z.of_nat (List.length found) <= MAX_IMAGES_TO_PROCESS cfg)%Z ->
         SearchResponse.matched_count resp = List.length found) /\
        (forall img, classification_fails env img = true ->
                     record_of env img = neutral_record img) /\
        tally (SearchResponse.matched_images resp) "neutral" =
          List.length (filter (classification_fails env) (processed cfg found)) /\
        aggregate_emotions (SearchResponse.matched_images resp) =
          Return (SearchResponse.aggregated_state resp)).
Proof.
  split.
  - intros w' resp H.
    destruct (search_photos_with_response _ _ _ _ _ _ _ _ H) as (w1 & found & Hup).
    destruct (search_found_with_analyze_emotion request w w1 found Hup)
      as (w'' & resp' & Hs & Hm & Hc & _).
    rewrite Hs in H. injection H as _ <-. rewrite Hc, Hm, length_map. reflexivity.
  - intros w1 found Hup.
    destruct (search_found_with_analyze_emotion request w w1 found Hup)
      as (w' & resp & Hs & Hm & Hc & Hagg & _).
    exists w', resp. split; [exact Hs|]. split; [exact Hm|]. split; [exact Hc|].
    split; [|split; [|split]].
    + intros Hlen. rewrite Hc. unfold processed.
      rewrite (slice_to_all _ _ Hlen). reflexivity.
    + apply record_of_failing.
    + rewrite Hm. apply tally_neutral_records.
    + rewrite Hm. exact Hagg.
Qed.

End RepositoryClassifier.



(** Three matches of which none can be opened: three neutral records, and the
    confidence of the aggregate is 3/3. *)
Example three_failed_classifications :
  exists w' resp,
    search_photos_with env_unreadable settings (fixed_index env_unreadable three_matches)
      (analyze_emotion env_unreadable) (test_request PHOTO true) empty_world =
      (w', Return resp) /\
    SearchResponse.matched_count resp = 3 /\
    map EmotionResult.emotion (SearchResponse.matched_images resp) =
      ["neutral"; "neutral"; "neutral"] /\
    SearchResponse.aggregated_state resp =
      ("neutral", Qmake 3 3, [("neutral", Qmake 3 3)]).
Proof.
  eexists. eexists. split; [vm_compute; reflexivity|].
  vm_compute. repeat split.
Qed.

Lemma failed_classification_is_kept_as_neutral_witness :
  exists w' resp,
    search_photos env_unreadable settings (test_request PHOTO true) empty_world =
      (w', Return resp) /\
    SearchResponse.matched_count resp = 1 /\
    SearchResponse.matched_images resp = map neutral_record placeholder_matches.
Proof.
  destruct (proj2 (failed_classification_is_kept_as_neutral env_unreadable settings
                     (get_matched_images env_unreadable)
                     (test_request PHOTO true) empty_world)
                  (fst (search_upto_matches env_unreadable settings
                          (get_matched_images env_unreadable)
                          (test_request PHOTO true) empty_world))
                  placeholder_matches)
    as (w' & resp & Hs & Hm & Hc & _).
  - vm_compute. reflexivity.
  - exists w', resp. split; [exact Hs|]. split; [exact Hc | exact Hm].
Defined.

(** The claim fails on the code.  One match is found and its classification
    fails: the response does not hold [1 - 1 = 0] records but one, the neutral
    record of the match, and the aggregate is computed over it. *)
Lemma failed_candidate_is_counted_counterexample :
  List.length placeholder_matches = 1 /\
  List.length (filter (classification_fails env_unreadable) placeholder_matches) = 1 /\
  (exists w' resp,
      search_photos env_unreadable settings (test_request PHOTO true) empty_world =
        (w', Return resp) /\
      SearchResponse.matched_count resp = 1 /\
      List.length (SearchResponse.matched_images resp) = 1 /\
      map EmotionResult.emotion (SearchResponse.matched_images resp) = ["neutral"] /\
      SearchResponse.aggregated_state resp = ("neutral", 1%Q, [("neutral", 1%Q)])).
Proof.
  split; [reflexivity|]. split; [reflexivity|].
  eexists. eexists. split; [vm_compute; reflexivity|].
  vm_compute. repeat split.
Qed.

(** Three matches are found and the image of the second one cannot be
    opened: the response holds three records, the second one neutral, and the
    aggregate counts two of three. *)
Example second_of_three_fails :
  exists w' resp,
    search_photos_with env_second_unreadable settings
      (fixed_index env_second_unreadable three_matches)
      (analyze_emotion env_second_unreadable) (test_request PHOTO true)
      empty_world = (w', Return resp) /\
    SearchResponse.matched_count resp = 3 /\
    map EmotionResult.image_id (SearchResponse.matched_images resp) =
      ["1"; "2"; "3"] /\
    map EmotionResult.emotion (SearchResponse.matched_images resp) =
      ["happy"; "neutral"; "happy"] /\
    SearchResponse.aggregated_state resp =
      ("happy", Qmake 2 3, [("happy", Qmake 2 3); ("neutral", Qmake 1 3)]).
Proof.
  eexists. eexists. split; [vm_compute; reflexivity|].
  vm_compute. repeat split.
Qed.

(** Three matches are found and the limit is two: the response holds the
    records of the first two. *)
Example limit_bounds_the_records :
  exists w' resp,
    search_photos_with env_ok settings_limit_2 (fixed_index env_ok three_matches)
      (analyze_emotion env_ok) (test_request PHOTO true) empty_world =
      (w', Return resp) /\
    SearchResponse.matched_count resp = 2 /\
    map EmotionResult.image_id (SearchResponse.matched_images resp) = ["1"; "2"].
Proof.
  eexists. eexists. split; [vm_compute; reflexivity|].
  vm_compute. repeat split.
Qed.

(** ** The similarity threshold (C6) *)

Section Threshold.
Variable env : Env.
Variable cfg : Settings.


(** The index of the repository looks neither at the embedding nor at the
    limit nor at the threshold. *)
Lemma get_matched_images_placeholder (embedding : Embedding env) (limit : Z)
  (threshold : Q) :
  get_matched_images env embedding limit threshold = Return placeholder_matches.
Proof. reflexivity. Qed.


End Threshold.



(** An index that finds nothing: the search answers 404 and nothing is
    classified. *)
Example empty_index_answers_404 :
  exists w',
    search_photos_with env_ok settings (fixed_index env_ok []) (analyze_emotion env_ok)
      (test_request PHOTO true) empty_world = (w', Raise NO_MATCHES_FOUND) /\
    calls w' = calls_upto_matches.
Proof.
  eexists. split; [vm_compute; reflexivity|]. reflexivity.
Qed.

(** * The client *)

Section ClientFacts.
Variable env : Env.
Variable cfg : Settings.
Import Client.

Lemma search_photos_raises_http request (w w' : World) e :
  search_photos env cfg request w = (w', Raise e) ->
  exists status detail, e = HTTPException status detail.
Proof.
  unfold search_photos, search_photos_with, try_except.
  destruct (search_photos_try _ _ _ _ _ _) as [w1 [r|e0]]; [discriminate|].
  destruct e0; cbn; intros H; injection H as _ <-; eauto.
Qed.

Lemma step_submit image privacyAgreed userName uuidv4 toISOString net
  (s : System) :
  stage (app s) = Form ->
  capturedImage (app s) = Some image ->
  step env cfg (Submit privacyAgreed userName uuidv4 toISOString net) s =
  if userName_valid userName
  then if privacyAgreed
       then {| app :=
                 handleSearch
                   (searchFaces
                      (match net with
                       | Delivered true =>
                           answer
                             (snd (search_photos env cfg
                                     (form_request image userName uuidv4
                                        toISOString) (server s)))
                       | _ => Rejected None
                       end)) (app s);
               server :=
                 match net with
                 | Lost => server s
                 | Delivered _ =>
                     fst (search_photos env cfg
                            (form_request image userName uuidv4 toISOString)
                            (server s))
                 end;
               alerts := alerts s |}
       else alert "Please agree to the privacy policy" s
  else s.
Proof.
  intros Hstage Himage. unfold step. rewrite Hstage. unfold handleSubmit.
  destruct (userName_valid userName); [|reflexivity].
  unfold onSubmit. destruct privacyAgreed; [|reflexivity].
  cbn [negb]. unfold onSearch, post_search, to_request.
  cbn [captured_image session_id user_name privacy_policy_agreed timestamp].
  rewrite Himage. fold (form_request image userName uuidv4 toISOString).
  destruct net as [|answered]; [reflexivity|].
  destruct (search_photos env cfg _ (server s)) as [w' r].
  destruct answered; reflexivity.
Qed.

(** X19.  A submitted form runs the search and shows its outcome.  On the form
    step, with a captured image, a name that passes the rules and the consent
    given: when the request and the answer get through, the server is left as
    [search_photos] leaves it, a response moves the page to the results with
    that response and no error, and a failure keeps the page on the form with
    the [detail] of the route's HTTPException as the error (["Search failed"]
    if the detail is empty).  When the answer is lost the search has still run
    on the server and the page shows ["Search failed"]; when the request is
    lost the server is untouched.  In every case nothing is loading afterwards
    and the captured image is kept. *)
Theorem submitted_form_shows_the_outcome image userName uuidv4 toISOString net
  (s : System) :
  stage (app s) = Form ->
  capturedImage (app s) = Some image ->
  userName_valid userName = true ->
  let r :=
    search_photos env cfg (form_request image userName uuidv4 toISOString)
      (server s) in
  let s' := step env cfg (Submit true userName uuidv4 toISOString net) s in
  isLoading (app s') = false /\
  capturedImage (app s') = Some image /\
  alerts s' = alerts s /\
  match net with
  | Lost => server s' = server s /\ shows_no_answer (app s) (app s')
  | Delivered false => server s' = fst r /\ shows_no_answer (app s) (app s')
  | Delivered true => server s' = fst r /\ shows (app s) (app s') (snd r)
  end.
Proof.
  intros Hstage Himage Hvalid r s'. subst s'.
  rewrite (step_submit image _ _ _ _ _ _ Hstage Himage), Hvalid.
  cbn [app server alerts]. unfold handleSearch.
  split; [destruct (searchFaces _); reflexivity|].
  split; [destruct (searchFaces _); exact Himage|].
  split; [reflexivity|].
  destruct net as [|[|]].
  - split; [reflexivity|]. repeat split.
  - split; [reflexivity|]. subst r.
    destruct (search_photos env cfg _ (server s)) as [w' [response|e]] eqn:Hs.
    + repeat split.
    + destruct (search_photos_raises_http _ _ _ _ Hs) as (status & detail & ->).
      cbn [snd answer searchFaces error_message shows].
      split; [reflexivity|]. split; [reflexivity|].
      exists status, detail. split; [reflexivity|].
      cbn. destruct detail; reflexivity.
  - split; [reflexivity|]. repeat split.
Qed.

Lemma run_app events e (s : System) :
  run env cfg (events ++ [e])%list s = step env cfg e (run env cfg events s).
Proof. unfold run. rewrite fold_left_app. reflexivity. Qed.

Lemma run_run events more (s : System) :
  run env cfg (events ++ more)%list s = run env cfg more (run env cfg events s).
Proof. unfold run. apply fold_left_app. Qed.

Lemma handleSearch_fields searched (a : App) :
  isLoading (handleSearch searched a) = false /\
  capturedImage (handleSearch searched a) = capturedImage a /\
  backendOnline (handleSearch searched a) = backendOnline a.
Proof. destruct searched; repeat split. Qed.

Lemma handleSearch_consistent searched (a : App) :
  stage a = Form ->
  consistent a ->
  consistent (handleSearch searched a).
Proof.
  unfold consistent. intros Hstage (Hloading & H). rewrite Hstage in H.
  destruct H as (Himage & Hresults).
  destruct searched as [response|message]; unfold handleSearch; cbn.
  - split; [reflexivity|]. split; [exact Himage|].
    split; [exists response; reflexivity | reflexivity].
  - rewrite Hstage. split; [reflexivity|]. split; assumption.
Qed.

Lemma step_consistent e (s : System) :
  consistent (app s) -> consistent (app (step env cfg e s)).
Proof.
  intros Hok. destruct e as [response|canvas faceDetected|agreed name uuid now net].
  - unfold step.
    assert (H : forall a, consistent a -> consistent (checkBackend response a)).
    { intros a Ha. unfold checkBackend. destruct (healthCheck response); exact Ha. }
    destruct (stage (app s)); apply H, Hok.
  - unfold step. destruct (stage (app s)) eqn:Hstage; try exact Hok.
    destruct faceDetected; [|exact Hok].
    unfold FaceCapture_handleCapture.
    destruct canvas as [image|]; [|exact Hok].
    cbn. unfold consistent in *. rewrite Hstage in Hok.
    destruct Hok as (Hloading & _ & Hresults & _). cbn.
    split; [exact Hloading|]. split; [exists image; reflexivity | exact Hresults].
  - destruct (stage (app s)) eqn:Hstage;
      try (unfold step; rewrite Hstage; exact Hok).
    assert (Himage : exists image, capturedImage (app s) = Some image).
    { unfold consistent in Hok. rewrite Hstage in Hok. apply Hok. }
    destruct Himage as (image & Himage).
    rewrite (step_submit image _ _ _ _ _ _ Hstage Himage).
    destruct (userName_valid name); [|exact Hok].
    destruct agreed; [|exact Hok].
    cbn [app]. apply handleSearch_consistent; assumption.
Qed.

Lemma step_forward e (s : System) :
  stage_index (stage (app s)) <= stage_index (stage (app (step env cfg e s))).
Proof.
  destruct e as [response|canvas faceDetected|agreed name uuid now net].
  - unfold step.
    assert (H : forall a, stage (checkBackend response a) = stage a).
    { intros a. unfold checkBackend. destruct (healthCheck response); reflexivity. }
    destruct (stage (app s)) eqn:Hstage; cbn [on_app app]; rewrite H, Hstage;
      apply Nat.le_refl.
  - unfold step. destruct (stage (app s)) eqn:Hstage;
      try (rewrite Hstage; apply Nat.le_refl).
    destruct faceDetected; [|rewrite Hstage; apply Nat.le_refl].
    unfold FaceCapture_handleCapture.
    destruct canvas as [image|]; cbn; [lia|rewrite Hstage; apply Nat.le_refl].
  - unfold step. destruct (stage (app s)) eqn:Hstage;
      try (rewrite Hstage; apply Nat.le_refl).
    unfold handleSubmit. destruct (userName_valid name);
      [|rewrite Hstage; apply Nat.le_refl].
    unfold onSubmit. destruct agreed; cbn [negb];
      [|cbn; rewrite Hstage; apply Nat.le_refl].
    unfold onSearch. destruct (post_search _ _ _ _ _) as [w' settled].
    cbn [app]. destruct (searchFaces settled); unfold handleSearch; cbn;
      [lia|rewrite Hstage; apply Nat.le_refl].
Qed.

Lemma run_forward events (s : System) :
  stage_index (stage (app s)) <= stage_index (stage (app (run env cfg events s))).
Proof.
  revert s. induction events as [|e events IH]; intros s; [apply Nat.le_refl|].
  change (run env cfg (e :: events) s)
    with (run env cfg events (step env cfg e s)).
  eapply Nat.le_trans; [apply step_forward|apply IH].
Qed.

(** Once the results are shown only the health check is still handled. *)
Lemma step_results e (s : System) :
  stage (app s) = Results ->
  stage (app (step env cfg e s)) = Results /\
  results (app (step env cfg e s)) = results (app s) /\
  server (step env cfg e s) = server s /\
  alerts (step env cfg e s) = alerts s.
Proof.
  intros Hstage. unfold step. rewrite Hstage.
  destruct e as [response|canvas faceDetected|agreed name uuid now net];
    try (repeat split; exact Hstage).
  unfold checkBackend. destruct (healthCheck response); repeat split; exact Hstage.
Qed.

Lemma run_results events (s : System) :
  stage (app s) = Results ->
  results (app (run env cfg events s)) = results (app s) /\
  server (run env cfg events s) = server s /\
  alerts (run env cfg events s) = alerts s.
Proof.
  revert s. induction events as [|e events IH]; intros s Hstage;
    [repeat split|].
  change (run env cfg (e :: events) s)
    with (run env cfg events (step env cfg e s)).
  destruct (step_results e s Hstage) as (Hs & Hr & Hw & Ha).
  destruct (IH _ Hs) as (Hr' & Hw' & Ha').
  rewrite Hr', Hw', Ha'. repeat split; assumption.
Qed.

(** X20.  The page stays consistent and only moves forward.  After any events
    on a freshly loaded page nothing is left loading; on the capture step
    there is no image, no result and no error; on the form step there is a
    captured image and no result; on the results step there are an image and a
    response and no error.  Further events never move the page to an earlier
    step, and once the results are shown they change neither the results nor
    the server. *)
Theorem page_is_consistent_and_moves_forward events more (w : World) :
  let s := run env cfg events (loaded w) in
  let s' := run env cfg (events ++ more)%list (loaded w) in
  consistent (app s) /\
  stage_index (stage (app s)) <= stage_index (stage (app s')) /\
  match stage (app s) with
  | Results => results (app s') = results (app s) /\ server s' = server s
  | _ => True
  end.
Proof.
  intros s s'. subst s s'. rewrite run_run.
  split; [|split].
  - induction events as [|e events IH] using rev_ind.
    + cbn. repeat split.
    + rewrite run_app. apply step_consistent, IH.
  - apply run_forward.
  - destruct (stage (app (run env cfg events (loaded w)))) eqn:Hstage; trivial.
    destruct (run_results more _ Hstage) as (Hr & Hw & _). split; assumption.
Qed.

(** What the page holds and what reached the server came out of the events. *)
Lemma step_from_the_form events e (s : System) (w : World) :
  (forall image, capturedImage (app s) = Some image ->
     In (ClickCapture (Some image) true) events) ->
  Forall (fun row => In row (session_user w) \/ from_the_form events row)
    (session_user (server s)) ->
  (forall image, capturedImage (app (step env cfg e s)) = Some image ->
     In (ClickCapture (Some image) true) (events ++ [e])%list) /\
  Forall (fun row => In row (session_user w) \/
                     from_the_form (events ++ [e])%list row)
    (session_user (server (step env cfg e s))).
Proof.
  intros Himage Hrows.
  assert (Himage' : forall image, capturedImage (app s) = Some image ->
            In (ClickCapture (Some image) true) (events ++ [e])%list).
  { intros image H. apply in_or_app. left. apply Himage, H. }
  assert (Hrows' : Forall (fun row => In row (session_user w) \/
                             from_the_form (events ++ [e])%list row)
                     (session_user (server s))).
  { eapply Forall_impl; [|exact Hrows]. intros row [H|(H1 & H2 & H3)];
      [left; exact H|right]. repeat split; try assumption.
    apply in_or_app. left. exact H3. }
  destruct e as [response|canvas faceDetected|agreed name uuid now net].
  - unfold step.
    assert (H : forall a, capturedImage (checkBackend response a) = capturedImage a).
    { intros a. unfold checkBackend. destruct (healthCheck response); reflexivity. }
    destruct (stage (app s)); cbn [on_app app server]; rewrite H;
      split; assumption.
  - unfold step. destruct (stage (app s)) eqn:Hstage; try (split; assumption).
    destruct faceDetected; [|split; assumption].
    unfold FaceCapture_handleCapture.
    destruct canvas as [image|]; [|split; assumption].
    cbn. split; [|exact Hrows'].
    intros image' H. injection H as <-. apply in_or_app. right. left. reflexivity.
  - destruct (stage (app s)) eqn:Hstage;
      try (unfold step; rewrite Hstage; split; assumption).
    assert (Hc : exists o, capturedImage (app s) = o) by (eexists; reflexivity).
    destruct Hc as ([image|] & Hcaptured).
    + rewrite (step_submit image _ _ _ _ _ _ Hstage Hcaptured).
      destruct (userName_valid name) eqn:Hvalid; [|split; assumption].
      destruct agreed; [|split; assumption].
      cbn [app server].
      split.
      { intros image' H.
        rewrite (proj1 (proj2 (handleSearch_fields _ _))) in H.
        apply Himage', H. }
      destruct net as [|answered]; [exact Hrows'|].
      unfold search_photos.
      destruct (search_photos_with_session_user env cfg (get_matched_images env)
                  (analyze_emotion env)
                  (form_request image name uuid now) (server s))
        as [->|(_ & expires_at & ->)]; [exact Hrows'|].
      apply Forall_app. split; [exact Hrows'|].
      constructor; [|constructor]. right.
      unfold from_the_form, form_request, session_user_row.
      cbn. split; [reflexivity|]. split; [exact Hvalid|].
      apply Himage'. exact Hcaptured.
    + unfold step. rewrite Hstage. unfold handleSubmit.
      destruct (userName_valid name); [|split; assumption].
      unfold onSubmit. destruct agreed; cbn [negb]; [|split; assumption].
      unfold onSearch, post_search, to_request. cbn [captured_image].
      rewrite Hcaptured.
      destruct net as [|answered]; cbn [app server];
        (split; [|exact Hrows']);
        intros image' H;
        rewrite (proj1 (proj2 (handleSearch_fields _ _))) in H;
        apply Himage', H.
Qed.

(** X21.  What the page makes the server store carries the consent.  After any
    events on a freshly loaded page, every row of [session_users] that was not
    there before holds ["True"] as consent, a name that passed the rules of
    the form (not empty, at least two characters), and an image that the
    capture step handed over while a face was detected. *)
Theorem sessions_of_the_page_carry_consent events (w : World) :
  Forall (fun row => In row (session_user w) \/ from_the_form events row)
    (session_user (server (run env cfg events (loaded w)))).
Proof.
  enough (H : (forall image,
                 capturedImage (app (run env cfg events (loaded w))) = Some image ->
                 In (ClickCapture (Some image) true) events) /\
              Forall (fun row => In row (session_user w) \/ from_the_form events row)
                (session_user (server (run env cfg events (loaded w)))))
    by apply H.
  induction events as [|e events IH] using rev_ind.
  - cbn. split; [discriminate|].
    apply Forall_forall. intros row H. left. exact H.
  - rewrite run_app. destruct IH as (Himage & Hrows).
    apply step_from_the_form; assumption.
Qed.

Lemma step_server_unreached e (s : System) :
  reaches_server e = false -> server (step env cfg e s) = server s.
Proof.
  intros H. destruct e as [response|canvas faceDetected|agreed name uuid now net].
  - unfold step. destruct (stage (app s)); reflexivity.
  - unfold step. destruct (stage (app s)); try reflexivity.
    unfold FaceCapture_handleCapture.
    destruct faceDetected; [destruct canvas|]; reflexivity.
  - unfold step. destruct (stage (app s)); try reflexivity.
    unfold handleSubmit. destruct (userName_valid name) eqn:Hvalid; [|reflexivity].
    unfold onSubmit. destruct agreed; [|reflexivity].
    destruct net as [|answered]; [reflexivity|].
    cbn in H. rewrite Hvalid in H. discriminate H.
Qed.

(** X22.  Without consent nothing is sent.  If every form submitted on the page
    lacks the consent or a valid name, or its request is lost, then after the
    events the server is as it was: no session, no upload, no call of a
    service. *)
Theorem server_is_untouched_without_consent events (w : World) :
  forallb (fun e => negb (reaches_server e)) events = true ->
  server (run env cfg events (loaded w)) = w.
Proof.
  induction events as [|e events IH] using rev_ind; intros H; [reflexivity|].
  rewrite forallb_app in H. apply andb_true_iff in H. destruct H as (H & He).
  cbn in He. rewrite andb_true_r in He. apply negb_true_iff in He.
  rewrite run_app, (step_server_unreached _ _ He). apply IH, H.
Qed.

End ClientFacts.

Lemma submitted_form_shows_the_outcome_witness :
  Client.stage (Client.app (Client.step env_ok settings (test_submit (Client.Delivered true))
                (captured PHOTO))) = Client.Results /\
  Client.error (Client.app (Client.step env_ok settings (test_submit (Client.Delivered true))
                       (captured PHOTO))) = None.
Proof.
  assert (Hstage : Client.stage (Client.app (captured PHOTO)) = Client.Form)
    by (vm_compute; reflexivity).
  assert (Himage : Client.capturedImage (Client.app (captured PHOTO)) = Some PHOTO)
    by (vm_compute; reflexivity).
  assert (Hvalid : Client.userName_valid "Ada" = true)
    by (vm_compute; reflexivity).
  pose proof (submitted_form_shows_the_outcome env_ok settings PHOTO "Ada"
                "session-1" "2025-11-02T00:00:00.000Z" (Client.Delivered true)
                (captured PHOTO) Hstage Himage Hvalid) as H.
  cbv zeta in H. destruct H as (_ & _ & _ & _ & H).
  destruct (search_photos env_ok settings
              (Client.form_request PHOTO "Ada" "session-1"
                 "2025-11-02T00:00:00.000Z")
              (Client.server (captured PHOTO))) as [w' [response|e]] eqn:Hs;
    [|vm_compute in Hs; discriminate Hs].
  cbn [snd Client.shows] in H. destruct H as (H1 & _ & H3).
  split; [exact H1 | exact H3].
Defined.

(** An image without a face keeps the page on the form, with the detail of the
    route as the error. *)
Example no_face_is_shown_on_the_form :
  let s := Client.step env_ok settings (test_submit (Client.Delivered true))
             (captured NOT_AN_IMAGE) in
  Client.stage (Client.app s) = Client.Form /\
  Client.error (Client.app s) =
    Some "No face detected in the image. Please try again with a clearer image.".
Proof. vm_compute. split; reflexivity. Qed.

(** A lost answer: the page shows a failure, the session is on the server. *)
Example lost_answer_leaves_the_session :
  let s := Client.step env_ok settings (test_submit (Client.Delivered false))
             (captured PHOTO) in
  Client.error (Client.app s) = Some "Search failed" /\
  map SessionUser.session_id (session_user (Client.server s)) = ["session-1"] /\
  map SessionUser.privacy_policy_agreed (session_user (Client.server s)) =
    ["True"].
Proof. vm_compute. repeat split. Qed.

Lemma server_is_untouched_without_consent_witness :
  Client.server
    (Client.run env_ok settings
       [Client.ClickCapture (Some PHOTO) true;
        Client.Submit false "Ada" "session-1" "2025-11-02T00:00:00.000Z"
          (Client.Delivered true);
        Client.Submit true "A" "session-2" "2025-11-02T00:00:01.000Z"
          (Client.Delivered true);
        test_submit Client.Lost]
       (Client.loaded empty_world)) = empty_world.
Proof.
  apply (server_is_untouched_without_consent env_ok settings).
  vm_compute. reflexivity.
Defined.
